(** * weeksched: a weekly schedule at one-minute granularity

    Shallow embedding of [weeksched/schedule.py] (class [WeeklySchedule]) and
    the properties of its natural-language specification.

    The schedule is a numpy array of shape (7, 24, 60).  Arrays are modelled
    by their element type, their shape and their elements in row-major
    order; Python exceptions by a [result] type; the mutable object by
    explicit state passing in a small state-and-exception monad. *)

From Stdlib Require Import ZArith QArith String List Bool Sorted Permutation Lia.
Import ListNotations.
Local Open Scope Z_scope.

(** ** Exceptions and results *)

Inductive exn : Type :=
| AssertionError (msg : string)
| ValueError (msg : string)
| TypeError
| IndexError
| UnknownTimeZoneError.

Inductive result (A : Type) : Type :=
| Ok (a : A)
| Raise (e : exn).
Arguments Ok {A} a.
Arguments Raise {A} e.

Definition rbind {A B} (r : result A) (k : A -> result B) : result B :=
  match r with
  | Ok a => k a
  | Raise e => Raise e
  end.

Declare Scope result_scope.
Delimit Scope result_scope with res.
Notation "x <- c ;; k" := (rbind c (fun x => k))
  (at level 61, c at next level, right associativity) : result_scope.

(** [assert cond, msg] *)
Definition py_assert (cond : bool) (msg : string) : result unit :=
  if cond then Ok tt else Raise (AssertionError msg).

(** ** Lists indexed by integers *)

Section ZList.
Context {A : Type}.

Definition zlen (l : list A) : Z := Z.of_nat (length l).

(** [l[i]] for an index already known to be non negative. *)
Definition zth (i : Z) (l : list A) (d : A) : A :=
  if i <? 0 then d else nth (Z.to_nat i) l d.

Definition ztake (n : Z) (l : list A) : list A := firstn (Z.to_nat n) l.
Definition zdrop (n : Z) (l : list A) : list A := skipn (Z.to_nat n) l.
Definition zrepeat (x : A) (n : Z) : list A := repeat x (Z.to_nat n).

(** The bound of a Python slice [l[lo:hi]] (step 1): a negative bound
    counts from the end, and every bound is clipped to [0, len]. *)
Definition slice_bound (len i : Z) : Z :=
  if i <? 0 then Z.max 0 (i + len) else Z.min i len.

(** [l[:stop]] *)
Definition slice_to (stop : Z) (l : list A) : list A :=
  ztake (slice_bound (zlen l) stop) l.

(** Cells [lo, hi) of [l] (numbered from [i]) overwritten by [v]. *)
Fixpoint fill_from (i lo hi : Z) (v : A) (l : list A) : list A :=
  match l with
  | [] => []
  | x :: r =>
      (if (lo <=? i) && (i <? hi) then v else x) :: fill_from (i + 1) lo hi v r
  end.

(** [l[lo:hi] = v] *)
Definition set_slice (lo hi : Z) (v : A) (l : list A) : list A :=
  fill_from 0 (slice_bound (zlen l) lo) (slice_bound (zlen l) hi) v l.

(** [np.roll(l, 1)]: every element moves one place right, the last one
    comes first. *)
Definition roll1 (l : list A) : list A :=
  match l with
  | [] => []
  | x :: _ => last l x :: removelast l
  end.

(** [l[0] = v] on a one-dimensional array. *)
Definition set_first (v : A) (l : list A) : list A :=
  match l with
  | [] => []
  | _ :: r => v :: r
  end.

Fixpoint zip_with {B C} (f : A -> B -> C) (l : list A) (m : list B) : list C :=
  match l, m with
  | x :: l', y :: m' => f x y :: zip_with f l' m'
  | _, _ => []
  end.
End ZList.

(** [np.argwhere] on a one-dimensional boolean array, positions numbered
    from [i]. *)
Fixpoint argwhere_from (i : Z) (l : list bool) : list Z :=
  match l with
  | [] => []
  | b :: r => if b then i :: argwhere_from (i + 1) r else argwhere_from (i + 1) r
  end.

(** ** numpy arrays *)

Inductive dtype : Type := np_bool | np_int | np_float.

(** Elements: booleans, integers, and the finite values of a floating
    type, which only take part in comparisons here and are given as
    rationals. *)
Definition elt (d : dtype) : Type :=
  match d with
  | np_bool => bool
  | np_int => Z
  | np_float => Q
  end.

(** What the code asks of an element type: truth value, [!=], [>= 0],
    [<= 1], [~] and [&] where the type has them (numpy raises [TypeError]
    on floats), and the conversion from a boolean on assignment. *)
Class Elem (A : Type) : Type := {
  truthy : A -> bool;
  neq : A -> A -> bool;
  ge0 : A -> bool;
  le1 : A -> bool;
  invert_op : option (A -> A);
  and_op : option (A -> A -> A);
  of_bool : bool -> A
}.

#[export] Instance Elem_bool : Elem bool := {|
  truthy := fun b => b;
  neq := xorb;
  ge0 := fun _ => true;
  le1 := fun _ => true;
  invert_op := Some negb;
  and_op := Some andb;
  of_bool := fun b => b
|}.

#[export] Instance Elem_int : Elem Z := {|
  truthy := fun z => negb (z =? 0);
  neq := fun a b => negb (a =? b);
  ge0 := fun z => 0 <=? z;
  le1 := fun z => z <=? 1;
  invert_op := Some Z.lnot;
  and_op := Some Z.land;
  of_bool := fun b => if b then 1 else 0
|}.

#[export] Instance Elem_float : Elem Q := {|
  truthy := fun q => negb (Qeq_bool q 0);
  neq := fun a b => negb (Qeq_bool a b);
  ge0 := fun q => Qle_bool 0 q;
  le1 := fun q => Qle_bool q 1;
  invert_op := None;
  and_op := None;
  of_bool := fun b => if b then 1%Q else 0%Q
|}.

Definition elem_of (d : dtype) : Elem (elt d) :=
  match d with
  | np_bool => Elem_bool
  | np_int => Elem_int
  | np_float => Elem_float
  end.
#[export] Existing Instance elem_of.

Record ndarray : Type := mk_array {
  dtype_of : dtype;
  shape : list Z;
  data : list (elt dtype_of)
}.

(** Number of elements of an array of shape [sh]. *)
Definition size (sh : list Z) : Z := fold_right Z.mul 1 sh.

(** An array value has as many elements as its shape says. *)
Definition wf_array (a : ndarray) : Prop :=
  Forall (fun n => 0 <= n) (shape a) /\ zlen (data a) = size (shape a).

Definition bool_array (sh : list Z) (l : list bool) : ndarray :=
  mk_array np_bool sh l.

(** [np.zeros(sh, dtype=bool)], [np.ones(sh, dtype=bool)] *)
Definition np_zeros (sh : list Z) : ndarray := bool_array sh (zrepeat false (size sh)).
Definition np_ones (sh : list Z) : ndarray := bool_array sh (zrepeat true (size sh)).

(** [np.all(a)], [np.any(a)] *)
Definition np_all (a : ndarray) : bool := forallb truthy (data a).
Definition np_any (a : ndarray) : bool := existsb truthy (data a).

(** An index [i] on an axis of length [n]: negative indices count from
    the end. *)
Definition norm_index (n i : Z) : option Z :=
  if (- n <=? i) && (i <? n) then Some (i mod n) else None.

(** [a[i]]: the [i]-th block along the first axis. *)
Definition getitem (a : ndarray) (i : Z) : result ndarray :=
  match shape a with
  | [] => Raise IndexError
  | n :: rest =>
      match norm_index n i with
      | None => Raise IndexError
      | Some k =>
          Ok (mk_array (dtype_of a) rest
                (ztake (size rest) (zdrop (k * size rest) (data a))))
      end
  end.

(** [a.reshape(sh)] *)
Definition reshape (a : ndarray) (sh : list Z) : result ndarray :=
  if size (shape a) =? size sh
  then Ok (mk_array (dtype_of a) sh (data a))
  else Raise (ValueError "cannot reshape array").

(** [~a] *)
Definition np_invert (a : ndarray) : result ndarray :=
  match invert_op with
  | Some f => Ok (mk_array (dtype_of a) (shape a) (map f (data a)))
  | None => Raise TypeError
  end.

(** The index [i] along the first axis of [a]: the position it denotes
    and the shape of a block. *)
Definition axis_index (a : ndarray) (i : Z) : result (Z * list Z) :=
  match shape a with
  | [] => Raise IndexError
  | n :: rest =>
      match norm_index n i with
      | None => Raise IndexError
      | Some k => Ok (k, rest)
      end
  end.

(** The [k]-th block of [blk] elements, and its replacement. *)
Definition block (a : ndarray) (blk k : Z) : list (elt (dtype_of a)) :=
  ztake blk (zdrop (k * blk) (data a)).

Definition set_block (a : ndarray) (blk k : Z) (v : list (elt (dtype_of a))) : ndarray :=
  mk_array (dtype_of a) (shape a)
    (ztake (k * blk) (data a) ++ v ++ zdrop ((k + 1) * blk) (data a)).

(** [a[i] = v.reshape(24, 60)] for a boolean vector [v] of 1440 cells:
    numpy broadcasts the (24, 60) block over the leading axes of [a[i]],
    if any, and converts the booleans to the element type of [a]. *)
Definition setitem_day (a : ndarray) (i : Z) (v : list bool) : result ndarray :=
  match axis_index a i with
  | Raise e => Raise e
  | Ok (k, rest) =>
      match rev rest with
      | 60 :: 24 :: pre =>
          Ok (set_block a (size rest) k
                (concat (zrepeat (map of_bool v) (size pre))))
      | _ => Raise (ValueError "could not broadcast input array")
      end
  end.

(** [a & b] on one-dimensional arrays of one element type. *)
Definition bitwise_and {A} `{Elem A} (a b : list A) : result (list A) :=
  match and_op with
  | None => Raise TypeError
  | Some f =>
      if zlen a =? zlen b then Ok (zip_with f a b)
      else match a, b with
           | _, [y] => Ok (map (fun x => f x y) a)
           | [x], _ => Ok (map (f x) b)
           | _, _ => Raise (ValueError "operands could not be broadcast together")
           end
  end.

(** [a[k] = v] for a row [v] of a two-dimensional array with rows of
    [blk] elements. *)
Definition setitem_row (a : ndarray) (blk k : Z) (v : list (elt (dtype_of a)))
  : result ndarray :=
  if zlen v =? blk then Ok (set_block a blk k v)
  else match v with
       | [x] => Ok (set_block a blk k (zrepeat x blk))
       | _ => Raise (ValueError "could not broadcast input array")
       end.

(** A Python value returned by a query. *)
Inductive pyval : Type :=
| VBool (b : bool)
| VInt (z : Z)
| VFloat (q : Q)
| VArray (a : ndarray).

Definition item (d : dtype) : elt d -> pyval :=
  match d with
  | np_bool => VBool
  | np_int => VInt
  | np_float => VFloat
  end.

(** [a[i, j, k]] *)
Definition getitem3 (a : ndarray) (i j k : Z) : result pyval :=
  match shape a with
  | n1 :: n2 :: n3 :: rest =>
      match norm_index n1 i, norm_index n2 j, norm_index n3 k with
      | Some i', Some j', Some k' =>
          let pos := (i' * n2 + j') * n3 + k' in
          match rest, block a (size rest) pos with
          | [], [x] => Ok (item (dtype_of a) x)
          | _, l => Ok (VArray (mk_array (dtype_of a) rest l))
          end
      | _, _, _ => Raise IndexError
      end
  | _ => Raise IndexError
  end.

(** ** Day schedules: the compact format *)

(** A time of day [(hour, minute)]; an interval [(start, end)]. *)
Definition hm : Type := Z * Z.
Definition slot : Type := hm * hm.

(** A day schedule is one interval, a tuple of two dimensions for numpy,
    or a tuple of intervals, of three dimensions; the empty tuple has one
    dimension.  Other nestings are not values of this type. *)
Inductive day_sched : Type :=
| Single (s e : hm)
| Multi (l : list slot).

(** Python compares tuples lexicographically. *)
Definition tuple_le (a b : hm) : bool :=
  (fst a <? fst b) || ((fst a =? fst b) && (snd a <=? snd b)).
Definition tuple_lt (a b : hm) : bool :=
  (fst a <? fst b) || ((fst a =? fst b) && (snd a <? snd b)).

Definition in_day (t : hm) : bool := tuple_le (0, 0) t && tuple_le t (24, 0).

(** [define_slot(s, e)] of [to_vector], on the vector [slots]; the
    endpoints are tuples by their type. *)
Definition define_slot (slots : list bool) (s e : hm) : result (list bool) :=
  (_ <- py_assert (in_day s) "start time should be 00:00 <= x <= 24:00" ;;
   _ <- py_assert (in_day e) "end time should be 00:00 <= x <= 24:00" ;;
   _ <- py_assert (tuple_lt s e) "start time should be before end time" ;;
   Ok (set_slice (fst s * 60 + snd s) (fst e * 60 + snd e) true slots))%res.

Fixpoint define_slots (slots : list bool) (l : list slot) : result (list bool) :=
  match l with
  | [] => Ok slots
  | (s, e) :: r => (slots' <- define_slot slots s e ;; define_slots slots' r)%res
  end.

Definition to_vector (sched : day_sched) : result (list bool) :=
  let slots := zrepeat false (24 * 60) in
  match sched with
  | Single s e => define_slot slots s e
  | Multi [] =>
      Raise (ValueError "Invalid day schedule format. Expected 2D or 3D tuple. Got 1D.")
  | Multi l => define_slots slots l
  end.

(** A dict of day schedules, as its items in insertion order. *)
Definition raw_dict : Type := list (Z * day_sched).

Definition in_range7 (day : Z) : bool := (0 <=? day) && (day <? 7).

Fixpoint to_matrix_loop (slots : ndarray) (items : raw_dict) : result ndarray :=
  match items with
  | [] => Ok slots
  | (day, sched) :: r =>
      (_ <- py_assert (in_range7 day) "day should be in range 0-6" ;;
       v <- to_vector sched ;;
       slots' <- setitem_day slots day v ;;
       to_matrix_loop slots' r)%res
  end.

Definition to_matrix (ctrl_sched : raw_dict) : result ndarray :=
  to_matrix_loop (np_zeros [7; 24; 60]) ctrl_sched.

(** ** Dates and time zones

    [datetime] is Python's: a proleptic Gregorian day number, a wall-clock
    time and, for an aware value, the offset from UTC in minutes.  A time
    zone gives the offset in force at a UTC minute. *)

Record datetime : Type := mk_datetime {
  toordinal : Z;
  hour : Z;
  minute : Z;
  second : Z;
  utcoffset : option Z
}.

(** [dt.weekday()]: day 1 was a Monday. *)
Definition weekday (dt : datetime) : Z := (toordinal dt + 6) mod 7.

Definition valid_datetime (dt : datetime) : Prop :=
  1 <= toordinal dt /\ 0 <= hour dt < 24 /\ 0 <= minute dt < 60 /\ 0 <= second dt < 60.

Definition tzinfo : Type := Z -> Z.

Definition utc : tzinfo := fun _ => 0.

(** [dt.astimezone(tz)] for an aware [dt]: the same instant on the wall
    clock of [tz]. *)
Definition astimezone (tz : tzinfo) (dt : datetime) : option datetime :=
  match utcoffset dt with
  | None => None
  | Some off =>
      let instant := toordinal dt * 1440 + hour dt * 60 + minute dt - off in
      let local := instant + tz instant in
      Some (mk_datetime (local / 1440) (local mod 1440 / 60) (local mod 60)
              (second dt) (Some (tz instant)))
  end.

(** The argument of a query: any Python object. *)
Inductive pyobj : Type :=
| PyNone
| PyDatetime (dt : datetime)
| PyOther.

(** ** The class *)

Inductive Day : Type :=
| Monday | Tuesday | Wednesday | Thursday | Friday | Saturday | Sunday.

Definition value (d : Day) : Z :=
  match d with
  | Monday => 0 | Tuesday => 1 | Wednesday => 2 | Thursday => 3
  | Friday => 4 | Saturday => 5 | Sunday => 6
  end.

Record WeeklySchedule : Type := mk_sched {
  _schedule : ndarray;
  _timezone : option string;
  _pytz : option tzinfo;
  _is_working_day_fun : option (datetime -> bool)
}.

(** [WeeklySchedule()] *)
Definition init : WeeklySchedule :=
  mk_sched (np_zeros [7; 24; 60]) None None None.

Definition with_schedule (self : WeeklySchedule) (a : ndarray) : WeeklySchedule :=
  mk_sched a (_timezone self) (_pytz self) (_is_working_day_fun self).

(** Methods run on the object [self], which they may change before they
    return or raise. *)
Definition M (A : Type) : Type := WeeklySchedule -> result A * WeeklySchedule.

Definition mret {A} (a : A) : M A := fun self => (Ok a, self).

Definition mbind {A B} (m : M A) (k : A -> M B) : M B :=
  fun self =>
    match m self with
    | (Ok a, self') => k a self'
    | (Raise e, self') => (Raise e, self')
    end.

Definition lift {A} (r : result A) : M A := fun self => (r, self).
Definition get : M WeeklySchedule := fun self => (Ok self, self).
Definition put (s : WeeklySchedule) : M unit := fun _ => (Ok tt, s).

Declare Scope method_scope.
Delimit Scope method_scope with method.
Notation "x <- c ;; k" := (mbind c (fun x => k))
  (at level 61, c at next level, right associativity) : method_scope.

Fixpoint for_each {A} (f : A -> M unit) (l : list A) : M unit :=
  match l with
  | [] => mret tt
  | x :: r => (_ <- f x ;; for_each f r)%method
  end.

(** A static method that builds an object, runs methods on it and
    returns it. *)
Definition build (m : M unit) (self : WeeklySchedule) : result WeeklySchedule :=
  match m self with
  | (Ok _, self') => Ok self'
  | (Raise e, _) => Raise e
  end.

Fixpoint shape_eqb (a b : list Z) : bool :=
  match a, b with
  | [], [] => true
  | x :: a', y :: b' => (x =? y) && shape_eqb a' b'
  | _, _ => false
  end.

(** [len(a)]: the first dimension; a [TypeError] without dimensions. *)
Definition np_len (a : ndarray) : result Z :=
  match shape a with
  | [] => Raise TypeError
  | n :: _ => Ok n
  end.

Definition validate_array (a : ndarray) : result unit :=
  (n <- np_len a ;;
   _ <- py_assert (n >? 0) "weekly schedule can't be empty" ;;
   _ <- py_assert (shape_eqb (shape a) [7; 24; 60])
          "weekly schedule should be a 7x24x60 matrix" ;;
   _ <- py_assert (forallb ge0 (data a)) "weekly schedule should have positive values" ;;
   py_assert (forallb le1 (data a)) "weekly schedule should have values <= 1")%res.

Definition _validate : M unit :=
  fun self => (validate_array (_schedule self), self).

(** [range(lo, hi)] *)
Definition py_range (lo hi : Z) : list Z :=
  map (fun i => lo + Z.of_nat i) (seq 0 (Z.to_nat (hi - lo))).

Definition _set_day_schedule (day : Z) (sched : day_sched) : M unit :=
  (v <- lift (to_vector sched) ;;
   self <- get ;;
   a <- lift (setitem_day (_schedule self) day v) ;;
   _ <- put (with_schedule self a) ;;
   _validate)%method.

Definition monday := _set_day_schedule 0.
Definition tuesday := _set_day_schedule 1.
Definition wednesday := _set_day_schedule 2.
Definition thursday := _set_day_schedule 3.
Definition friday := _set_day_schedule 4.
Definition saturday := _set_day_schedule 5.
Definition sunday := _set_day_schedule 6.

(** [from_to]: the same day schedule on a range of week days, on a new
    object. *)
Definition from_to (day_start day_end : Day) (sched : day_sched)
  : result WeeklySchedule :=
  build (for_each (fun day => _set_day_schedule day sched)
           (py_range (value day_start) (value day_end + 1)))
        init.

(** One turn of the loop of [shift_start], on the view [day_schedules] of
    shape (7, 1440). *)
Definition shift_day (total : Z) (day_schedules : ndarray) (day : Z) : result ndarray :=
  match axis_index day_schedules day with
  | Raise e => Raise e
  | Ok (k, rest) =>
      let row := block day_schedules (size rest) k in
      let shifted_slots := map of_bool (zrepeat false total) ++ row in
      let shifted_slots := slice_to (- total) shifted_slots in
      (masked <- bitwise_and row shifted_slots ;;
       setitem_row day_schedules (size rest) k masked)%res
  end.

Fixpoint shift_days (total : Z) (days : list Z) (day_schedules : ndarray)
  : result unit * ndarray :=
  match days with
  | [] => (Ok tt, day_schedules)
  | day :: r =>
      match shift_day total day_schedules day with
      | Ok a => shift_days total r a
      | Raise e => (Raise e, day_schedules)
      end
  end.

(** [shift_start]: the view [day_schedules] shares the cells of the
    schedule, so the rows assigned before an exception stay assigned. *)
Definition shift_start (hours minutes : Z) : M unit :=
  fun self =>
    let total_minutes_shift := hours * 60 + minutes in
    match py_assert (total_minutes_shift >=? 0)
            "start should be postponed by a positive number of minutes" with
    | Raise e => (Raise e, self)
    | Ok _ =>
        match reshape (_schedule self) [7; 24 * 60] with
        | Raise e => (Raise e, self)
        | Ok day_schedules =>
            match shift_days total_minutes_shift (py_range 0 7) day_schedules with
            | (Raise e, a) =>
                (Raise e,
                 with_schedule self
                   (mk_array (dtype_of a) (shape (_schedule self)) (data a)))
            | (Ok _, a) =>
                match reshape a [7; 24; 60] with
                | Raise e =>
                    (Raise e,
                     with_schedule self
                       (mk_array (dtype_of a) (shape (_schedule self)) (data a)))
                | Ok a' => _validate (with_schedule self a')
                end
            end
        end
    end.

(** [self._schedule[weekday, hour, minute]] *)
Definition _is_on_weekly_schedule (self : WeeklySchedule) (wd h m : Z) : result pyval :=
  getitem3 (_schedule self) wd h m.

Definition is_on_at (self : WeeklySchedule) (dt : pyobj) : result pyval :=
  match dt with
  | PyNone => Raise (AssertionError "dt should not be None")
  | PyOther => Raise (AssertionError "dt should be a datetime")
  | PyDatetime d =>
      match _is_working_day_fun self with
      | Some f =>
          if negb (f d) then Ok (VBool false)
          else _is_on_weekly_schedule self (weekday d) (hour d) (minute d)
      | None => _is_on_weekly_schedule self (weekday d) (hour d) (minute d)
      end
  end.

(** [with_working_days_calendar]: a callable is kept as it is, of a
    calendar its method [is_working_day]. *)
Inductive calendar_arg : Type :=
| Callable (f : datetime -> bool)
| CalendarObject (is_working_day : datetime -> bool).

Definition with_working_days_calendar (calendar : calendar_arg) : M unit :=
  fun self =>
    let f := match calendar with
             | Callable f => f
             | CalendarObject is_working_day => is_working_day
             end in
    (Ok tt, mk_sched (_schedule self) (_timezone self) (_pytz self) (Some f)).

(** ** Decoding: from the matrix back to the compact format *)

Definition whole_day : day_sched := Single (0, 0) (24, 0).

(** The truth value of [a[i, j]], as an [if] asks for it. *)
Definition truth2 (a : ndarray) (i j : Z) : result bool :=
  match shape a with
  | p :: q :: rest =>
      match norm_index p i, norm_index q j with
      | Some i', Some j' =>
          match block a (size rest) (i' * q + j') with
          | [x] => Ok (truthy x)
          | _ => Raise (ValueError "The truth value of an array is ambiguous")
          end
      | _, _ => Raise IndexError
      end
  | _ => Raise IndexError
  end.

(** The positions where a slot starts or ends: where a minute differs
    from the minute before, the roll being undone at position 0. *)
Definition slot_edges {A} `{Elem A} (flat_slots : list A) : list Z :=
  match flat_slots with
  | [] => []
  | x :: _ =>
      let rolled_slots := set_first x (roll1 flat_slots) in
      argwhere_from 0 (zip_with neq rolled_slots flat_slots)
  end.

(** The loop that groups the slot indexes into (start, end) pairs: the
    indexes of even rank are starts, those of odd rank are ends. *)
Fixpoint group_slots (idx : Z) (start end_ : option hm) (slot_indexes : list Z)
  (day_slots : list slot) : list slot :=
  match slot_indexes with
  | [] => day_slots
  | slot_index :: r =>
      let t := (slot_index / 60, slot_index mod 60) in
      let start' := if idx mod 2 =? 0 then Some t else start in
      let end' := if idx mod 2 =? 0 then end_ else Some t in
      match start', end' with
      | Some s, Some e => group_slots (idx + 1) None None r (day_slots ++ [(s, e)])
      | _, _ => group_slots (idx + 1) start' end' r day_slots
      end
  end.

(** One day of [format_schedule]: [None] when the day gets no key. *)
Definition format_day (day_schedule : ndarray) : result (option day_sched) :=
  if np_all day_schedule then Ok (Some whole_day)
  else if negb (np_any day_schedule) then Ok None
  else
    (flat_slots <- reshape day_schedule [24 * 60] ;;
     let slot_indexes := slot_edges (data flat_slots) in
     starts_at_0 <- truth2 day_schedule 0 0 ;;
     let slot_indexes := if starts_at_0 : bool then 0 :: slot_indexes else slot_indexes in
     ends_at_24 <- truth2 day_schedule (-1) (-1) ;;
     let slot_indexes :=
       if ends_at_24 : bool then slot_indexes ++ [24 * 60] else slot_indexes in
     let day_slots := group_slots 0 None None slot_indexes [] in
     Ok (Some (match day_slots with
               | [(s, e)] => Single s e
               | _ => Multi day_slots
               end)))%res.

Fixpoint format_days (a : ndarray) (days : list Z) (formated_schedule : raw_dict)
  : result raw_dict :=
  match days with
  | [] => Ok formated_schedule
  | day :: r =>
      (day_schedule <- getitem a day ;;
       f <- format_day day_schedule ;;
       format_days a r
         (match f with
          | Some s => formated_schedule ++ [(day, s)]
          | None => formated_schedule
          end))%res
  end.

Definition format_schedule (self : WeeklySchedule) : result raw_dict :=
  let a := _schedule self in
  if np_all a then Ok (map (fun day => (day, whole_day)) (py_range 0 7))
  else if negb (np_any a) then Ok []
  else format_days a (py_range 0 7) [].

(** ** Time zones and the constructors that resolve them

    [pytz.timezone] is a library function: the data base of time zones is
    a parameter.  It knows "UTC", and raises on [None] as on an unknown
    name. *)

Inductive raw_sched : Type :=
| RawDict (items : raw_dict)
| RawArray (a : ndarray)
| RawOther.

Section TimeZones.
Variable pytz_timezone : string -> option tzinfo.

Definition for_timezone (tz : option string) : M unit :=
  fun self =>
    let self1 := mk_sched (_schedule self) tz (_pytz self) (_is_working_day_fun self) in
    match tz with
    | None => (Raise UnknownTimeZoneError, self1)
    | Some name =>
        match pytz_timezone name with
        | None => (Raise UnknownTimeZoneError, self1)
        | Some z =>
            (Ok tt, mk_sched (_schedule self) tz (Some z) (_is_working_day_fun self))
        end
    end.

(** [from_raw(raw_sched, time_zone)]; [time_zone] is [None] when it is
    not a string. *)
Definition from_raw (raw : raw_sched) (time_zone : option string)
  : result WeeklySchedule :=
  match raw, time_zone with
  | RawOther, _ => Raise (AssertionError "raw_sched should be a dict or np.ndarray")
  | _, None => Raise (AssertionError "time_zone should be a string")
  | RawDict items, Some tz =>
      (_ <- py_assert (negb (Nat.eqb (length items) 0)) "raw schedule can't be empty" ;;
       a <- to_matrix items ;;
       build (_ <- for_timezone (Some tz) ;; _validate)%method (with_schedule init a))%res
  | RawArray a, Some tz =>
      build (_ <- for_timezone (Some tz) ;; _validate)%method (with_schedule init a)
  end.

(** [never()] *)
Definition never : result WeeklySchedule :=
  build (for_timezone (Some "UTC"%string)) init.

(** [always()] *)
Definition always : result WeeklySchedule :=
  (s <- from_raw (RawArray (np_ones [7; 24; 60])) (Some "UTC"%string) ;;
   build (for_timezone (Some "UTC"%string)) s)%res.

(** [invert(other)] *)
Definition invert (other : WeeklySchedule) : result WeeklySchedule :=
  (a <- np_invert (_schedule other) ;;
   s <- from_raw (RawArray a) (Some "UTC"%string) ;;
   build (for_timezone (_timezone other)) s)%res.

(** [clone()]: an empty string counts as no time zone. *)
Definition clone (self : WeeklySchedule) : result WeeklySchedule :=
  let new_sched := with_schedule init (_schedule self) in
  (new_sched <-
     match _timezone self with
     | None => Ok new_sched
     | Some EmptyString => Ok new_sched
     | Some tz =>
         match _pytz self with
         | None => Ok (mk_sched (_schedule new_sched) (Some tz) None None)
         | Some _ =>
             match pytz_timezone tz with
             | None => Raise UnknownTimeZoneError
             | Some z => Ok (mk_sched (_schedule new_sched) (Some tz) (Some z) None)
             end
         end
     end ;;
   Ok (mk_sched (_schedule new_sched) (_timezone new_sched) (_pytz new_sched)
         (_is_working_day_fun self)))%res.
End TimeZones.

(** ** Notions of the specification *)

(** The truth value of every cell, in row-major order. *)
Definition bits (a : ndarray) : list bool := map truthy (data a).

(** The window of the data model: its grid is a boolean array of shape
    (7, 24, 60). *)
Definition well_formed (W : WeeklySchedule) : Prop :=
  exists l, _schedule W = bool_array [7; 24; 60] l /\ zlen l = 7 * 1440.

(** The 1440 minutes of day [k] among the cells [l] of a grid, and the
    cells of the grid after [a[k] = v]. *)
Definition day_of (l : list bool) (k : Z) : list bool :=
  ztake 1440 (zdrop (k * 1440) l).

Definition with_day (l : list bool) (k : Z) (v : list bool) : list bool :=
  ztake (k * 1440) l ++ v ++ zdrop ((k + 1) * 1440) l.

(** The 1440 minutes of day [d], and minute [m] of day [d]. *)
Definition day_vector (W : WeeklySchedule) (d : Z) : list bool :=
  day_of (bits (_schedule W)) d.

(** The shift as the specification words it: [total] false minutes are
    put before the vector [v] and the last [total] minutes dropped; the
    new vector is [v AND] that. *)
Definition delayed (total : Z) (v : list bool) : list bool :=
  ztake (zlen v) (zrepeat false total ++ v).

Definition shift_vector (total : Z) (v : list bool) : list bool :=
  zip_with andb v (delayed total v).

(** The window of [monday_6_18] in UTC, and Monday 14 February 2022,
    06:30 at one hour east of UTC, which is 05:30 in UTC. *)
Definition monday_6_18 : raw_dict := [(0, Single (6, 0) (18, 0))].

Definition matrix_of (items : raw_dict) : ndarray :=
  match to_matrix items with
  | Ok a => a
  | Raise _ => np_zeros [7; 24; 60]
  end.

Definition window_6_18 : WeeklySchedule :=
  mk_sched (matrix_of monday_6_18) (Some "UTC"%string) (Some utc) None.

Definition monday_0630_plus1 : datetime := mk_datetime 738200 6 30 0 (Some 60).
Definition monday_0530_utc : datetime := mk_datetime 738200 5 30 0 (Some 0).

Definition cell (W : WeeklySchedule) (d m : Z) : bool :=
  zth (d * 1440 + m) (bits (_schedule W)) false.

(** A small data base of time zones for the examples: UTC and a zone one
    hour ahead of it. *)
Definition tz_table (name : string) : option tzinfo :=
  if String.eqb name "UTC" then Some utc
  else if String.eqb name "Etc/GMT-1" then Some (fun _ => 60)
  else None.

(** The cells of a grid once the loop of [shift_start] has run over
    [days]. *)
Definition shift_cells (total : Z) (days : list Z) (l : list bool) : list bool :=
  fold_left (fun acc k => with_day acc k (shift_vector total (day_of acc k))) days l.

(** A dict whose Monday starts at minute 70 of hour 0 and ends at 01:00. *)
Definition monday_minute_70 : raw_dict := [(0, Single (0, 70) (1, 0))].

(** The intervals of a day schedule. *)
Definition slots_of (sched : day_sched) : list slot :=
  match sched with
  | Single s e => [(s, e)]
  | Multi l => l
  end.

(** The setters of the seven days. *)
Definition day_setters : list (day_sched -> M unit) :=
  [monday; tuesday; wednesday; thursday; friday; saturday; sunday].

(** The invariant of the grid.  A value is boolean when it equals
    [False] or [True], that is 0 or 1; it is in the unit range when it
    passes the two comparisons of [_validate]. *)
Definition is_boolean {A} `{Elem A} (x : A) : bool :=
  negb (neq x (of_bool false)) || negb (neq x (of_bool true)).

Definition in_unit {A} `{Elem A} (x : A) : bool := ge0 x && le1 x.

Definition grid_shape (a : ndarray) : Prop :=
  shape a = [7; 24; 60] /\ zlen (data a) = 7 * 1440.

Definition boolean_grid (a : ndarray) : Prop :=
  grid_shape a /\ forallb is_boolean (data a) = true.

Definition unit_grid (a : ndarray) : Prop :=
  grid_shape a /\ forallb in_unit (data a) = true.

(** The windows a caller can hold: those the constructors return, and
    what the methods leave of a window after they return or raise.  Dense
    grids given to [from_raw] are array values that satisfy [dense]. *)
Inductive reachable (pytz_timezone : string -> option tzinfo)
  (dense : ndarray -> Prop) : WeeklySchedule -> Prop :=
| reach_init : reachable pytz_timezone dense init
| reach_never W :
    never pytz_timezone = Ok W -> reachable pytz_timezone dense W
| reach_always W :
    always pytz_timezone = Ok W -> reachable pytz_timezone dense W
| reach_from_raw_dict items tz W :
    from_raw pytz_timezone (RawDict items) tz = Ok W ->
    reachable pytz_timezone dense W
| reach_from_raw_array a tz W :
    wf_array a -> dense a ->
    from_raw pytz_timezone (RawArray a) tz = Ok W ->
    reachable pytz_timezone dense W
| reach_from_to day_start day_end sched W :
    from_to day_start day_end sched = Ok W -> reachable pytz_timezone dense W
| reach_invert W W' :
    reachable pytz_timezone dense W -> invert pytz_timezone W = Ok W' ->
    reachable pytz_timezone dense W'
| reach_clone W W' :
    reachable pytz_timezone dense W -> clone pytz_timezone W = Ok W' ->
    reachable pytz_timezone dense W'
| reach_for_timezone W tz :
    reachable pytz_timezone dense W ->
    reachable pytz_timezone dense (snd (for_timezone pytz_timezone tz W))
| reach_calendar W calendar :
    reachable pytz_timezone dense W ->
    reachable pytz_timezone dense (snd (with_working_days_calendar calendar W))
| reach_setter W setter sched :
    reachable pytz_timezone dense W -> In setter day_setters ->
    reachable pytz_timezone dense (snd (setter sched W))
| reach_shift_start W hours minutes :
    reachable pytz_timezone dense W ->
    reachable pytz_timezone dense (snd (shift_start hours minutes W)).

(** A dense grid of floating-point values, all one half. *)
Definition half_grid : ndarray :=
  mk_array np_float [7; 24; 60] (zrepeat (1 # 2)%Q (7 * 1440)).

Definition half_window : WeeklySchedule :=
  mk_sched half_grid (Some "UTC"%string) (Some utc) None.

(** The view of the grid by days, of shape (7, 1440), with its cells in
    the unit range. *)
Definition day_rows (a : ndarray) : Prop :=
  shape a = [7; 24 * 60] /\ zlen (data a) = 7 * 1440 /\
  forallb in_unit (data a) = true.

(** ** The round trip *)

(** The value of a key in a dict. *)
Fixpoint lookup (day : Z) (items : raw_dict) : option day_sched :=
  match items with
  | [] => None
  | (k, sched) :: r => if k =? day then Some sched else lookup day r
  end.

(** The canonical form of a day schedule, in the words of the
    specification: no entry for a day whose vector is all false, the whole
    day for a vector that is all true, a bare pair for a single interval,
    the schedule itself otherwise. *)
Definition canonical_day (sched : day_sched) : option day_sched :=
  match to_vector sched with
  | Raise _ => None
  | Ok v =>
      if forallb (fun b : bool => b) v then Some whole_day
      else if negb (existsb (fun b : bool => b) v) then None
      else match slots_of sched with
           | [(s, e)] => Some (Single s e)
           | _ => Some sched
           end
  end.

Definition canonical (items : raw_dict) : raw_dict :=
  flat_map (fun day =>
              match lookup day items with
              | Some sched =>
                  match canonical_day sched with
                  | Some c => [(day, c)]
                  | None => []
                  end
              | None => []
              end)
           (py_range 0 7).

(** The minute of the day that a time denotes. *)
Definition index (t : hm) : Z := fst t * 60 + snd t.

(** A day schedule in normal form: the minutes of its times are minutes
    of an hour, and each interval ends before the next one starts. *)
Fixpoint separated (l : list slot) : Prop :=
  match l with
  | (_, e1) :: (((s2, _) :: _) as r) => index e1 < index s2 /\ separated r
  | _ => True
  end.

Definition clock_times (l : list slot) : Prop :=
  Forall (fun se : slot => 0 <= snd (fst se) < 60 /\ 0 <= snd (snd se) < 60) l.

Definition normal_day (sched : day_sched) : Prop :=
  clock_times (slots_of sched) /\ separated (slots_of sched).

(** An interval that lies within the day. *)
Definition within_day (se : slot) : Prop :=
  0 <= index (fst se) /\ index (fst se) < index (snd se) /\ index (snd se) <= 1440.

(** Intervals of minutes [a, b): the minutes they cover, their bounds in
    order, and the chains of intervals that lie apart above [lo]. *)
Definition covers (ivs : list (Z * Z)) (i : Z) : bool :=
  existsb (fun ab => (fst ab <=? i) && (i <? snd ab)) ivs.

Definition bounds (ivs : list (Z * Z)) : list Z :=
  flat_map (fun ab => [fst ab; snd ab]) ivs.

Fixpoint chain (lo : Z) (ivs : list (Z * Z)) : Prop :=
  match ivs with
  | [] => True
  | (a, b) :: r => lo < a /\ a < b /\ chain b r
  end.

Definition minutes_of (se : slot) : Z * Z := (index (fst se), index (snd se)).

(** The slot indexes that [format_schedule] collects for a day of 1440
    booleans: 0 when the day starts on, the edges, 1440 when it ends on. *)
Definition slot_indexes_of (v : list bool) : list Z :=
  (if zth 0 v false then [0] else []) ++ slot_edges v ++
  (if zth 1439 v false then [24 * 60] else []).

(** [format_schedule] on the 1440 booleans of one day. *)
Definition decode_day (v : list bool) : option day_sched :=
  if forallb (fun b : bool => b) v then Some whole_day
  else if negb (existsb (fun b : bool => b) v) then None
  else
    let day_slots := group_slots 0 None None (slot_indexes_of v) [] in
    Some (match day_slots with
          | [(s, e)] => Single s e
          | _ => Multi day_slots
          end).

(** The entry of day [d] in the formatted schedule of the cells [l]. *)
Definition decode_entry (l : list bool) (d : Z) : raw_dict :=
  match decode_day (day_of l d) with
  | Some sched => [(d, sched)]
  | None => []
  end.

(** The vector of an accepted day schedule. *)
Definition vector_of (sched : day_sched) : list bool :=
  match to_vector sched with
  | Ok v => v
  | Raise _ => []
  end.

(** A dict with two overlapping intervals on Monday. *)
Definition monday_overlap : raw_dict :=
  [(0, Multi [((0, 0), (7, 0)); ((6, 0), (8, 0))])].

(** ** Further methods and notions *)

(** [is_defined_for_day(day)], for a member of [Day] or an integer. *)
Inductive day_arg : Type :=
| DayEnum (d : Day)
| DayInt (i : Z).

Definition is_defined_for_day (self : WeeklySchedule) (day : day_arg) : result bool :=
  (day_schedule <- getitem (_schedule self)
                     (match day with
                      | DayEnum d => value d
                      | DayInt i => i
                      end) ;;
   Ok (np_any day_schedule))%res.

(** What the checks of [to_vector] and [to_matrix] ask of a dict. *)
Definition accepted_slot (se : slot) : bool :=
  in_day (fst se) && in_day (snd se) && tuple_lt (fst se) (snd se).

Definition accepted_day (sched : day_sched) : bool :=
  match sched with
  | Multi [] => false
  | _ => forallb accepted_slot (slots_of sched)
  end.

Definition accepted_dict (items : raw_dict) : bool :=
  negb (Nat.eqb (length items) 0) &&
  forallb (fun item => in_range7 (fst item) && accepted_day (snd item)) items.

(** The cells of a grid once the vector [v] has been assigned to the
    days of [days]. *)
Definition set_days (v : list bool) (days : list Z) (l : list bool) : list bool :=
  fold_left (fun acc k => with_day acc k v) days l.

(** The function that [with_working_days_calendar] keeps. *)
Definition calendar_fun (calendar : calendar_arg) : datetime -> bool :=
  match calendar with
  | Callable f => f
  | CalendarObject is_working_day => is_working_day
  end.

(** A window whose time zone fields agree: no name and no zone, or a
    name that is not empty with no zone or with the zone that the data
    base gives for it. *)
Definition tz_coherent (pytz_timezone : string -> option tzinfo)
  (W : WeeklySchedule) : Prop :=
  match _timezone W, _pytz W with
  | None, None => True
  | None, Some _ => False
  | Some name, None => name <> EmptyString
  | Some name, Some z => name <> EmptyString /\ pytz_timezone name = Some z
  end.

(** The integer grid of ones, as [np.ones((7, 24, 60), dtype=int)]. *)
Definition int_ones : ndarray := mk_array np_int [7; 24; 60] (zrepeat 1 (size [7; 24; 60])).

Definition int_window : WeeklySchedule :=
  mk_sched int_ones (Some "UTC"%string) (Some utc) None.

(** * Properties *)

(** ** Lists indexed by integers *)

Section ZListFacts.
Context {A : Type}.
Implicit Types (l m : list A) (d x : A) (i n : Z).

Lemma zlen_nonneg l : 0 <= zlen l.
Proof. unfold zlen; lia. Qed.

Lemma zlen_nil : zlen (@nil A) = 0.
Proof. reflexivity. Qed.

Lemma zlen_cons x l : zlen (x :: l) = 1 + zlen l.
Proof. unfold zlen; simpl length; lia. Qed.

Lemma zlen_app l m : zlen (l ++ m) = zlen l + zlen m.
Proof. unfold zlen; rewrite length_app; lia. Qed.

Lemma zlen_ztake n l : zlen (ztake n l) = Z.max 0 (Z.min n (zlen l)).
Proof. unfold zlen, ztake; rewrite length_firstn; lia. Qed.

Lemma zlen_zdrop n l : zlen (zdrop n l) = zlen l - Z.max 0 (Z.min n (zlen l)).
Proof. unfold zlen, zdrop; rewrite length_skipn; lia. Qed.

Lemma zlen_zrepeat x n : zlen (zrepeat x n) = Z.max 0 n.
Proof. unfold zlen, zrepeat; rewrite repeat_length; lia. Qed.

Lemma zth_cons_0 x l d : zth 0 (x :: l) d = x.
Proof. reflexivity. Qed.

Lemma zth_cons_pos i x l d : 0 < i -> zth i (x :: l) d = zth (i - 1) l d.
Proof.
  intros Hi; unfold zth.
  destruct (Z.ltb_spec i 0); [lia|].
  destruct (Z.ltb_spec (i - 1) 0); [lia|].
  replace (Z.to_nat i) with (S (Z.to_nat (i - 1))) by lia.
  reflexivity.
Qed.

Lemma zth_neg i l d : i < 0 -> zth i l d = d.
Proof. intros Hi; unfold zth; destruct (Z.ltb_spec i 0); [reflexivity|lia]. Qed.

Lemma zth_overflow i l d : zlen l <= i -> zth i l d = d.
Proof.
  unfold zth, zlen; intros Hi.
  destruct (Z.ltb_spec i 0); [reflexivity|].
  apply nth_overflow; lia.
Qed.

Lemma zth_app i l m d :
  0 <= i -> zth i (l ++ m) d = if i <? zlen l then zth i l d else zth (i - zlen l) m d.
Proof.
  unfold zth, zlen; intros Hi.
  destruct (Z.ltb_spec i 0); [lia|].
  destruct (Z.ltb_spec i (Z.of_nat (length l))).
  - apply app_nth1; lia.
  - destruct (Z.ltb_spec (i - Z.of_nat (length l)) 0); [lia|].
    rewrite app_nth2 by lia. f_equal; lia.
Qed.

Lemma zth_ztake i n l d : 0 <= i < n -> zth i (ztake n l) d = zth i l d.
Proof.
  unfold zth, ztake; intros Hi.
  destruct (Z.ltb_spec i 0); [lia|].
  rewrite nth_firstn.
  destruct (Nat.ltb_spec (Z.to_nat i) (Z.to_nat n)); [reflexivity|lia].
Qed.

Lemma zth_zdrop i n l d : 0 <= i -> 0 <= n -> zth i (zdrop n l) d = zth (i + n) l d.
Proof.
  unfold zth, zdrop; intros Hi Hn.
  destruct (Z.ltb_spec i 0); [lia|].
  destruct (Z.ltb_spec (i + n) 0); [lia|].
  rewrite nth_skipn. f_equal; lia.
Qed.

Lemma zth_zrepeat i x n d : 0 <= i < n -> zth i (zrepeat x n) d = x.
Proof.
  unfold zth, zrepeat; intros Hi.
  destruct (Z.ltb_spec i 0); [lia|].
  apply nth_repeat_lt; lia.
Qed.

(** Two lists of one length with the same elements are equal. *)
Lemma list_ext l m d :
  zlen l = zlen m ->
  (forall i, 0 <= i < zlen l -> zth i l d = zth i m d) ->
  l = m.
Proof.
  revert m; induction l as [|x l' IH]; intros [|y m'] Hlen Hnth.
  - reflexivity.
  - rewrite zlen_cons, zlen_nil in Hlen. pose proof (zlen_nonneg m'); lia.
  - rewrite zlen_cons, zlen_nil in Hlen. pose proof (zlen_nonneg l'); lia.
  - rewrite !zlen_cons in Hlen. rewrite zlen_cons in Hnth.
    pose proof (zlen_nonneg l').
    f_equal.
    + apply (Hnth 0); lia.
    + apply IH; [lia|]. intros i Hi.
      specialize (Hnth (i + 1)).
      rewrite !zth_cons_pos in Hnth by lia.
      replace (i + 1 - 1) with i in Hnth by lia.
      apply Hnth; lia.
Qed.

Lemma ztake_zdrop n l : ztake n l ++ zdrop n l = l.
Proof. apply firstn_skipn. Qed.

Lemma ztake_all n l : zlen l <= n -> ztake n l = l.
Proof. unfold ztake, zlen; intros; apply firstn_all2; lia. Qed.

Lemma zdrop_0 l : zdrop 0 l = l.
Proof. reflexivity. Qed.

Lemma zth_fill_from k i lo hi x l d :
  0 <= k < zlen l ->
  zth k (fill_from i lo hi x l) d =
  if (lo <=? i + k) && (i + k <? hi) then x else zth k l d.
Proof.
  revert k i; induction l as [|y l IH]; intros k i Hk.
  - rewrite zlen_nil in Hk; lia.
  - rewrite zlen_cons in Hk. simpl fill_from.
    destruct (Z.eq_dec k 0) as [->|Hne].
    + rewrite !zth_cons_0, Z.add_0_r; reflexivity.
    + rewrite !zth_cons_pos by lia.
      rewrite IH by lia.
      replace (i + 1 + (k - 1)) with (i + k) by lia. reflexivity.
Qed.

Lemma zlen_fill_from i lo hi x l : zlen (fill_from i lo hi x l) = zlen l.
Proof.
  revert i; induction l as [|y l IH]; intros i; simpl fill_from.
  - reflexivity.
  - rewrite !zlen_cons, IH; reflexivity.
Qed.
End ZListFacts.

Lemma zlen_map {A B} (f : A -> B) (l : list A) : zlen (map f l) = zlen l.
Proof. unfold zlen; rewrite length_map; reflexivity. Qed.

Lemma zth_map {A B} (f : A -> B) i (l : list A) d d' :
  0 <= i < zlen l -> zth i (map f l) d' = f (zth i l d).
Proof.
  unfold zth, zlen; intros Hi.
  destruct (Z.ltb_spec i 0); [lia|].
  rewrite (nth_indep _ d' (f d)) by (rewrite length_map; lia).
  apply map_nth.
Qed.

Lemma zlen_zip_with {A B C} (f : A -> B -> C) (l : list A) (m : list B) :
  zlen (zip_with f l m) = Z.min (zlen l) (zlen m).
Proof.
  revert m; induction l as [|x l' IH]; intros [|y m']; simpl zip_with.
  - reflexivity.
  - rewrite zlen_cons. change (zlen (@nil C)) with 0. change (zlen (@nil A)) with 0.
    pose proof (zlen_nonneg m'); lia.
  - rewrite zlen_cons. change (zlen (@nil C)) with 0. change (zlen (@nil B)) with 0.
    pose proof (zlen_nonneg l'); lia.
  - rewrite !zlen_cons, IH. lia.
Qed.

Lemma zth_zip_with {A B C} (f : A -> B -> C) i (l : list A) (m : list B) dA dB dC :
  0 <= i < zlen l -> i < zlen m ->
  zth i (zip_with f l m) dC = f (zth i l dA) (zth i m dB).
Proof.
  revert i m; induction l as [|x l' IH]; intros i [|y m'] Hl Hm.
  - change (zlen (@nil A)) with 0 in Hl; lia.
  - change (zlen (@nil A)) with 0 in Hl; lia.
  - change (zlen (@nil B)) with 0 in Hm; lia.
  - rewrite zlen_cons in Hl. rewrite zlen_cons in Hm. simpl zip_with.
    destruct (Z.eq_dec i 0) as [->|Hne].
    + reflexivity.
    + rewrite !zth_cons_pos by lia. apply IH; lia.
Qed.

(** ** Cells of a well-formed grid *)

Lemma ztake_1_zdrop {A} (l : list A) i d :
  0 <= i < zlen l -> ztake 1 (zdrop i l) = [zth i l d].
Proof.
  intros Hi. apply (list_ext _ _ d).
  - change (zlen [zth i l d]) with 1. rewrite zlen_ztake, zlen_zdrop. lia.
  - intros j Hj. rewrite zlen_ztake, zlen_zdrop in Hj.
    assert (j = 0) as -> by lia.
    rewrite zth_ztake, zth_zdrop by lia. reflexivity.
Qed.

Lemma norm_index_small n i : 0 <= i < n -> norm_index n i = Some i.
Proof.
  intros Hi; unfold norm_index.
  destruct (Z.leb_spec (- n) i); [|lia].
  destruct (Z.ltb_spec i n); [|lia].
  simpl. rewrite Z.mod_small by lia. reflexivity.
Qed.

Lemma map_truthy_bool (l : list bool) : map (@truthy bool _) l = l.
Proof. apply map_id. Qed.

Lemma bits_bool_array sh l : bits (bool_array sh l) = l.
Proof. apply map_id. Qed.

Lemma getitem3_cell l wd h m :
  zlen l = 7 * 1440 -> 0 <= wd < 7 -> 0 <= h < 24 -> 0 <= m < 60 ->
  getitem3 (bool_array [7; 24; 60] l) wd h m =
  Ok (VBool (zth (wd * 1440 + (h * 60 + m)) l false)).
Proof.
  intros Hl Hwd Hh Hm. unfold getitem3, bool_array, shape.
  rewrite !norm_index_small by lia.
  unfold block, data, dtype_of. change (size []) with 1.
  rewrite (ztake_1_zdrop _ _ false) by lia.
  unfold item. do 2 f_equal. f_equal. lia.
Qed.

Lemma weekday_range d : 0 <= weekday d < 7.
Proof. unfold weekday. apply Z.mod_pos_bound. lia. Qed.

(** A query without working-day predicate reads the cell at the weekday,
    hour and minute of the datetime it is given. *)
Lemma is_on_at_lookup W d :
  well_formed W -> _is_working_day_fun W = None ->
  0 <= hour d < 24 -> 0 <= minute d < 60 ->
  is_on_at W (PyDatetime d) =
  Ok (VBool (cell W (weekday d) (hour d * 60 + minute d))).
Proof.
  intros (l & Hg & Hl) Hf Hh Hm.
  unfold is_on_at, _is_on_weekly_schedule, cell. rewrite Hf, Hg.
  rewrite bits_bool_array.
  apply getitem3_cell; auto using weekday_range.
Qed.

(** C5: when a working-day predicate is set and returns false for the
    datetime, [is_on_at] returns [False] whatever the grid holds: the
    predicate is asked first and the grid is not read. *)
Theorem is_on_at_not_working_day (W : WeeklySchedule) (f : datetime -> bool) (d : datetime) :
  _is_working_day_fun W = Some f -> f d = false ->
  is_on_at W (PyDatetime d) = Ok (VBool false).
Proof.
  intros Hf Hd. unfold is_on_at. rewrite Hf, Hd. reflexivity.
Qed.

Lemma is_on_at_not_working_day_witness :
  is_on_at (mk_sched (np_ones [7; 24; 60]) (Some "UTC"%string) (Some utc)
              (Some (fun _ => false)))
           (PyDatetime (mk_datetime 738200 10 0 0 (Some 0)))
  = Ok (VBool false).
Proof.
  apply (is_on_at_not_working_day _ (fun _ => false)); reflexivity.
Defined.

(** C4, as the code has it: for a window without working-day predicate
    and a valid datetime, [is_on_at] returns the grid cell at the weekday,
    hour and minute that the datetime itself carries; the datetime is not
    converted to the time zone of the window. *)
Theorem is_on_at_own_fields (W : WeeklySchedule) (d : datetime) :
  well_formed W -> _is_working_day_fun W = None -> valid_datetime d ->
  is_on_at W (PyDatetime d) =
  Ok (VBool (cell W (weekday d) (hour d * 60 + minute d))).
Proof.
  intros HW Hf (_ & Hh & Hm & _). apply is_on_at_lookup; assumption.
Qed.

(** ** Encoding builds boolean grids of the right shape *)

Lemma zlen_set_slice {A} lo hi (x : A) l : zlen (set_slice lo hi x l) = zlen l.
Proof. apply zlen_fill_from. Qed.

Lemma define_slot_length slots s e v :
  define_slot slots s e = Ok v -> zlen v = zlen slots.
Proof.
  unfold define_slot, py_assert.
  destruct (in_day s); [|discriminate].
  destruct (in_day e); [|discriminate].
  destruct (tuple_lt s e); [|discriminate].
  simpl. intros [= <-]. apply zlen_set_slice.
Qed.

Lemma define_slots_length l slots v :
  define_slots slots l = Ok v -> zlen v = zlen slots.
Proof.
  revert slots; induction l as [|[s e] l IH]; intros slots; simpl.
  - intros [= <-]; reflexivity.
  - destruct (define_slot slots s e) as [slots'|] eqn:E; [|discriminate].
    simpl. intros H. rewrite (IH _ H). eapply define_slot_length; eassumption.
Qed.

Lemma zlen_day_zeros : zlen (zrepeat false (24 * 60)) = 1440.
Proof. rewrite zlen_zrepeat. reflexivity. Qed.

Lemma to_vector_length sched v : to_vector sched = Ok v -> zlen v = 1440.
Proof.
  unfold to_vector. destruct sched as [s e|[|x l]].
  - intros H. rewrite (define_slot_length _ _ _ _ H). apply zlen_day_zeros.
  - discriminate.
  - intros H. rewrite (define_slots_length _ _ _ H). apply zlen_day_zeros.
Qed.

Lemma zlen_with_day l k v :
  zlen l = 7 * 1440 -> 0 <= k < 7 -> zlen v = 1440 ->
  zlen (with_day l k v) = 7 * 1440.
Proof.
  intros Hl Hk Hv. unfold with_day.
  rewrite !zlen_app, zlen_ztake, zlen_zdrop. lia.
Qed.

Lemma setitem_day_bool l k v :
  0 <= k < 7 ->
  setitem_day (bool_array [7; 24; 60] l) k v =
  Ok (bool_array [7; 24; 60] (with_day l k v)).
Proof.
  intros Hk. unfold setitem_day, axis_index, bool_array, shape.
  rewrite norm_index_small by lia.
  change (rev [24; 60]) with [60; 24].
  change (size [24; 60]) with 1440. change (size []) with 1.
  unfold set_block, dtype_of, shape, data, with_day.
  change (zrepeat (map of_bool v) 1) with [map of_bool v].
  simpl concat. rewrite app_nil_r.
  change (map of_bool v) with (map (fun b : bool => b) v). rewrite map_id.
  reflexivity.
Qed.

Lemma in_range7_spec day : in_range7 day = true <-> 0 <= day < 7.
Proof. unfold in_range7. rewrite andb_true_iff, Z.leb_le, Z.ltb_lt. tauto. Qed.

Lemma to_matrix_loop_bool items l a :
  zlen l = 7 * 1440 ->
  to_matrix_loop (bool_array [7; 24; 60] l) items = Ok a ->
  exists l', a = bool_array [7; 24; 60] l' /\ zlen l' = 7 * 1440.
Proof.
  revert l; induction items as [|[day sched] items IH]; intros l Hl; simpl.
  - intros [= <-]. eauto.
  - unfold py_assert. destruct (in_range7 day) eqn:Hd; [|discriminate].
    apply in_range7_spec in Hd. simpl.
    destruct (to_vector sched) as [v|] eqn:Hv; [|discriminate]. simpl.
    rewrite setitem_day_bool by assumption. simpl.
    apply IH. apply zlen_with_day; auto. eapply to_vector_length; eassumption.
Qed.

Lemma zlen_week_zeros {A} (x : A) : zlen (zrepeat x (size [7; 24; 60])) = 7 * 1440.
Proof. rewrite zlen_zrepeat. reflexivity. Qed.

Lemma to_matrix_bool items a :
  to_matrix items = Ok a ->
  exists l, a = bool_array [7; 24; 60] l /\ zlen l = 7 * 1440.
Proof. apply to_matrix_loop_bool. apply zlen_week_zeros. Qed.

Lemma forallb_const_true {A} (l : list A) : forallb (fun _ => true) l = true.
Proof. induction l; simpl; auto. Qed.

Lemma validate_bool l : validate_array (bool_array [7; 24; 60] l) = Ok tt.
Proof.
  unfold validate_array, np_len, bool_array, shape, data, dtype_of. simpl.
  rewrite !forallb_const_true. reflexivity.
Qed.

Section Constructors.
Variable pytz_timezone : string -> option tzinfo.

Lemma from_raw_dict items tz z a :
  items <> [] -> to_matrix items = Ok a -> pytz_timezone tz = Some z ->
  from_raw pytz_timezone (RawDict items) (Some tz) =
  Ok (mk_sched a (Some tz) (Some z) None).
Proof.
  intros Hne Ha Hz. destruct (to_matrix_bool _ _ Ha) as (l & -> & Hl).
  unfold from_raw. destruct items as [|it items]; [congruence|].
  cbn [length Nat.eqb negb py_assert rbind]. rewrite Ha.
  cbn [rbind]. unfold build, mbind, for_timezone, _validate, with_schedule.
  cbn [_schedule _timezone _pytz _is_working_day_fun init].
  rewrite Hz. cbn [_schedule]. rewrite validate_bool. reflexivity.
Qed.
End Constructors.

Lemma matrix_of_ok items a : to_matrix items = Ok a -> matrix_of items = a.
Proof. unfold matrix_of; intros ->; reflexivity. Qed.

Lemma to_matrix_monday_6_18 : to_matrix monday_6_18 = Ok (matrix_of monday_6_18).
Proof. vm_compute. reflexivity. Qed.

(** C6: the window built from [{0: ((6, 0), (18, 0))}] with time zone UTC
    is off on Monday at 05:59, on at 06:00, still on at 17:59 whatever the
    seconds (17:59:59 included), and off at 18:00: an interval fills the
    minutes from its start to its end, the end excluded, and a query does
    not look at the seconds. *)
Theorem monday_6_18_boundaries (pytz_timezone : string -> option tzinfo) (z : tzinfo) :
  pytz_timezone "UTC"%string = Some z ->
  exists W,
    from_raw pytz_timezone (RawDict monday_6_18) (Some "UTC"%string) = Ok W /\
    forall day s off, weekday (mk_datetime day 0 0 s off) = 0 ->
      is_on_at W (PyDatetime (mk_datetime day 5 59 s off)) = Ok (VBool false) /\
      is_on_at W (PyDatetime (mk_datetime day 6 0 s off)) = Ok (VBool true) /\
      is_on_at W (PyDatetime (mk_datetime day 17 59 s off)) = Ok (VBool true) /\
      is_on_at W (PyDatetime (mk_datetime day 18 0 s off)) = Ok (VBool false).
Proof.
  intros Hz. eexists. split.
  - apply from_raw_dict with (z := z);
      [discriminate | apply to_matrix_monday_6_18 | exact Hz].
  - intros day s off Hday.
    assert (HW : well_formed (mk_sched (matrix_of monday_6_18) (Some "UTC"%string)
                                (Some z) None)).
    { destruct (to_matrix_bool _ _ to_matrix_monday_6_18) as (l & E & Hl).
      exists l. split; assumption. }
    unfold weekday in Hday; cbn [toordinal] in Hday.
    repeat split;
      (rewrite is_on_at_lookup;
       [ unfold weekday, cell; cbn [toordinal hour minute _schedule];
         rewrite Hday; vm_compute; reflexivity
       | exact HW | reflexivity | cbn [hour]; lia | cbn [minute]; lia ]).
Qed.

Lemma monday_6_18_boundaries_witness :
  exists W,
    from_raw tz_table (RawDict monday_6_18) (Some "UTC"%string) = Ok W /\
    is_on_at W (PyDatetime (mk_datetime 738200 5 59 0 (Some 0))) = Ok (VBool false) /\
    is_on_at W (PyDatetime (mk_datetime 738200 6 0 0 (Some 0))) = Ok (VBool true) /\
    is_on_at W (PyDatetime (mk_datetime 738200 17 59 59 (Some 0))) = Ok (VBool true) /\
    is_on_at W (PyDatetime (mk_datetime 738200 18 0 0 (Some 0))) = Ok (VBool false).
Proof.
  destruct (monday_6_18_boundaries tz_table utc eq_refl) as (W & HW & Hq).
  exists W. split; [exact HW|].
  destruct (Hq 738200 0 (Some 0) eq_refl) as (H1 & H2 & _ & H4).
  destruct (Hq 738200 59 (Some 0) eq_refl) as (_ & _ & H3 & _).
  repeat split; assumption.
Defined.

(** C4, against the claim: the window is in UTC and is on from 06:00 to
    18:00 on Monday; the datetime is Monday 06:30 at UTC+1, that is 05:30
    in the time zone of the window, where the window is off; [is_on_at]
    answers [True], from the 06:30 the datetime carries. *)
Lemma is_on_at_not_converted :
  from_raw tz_table (RawDict monday_6_18) (Some "UTC"%string) = Ok window_6_18 /\
  astimezone utc monday_0630_plus1 = Some monday_0530_utc /\
  cell window_6_18 (weekday monday_0530_utc)
    (hour monday_0530_utc * 60 + minute monday_0530_utc) = false /\
  is_on_at window_6_18 (PyDatetime monday_0630_plus1) = Ok (VBool true).
Proof. repeat split; vm_compute; reflexivity. Qed.

Lemma is_on_at_own_fields_witness :
  is_on_at window_6_18 (PyDatetime monday_0630_plus1) =
  Ok (VBool (cell window_6_18 (weekday monday_0630_plus1)
               (hour monday_0630_plus1 * 60 + minute monday_0630_plus1))).
Proof.
  apply is_on_at_own_fields.
  - destruct (to_matrix_bool _ _ to_matrix_monday_6_18) as (l & E & Hl).
    exists l. split; assumption.
  - reflexivity.
  - unfold valid_datetime; simpl; lia.
Defined.

(** ** Days of a grid *)

Lemma zth_with_day l k v i :
  zlen l = 7 * 1440 -> 0 <= k < 7 -> zlen v = 1440 -> 0 <= i < 7 * 1440 ->
  zth i (with_day l k v) false =
  if (k * 1440 <=? i) && (i <? (k + 1) * 1440)
  then zth (i - k * 1440) v false else zth i l false.
Proof.
  intros Hl Hk Hv Hi. unfold with_day.
  rewrite zth_app by lia. rewrite zlen_ztake.
  destruct (Z.ltb_spec i (Z.max 0 (Z.min (k * 1440) (zlen l)))) as [H1|H1].
  - rewrite zth_ztake by lia.
    destruct (Z.leb_spec (k * 1440) i); [lia|]. reflexivity.
  - destruct (Z.leb_spec (k * 1440) i); [|lia]. simpl andb.
    rewrite zth_app by lia. rewrite Hv.
    replace (Z.max 0 (Z.min (k * 1440) (zlen l))) with (k * 1440) by lia.
    destruct (Z.ltb_spec (i - k * 1440) 1440) as [H2|H2];
      destruct (Z.ltb_spec i ((k + 1) * 1440)); try lia.
    + reflexivity.
    + rewrite zth_zdrop by lia. f_equal. lia.
Qed.

Lemma zlen_day_of l k :
  zlen l = 7 * 1440 -> 0 <= k < 7 -> zlen (day_of l k) = 1440.
Proof.
  intros Hl Hk. unfold day_of. rewrite zlen_ztake, zlen_zdrop. lia.
Qed.

Lemma zth_day_of l k m :
  0 <= k -> 0 <= m < 1440 -> zth m (day_of l k) false = zth (k * 1440 + m) l false.
Proof.
  intros Hk Hm. unfold day_of.
  rewrite zth_ztake, zth_zdrop by lia. f_equal. lia.
Qed.

Lemma day_of_with_day l k v d :
  zlen l = 7 * 1440 -> 0 <= k < 7 -> zlen v = 1440 -> 0 <= d < 7 ->
  day_of (with_day l k v) d = if d =? k then v else day_of l d.
Proof.
  intros Hl Hk Hv Hd.
  assert (Hw := zlen_with_day l k v Hl Hk Hv).
  apply (list_ext _ _ false).
  - rewrite zlen_day_of by assumption.
    destruct (d =? k); [lia|]. rewrite zlen_day_of; auto.
  - intros i Hi. rewrite zlen_day_of in Hi by assumption.
    rewrite zth_day_of by lia. rewrite zth_with_day by lia.
    destruct (Z.eqb_spec d k) as [->|Hne].
    + destruct (Z.leb_spec (k * 1440) (k * 1440 + i)); [|lia].
      destruct (Z.ltb_spec (k * 1440 + i) ((k + 1) * 1440)); [|lia].
      simpl. f_equal. lia.
    + rewrite zth_day_of by lia.
      destruct (Z.leb_spec (k * 1440) (d * 1440 + i));
        destruct (Z.ltb_spec (d * 1440 + i) ((k + 1) * 1440));
        simpl; try reflexivity; lia.
Qed.

(** ** The shift of one day *)

Lemma zlen_delayed total v : zlen (delayed total v) = zlen v.
Proof.
  unfold delayed. rewrite zlen_ztake, zlen_app, zlen_zrepeat.
  pose proof (zlen_nonneg v). lia.
Qed.

Lemma zlen_shift_vector total v : zlen (shift_vector total v) = zlen v.
Proof. unfold shift_vector. rewrite zlen_zip_with, zlen_delayed. lia. Qed.

Lemma zth_delayed total v m :
  0 <= total -> 0 <= m < zlen v ->
  zth m (delayed total v) false = (total <=? m) && zth (m - total) v false.
Proof.
  intros Ht Hm. unfold delayed.
  rewrite zth_ztake by lia. rewrite zth_app by lia.
  rewrite zlen_zrepeat. replace (Z.max 0 total) with total by lia.
  destruct (Z.ltb_spec m total); destruct (Z.leb_spec total m); try lia.
  - apply zth_zrepeat. lia.
  - reflexivity.
Qed.

Lemma zth_shift_vector total v m :
  0 <= total -> 0 <= m < zlen v ->
  zth m (shift_vector total v) false =
  zth m v false && ((total <=? m) && zth (m - total) v false).
Proof.
  intros Ht Hm. unfold shift_vector.
  rewrite (zth_zip_with andb m v (delayed total v) false false false)
    by (rewrite ?zlen_delayed; lia).
  rewrite zth_delayed by assumption. reflexivity.
Qed.

(** The slice [[:-total]] of the padded row takes its first 1440 cells
    when [total] is positive, and nothing when [total] is zero. *)
Lemma shifted_slots_positive total (row : list bool) :
  0 < total ->
  slice_to (- total) (map of_bool (zrepeat false total) ++ row) = delayed total row.
Proof.
  intros Ht. unfold slice_to, delayed, slice_bound.
  change (map of_bool (zrepeat false total))
    with (map (fun b : bool => b) (zrepeat false total)).
  rewrite map_id. rewrite zlen_app, zlen_zrepeat.
  destruct (Z.ltb_spec (- total) 0); [|lia].
  f_equal. pose proof (zlen_nonneg row). lia.
Qed.

Lemma shifted_slots_zero (row : list bool) :
  slice_to (- 0) (map of_bool (zrepeat false 0) ++ row) = [].
Proof.
  unfold slice_to, slice_bound. simpl Z.opp. simpl Z.ltb. cbv iota.
  pose proof (zlen_nonneg (map of_bool (zrepeat false 0) ++ row)).
  replace (Z.min 0 (zlen (map of_bool (zrepeat false 0) ++ row))) with 0 by lia.
  reflexivity.
Qed.

Lemma bitwise_and_bool_same (a b : list bool) :
  zlen a = zlen b -> bitwise_and a b = Ok (zip_with andb a b).
Proof.
  intros H. unfold bitwise_and. simpl and_op. rewrite H, Z.eqb_refl. reflexivity.
Qed.

Lemma bitwise_and_bool_nil (a : list bool) :
  2 <= zlen a ->
  bitwise_and a [] = Raise (ValueError "operands could not be broadcast together").
Proof.
  intros H. unfold bitwise_and. simpl and_op.
  destruct a as [|x [|y a]];
    rewrite ?zlen_cons in H; try (change (zlen (@nil bool)) with 0 in H; lia).
  change (zlen (@nil bool)) with 0.
  destruct (Z.eqb_spec (zlen (x :: y :: a)) 0) as [E|E].
  - rewrite !zlen_cons in E. pose proof (zlen_nonneg a). lia.
  - reflexivity.
Qed.

Lemma shift_day_bool total l k :
  zlen l = 7 * 1440 -> 0 <= k < 7 -> 0 < total ->
  shift_day total (bool_array [7; 24 * 60] l) k =
  Ok (bool_array [7; 24 * 60] (with_day l k (shift_vector total (day_of l k)))).
Proof.
  intros Hl Hk Ht. unfold shift_day, axis_index, bool_array, shape.
  rewrite norm_index_small by lia.
  change (size [24 * 60]) with 1440.
  unfold block, data, dtype_of. cbn beta iota.
  change (ztake 1440 (zdrop (k * 1440) l)) with (day_of l k).
  rewrite shifted_slots_positive by assumption.
  rewrite bitwise_and_bool_same by (rewrite zlen_delayed; reflexivity).
  cbn [rbind]. fold (shift_vector total (day_of l k)).
  unfold setitem_row. rewrite zlen_shift_vector, zlen_day_of by assumption.
  rewrite Z.eqb_refl. reflexivity.
Qed.

Lemma shift_day_zero l k :
  zlen l = 7 * 1440 -> 0 <= k < 7 ->
  shift_day 0 (bool_array [7; 24 * 60] l) k =
  Raise (ValueError "operands could not be broadcast together").
Proof.
  intros Hl Hk. unfold shift_day, axis_index, bool_array, shape.
  rewrite norm_index_small by lia.
  change (size [24 * 60]) with 1440.
  unfold block, data, dtype_of. cbn beta iota.
  change (ztake 1440 (zdrop (k * 1440) l)) with (day_of l k).
  rewrite shifted_slots_zero.
  rewrite bitwise_and_bool_nil by (rewrite zlen_day_of by assumption; lia).
  reflexivity.
Qed.

(** ** The loop of [shift_start] *)

Lemma zlen_shift_step total l k :
  zlen l = 7 * 1440 -> 0 <= k < 7 ->
  zlen (with_day l k (shift_vector total (day_of l k))) = 7 * 1440.
Proof.
  intros Hl Hk. apply zlen_with_day; auto.
  rewrite zlen_shift_vector. apply zlen_day_of; assumption.
Qed.

Lemma zlen_shift_cells total days l :
  zlen l = 7 * 1440 -> Forall (fun k => 0 <= k < 7) days ->
  zlen (shift_cells total days l) = 7 * 1440.
Proof.
  intros Hl Hdays; revert l Hl.
  induction Hdays as [|k r Hk Hr IH]; intros l Hl; simpl.
  - assumption.
  - apply IH. apply zlen_shift_step; assumption.
Qed.

Lemma shift_days_bool total days l :
  zlen l = 7 * 1440 -> 0 < total -> Forall (fun k => 0 <= k < 7) days ->
  shift_days total days (bool_array [7; 24 * 60] l) =
  (Ok tt, bool_array [7; 24 * 60] (shift_cells total days l)).
Proof.
  intros Hl Ht Hdays; revert l Hl.
  induction Hdays as [|k r Hk Hr IH]; intros l Hl; simpl.
  - reflexivity.
  - rewrite shift_day_bool by assumption.
    apply IH. apply zlen_shift_step; assumption.
Qed.

Lemma existsb_eqb_false d (days : list Z) :
  ~ In d days -> existsb (Z.eqb d) days = false.
Proof.
  intros H. destruct (existsb (Z.eqb d) days) eqn:E; [|reflexivity].
  apply existsb_exists in E. destruct E as (x & Hx & Hdx).
  apply Z.eqb_eq in Hdx. subst x. contradiction.
Qed.

Lemma day_of_shift_cells total days l d :
  zlen l = 7 * 1440 -> Forall (fun k => 0 <= k < 7) days -> NoDup days ->
  0 <= d < 7 ->
  day_of (shift_cells total days l) d =
  if existsb (Z.eqb d) days then shift_vector total (day_of l d) else day_of l d.
Proof.
  intros Hl Hdays Hnd Hd; revert l Hl Hnd.
  induction Hdays as [|k r Hk Hr IH]; intros l Hl Hnd; simpl.
  - reflexivity.
  - inversion Hnd as [|? ? Hnotin Hnd']; subst.
    rewrite IH by (auto using zlen_shift_step).
    rewrite day_of_with_day
      by (auto; rewrite zlen_shift_vector; apply zlen_day_of; assumption).
    destruct (Z.eqb_spec d k) as [->|Hne].
    + rewrite existsb_eqb_false by assumption. reflexivity.
    + reflexivity.
Qed.

Lemma week_days : py_range 0 7 = [0; 1; 2; 3; 4; 5; 6].
Proof. reflexivity. Qed.

Lemma week_days_range : Forall (fun k => 0 <= k < 7) (py_range 0 7).
Proof. rewrite week_days. repeat constructor; lia. Qed.

Lemma week_days_nodup : NoDup (py_range 0 7).
Proof.
  rewrite week_days.
  repeat (constructor; [simpl; intuition lia|]). constructor.
Qed.

Lemma week_days_all d : 0 <= d < 7 -> existsb (Z.eqb d) (py_range 0 7) = true.
Proof.
  intros Hd. rewrite week_days. apply existsb_exists. exists d. split.
  - simpl. lia.
  - apply Z.eqb_refl.
Qed.

Lemma shift_start_positive W hours minutes l :
  _schedule W = bool_array [7; 24; 60] l -> zlen l = 7 * 1440 ->
  0 < hours * 60 + minutes ->
  shift_start hours minutes W =
  (Ok tt,
   with_schedule W
     (bool_array [7; 24; 60] (shift_cells (hours * 60 + minutes) (py_range 0 7) l))).
Proof.
  intros Hg Hl Ht. unfold shift_start, py_assert.
  destruct (Z.geb_spec (hours * 60 + minutes) 0); [|lia].
  rewrite Hg. unfold reshape at 1.
  change (size (shape (bool_array [7; 24; 60] l)) =? size [7; 24 * 60]) with true.
  cbv iota. change (mk_array (dtype_of (bool_array [7; 24; 60] l)) [7; 24 * 60]
                      (data (bool_array [7; 24; 60] l)))
              with (bool_array [7; 24 * 60] l).
  rewrite shift_days_bool by (auto using week_days_range).
  unfold reshape.
  change (size (shape (bool_array [7; 24 * 60]
                         (shift_cells (hours * 60 + minutes) (py_range 0 7) l)))
          =? size [7; 24; 60]) with true.
  cbv iota. unfold _validate, with_schedule. cbn [_schedule].
  change (validate_array _) with
    (validate_array (bool_array [7; 24; 60]
                       (shift_cells (hours * 60 + minutes) (py_range 0 7) l))).
  rewrite validate_bool. reflexivity.
Qed.

Lemma shift_start_zero_total W hours minutes l :
  _schedule W = bool_array [7; 24; 60] l -> zlen l = 7 * 1440 ->
  hours * 60 + minutes = 0 ->
  shift_start hours minutes W =
  (Raise (ValueError "operands could not be broadcast together"), W).
Proof.
  intros Hg Hl Ht. unfold shift_start, py_assert. rewrite Ht.
  change (0 >=? 0) with true. cbv iota.
  rewrite Hg. unfold reshape at 1.
  change (size (shape (bool_array [7; 24; 60] l)) =? size [7; 24 * 60]) with true.
  cbv iota. change (mk_array (dtype_of (bool_array [7; 24; 60] l)) [7; 24 * 60]
                      (data (bool_array [7; 24; 60] l)))
              with (bool_array [7; 24 * 60] l).
  rewrite week_days. cbn [shift_days].
  rewrite shift_day_zero by (auto; lia).
  unfold with_schedule. cbn [dtype_of data shape bool_array].
  destruct W as [a tz pz wd]. cbn [_schedule _timezone _pytz _is_working_day_fun] in *.
  rewrite Hg. reflexivity.
Qed.

Lemma cell_day_vector W d m :
  0 <= d -> 0 <= m < 1440 -> cell W d m = zth m (day_vector W d) false.
Proof.
  intros Hd Hm. unfold cell, day_vector. rewrite zth_day_of by lia. reflexivity.
Qed.

Lemma repeat_false_ext (v : list bool) n :
  zlen v = n -> (forall i, 0 <= i < n -> zth i v false = false) ->
  v = zrepeat false n.
Proof.
  intros Hv H. apply (list_ext _ _ false).
  - rewrite zlen_zrepeat. pose proof (zlen_nonneg v). lia.
  - intros i Hi. rewrite zth_zrepeat by lia. apply H. lia.
Qed.

(** C2, as the code behaves: on every window, [shift_start(0, 0)] raises
    numpy's [ValueError]: the slice [[:-0]] of the padded row is empty and
    cannot be combined with the 1440 minutes of the day.  The window is
    left as it was. *)
Theorem shift_start_zero_raises (W : WeeklySchedule) :
  well_formed W ->
  shift_start 0 0 W =
  (Raise (ValueError "operands could not be broadcast together"), W).
Proof.
  intros (l & Hg & Hl). apply (shift_start_zero_total W 0 0 l Hg Hl). reflexivity.
Qed.

Lemma shift_start_zero_raises_witness :
  shift_start 0 0 init =
  (Raise (ValueError "operands could not be broadcast together"), init).
Proof.
  apply shift_start_zero_raises.
  exists (zrepeat false (size [7; 24; 60])). split.
  - reflexivity.
  - apply zlen_week_zeros.
Defined.


Lemma well_formed_init : well_formed init.
Proof.
  exists (zrepeat false (size [7; 24; 60])). split.
  - reflexivity.
  - apply zlen_week_zeros.
Qed.

Lemma well_formed_window_6_18 : well_formed window_6_18.
Proof.
  destruct (to_matrix_bool _ _ to_matrix_monday_6_18) as (l & E & Hl).
  exists l. split; assumption.
Qed.


(** ** Inversion *)

Lemma np_invert_bool sh l :
  np_invert (bool_array sh l) = Ok (bool_array sh (map negb l)).
Proof. reflexivity. Qed.

Lemma map_negb_involutive (l : list bool) : map negb (map negb l) = l.
Proof.
  induction l as [|b l IH]; simpl.
  - reflexivity.
  - rewrite negb_involutive, IH. reflexivity.
Qed.

Section Inversion.
Variable pytz_timezone : string -> option tzinfo.

Lemma from_raw_array a tz z :
  pytz_timezone tz = Some z -> validate_array a = Ok tt ->
  from_raw pytz_timezone (RawArray a) (Some tz) =
  Ok (mk_sched a (Some tz) (Some z) None).
Proof.
  intros Hz Hv. unfold from_raw, build, mbind, for_timezone, _validate, with_schedule.
  cbn [_schedule _timezone _pytz _is_working_day_fun init].
  rewrite Hz. cbn [_schedule]. rewrite Hv. reflexivity.
Qed.

Lemma invert_bool W l tz z zu :
  pytz_timezone "UTC"%string = Some zu ->
  _schedule W = bool_array [7; 24; 60] l ->
  _timezone W = Some tz -> pytz_timezone tz = Some z ->
  invert pytz_timezone W =
  Ok (mk_sched (bool_array [7; 24; 60] (map negb l)) (Some tz) (Some z) None).
Proof.
  intros Hu Hg Htz Hz. unfold invert. rewrite Hg, np_invert_bool. cbn [rbind].
  rewrite (from_raw_array _ _ zu Hu (validate_bool _)). cbn [rbind].
  unfold build, for_timezone. rewrite Htz, Hz. reflexivity.
Qed.

(** X17: inversion where it returns.  For every window [W] whose time zone is
    set to a name the data base knows, [invert(W)] is a new window whose
    grid is the negation of the grid of [W], cell by cell, whose time zone
    is that of [W] and whose working-day predicate is unset; inverting it
    again gives back the grid of [W]. *)
Theorem invert_negates (W : WeeklySchedule) (tz : string) (z zu : tzinfo) :
  pytz_timezone "UTC"%string = Some zu ->
  well_formed W -> _timezone W = Some tz -> pytz_timezone tz = Some z ->
  exists W',
    invert pytz_timezone W = Ok W' /\
    well_formed W' /\
    bits (_schedule W') = map negb (bits (_schedule W)) /\
    _timezone W' = _timezone W /\
    _is_working_day_fun W' = None /\
    exists W'', invert pytz_timezone W' = Ok W'' /\ _schedule W'' = _schedule W.
Proof.
  intros Hu (l & Hg & Hl) Htz Hz.
  eexists. split; [apply (invert_bool W l tz z zu); assumption|].
  split; [|split; [|split; [|split]]].
  - exists (map negb l). split; [reflexivity|]. rewrite zlen_map. assumption.
  - cbn [_schedule]. rewrite Hg, !bits_bool_array. reflexivity.
  - cbn [_timezone]. symmetry; assumption.
  - reflexivity.
  - eexists. split.
    + apply (invert_bool _ (map negb l) tz z zu); auto.
    + cbn [_schedule]. rewrite map_negb_involutive. symmetry; assumption.
Qed.
End Inversion.

Lemma invert_negates_witness :
  exists W',
    invert tz_table window_6_18 = Ok W' /\
    bits (_schedule W') = map negb (bits (_schedule window_6_18)).
Proof.
  destruct (invert_negates tz_table window_6_18 "UTC"%string utc utc)
    as (W' & H1 & _ & H3 & _).
  - reflexivity.
  - exact well_formed_window_6_18.
  - reflexivity.
  - reflexivity.
  - exists W'. split; assumption.
Defined.

(** C7, at the failing input: a window made by [WeeklySchedule()] or by
    [from_to] has no time zone, and [invert] does not return a window with
    the negated grid and the same time zone: it raises, from
    [for_timezone(None)]. *)
Theorem invert_without_timezone :
  well_formed init /\
  invert tz_table init = Raise UnknownTimeZoneError /\
  exists W, from_to Monday Friday (Single (6, 0) (18, 0)) = Ok W /\
            invert tz_table W = Raise UnknownTimeZoneError.
Proof.
  split; [exact well_formed_init|]. split; [vm_compute; reflexivity|].
  eexists. split; vm_compute; reflexivity.
Qed.

(** ** Rejected and accepted inputs *)

(** C8, at the failing input: the dict [{0: ((0, 70), (1, 0))}] is
    accepted, although minute 70 is no minute of an hour and the start,
    01:10, is after the end, 01:00: tuples are compared lexicographically
    and the minute is never checked.  The interval fills the cells from
    index 70 to index 60, none, and Monday is all false. *)
Theorem from_raw_accepts_minute_70 :
  from_raw tz_table (RawDict monday_minute_70) (Some "UTC"%string) =
  Ok (mk_sched (np_zeros [7; 24; 60]) (Some "UTC"%string) (Some utc) None).
Proof. vm_compute. reflexivity. Qed.

Lemma from_raw_empty db tz :
  from_raw db (RawDict []) (Some tz) =
  Raise (AssertionError "raw schedule can't be empty").
Proof. reflexivity. Qed.

Lemma define_slot_rejects slots s e :
  in_day s = false \/ in_day e = false \/ tuple_lt s e = false ->
  exists msg, define_slot slots s e = Raise (AssertionError msg).
Proof.
  unfold define_slot, py_assert.
  destruct (in_day s); [|eexists; reflexivity].
  destruct (in_day e); [|eexists; reflexivity].
  destruct (tuple_lt s e); [|eexists; reflexivity].
  intros [H|[H|H]]; discriminate.
Qed.

Lemma define_slots_rejects l slots s e :
  In (s, e) l ->
  in_day s = false \/ in_day e = false \/ tuple_lt s e = false ->
  exists msg, define_slots slots l = Raise (AssertionError msg).
Proof.
  intros Hin Hbad; revert slots.
  induction l as [|[s' e'] l IH]; intros slots; [contradiction|].
  simpl. destruct (define_slot slots s' e') as [slots'|ex] eqn:E.
  - simpl. destruct Hin as [[= -> ->]|Hin].
    + destruct (define_slot_rejects slots s e Hbad) as (msg & H). congruence.
    + apply IH; assumption.
  - unfold define_slot, py_assert in E.
    destruct (in_day s'); [|injection E as <-; eexists; reflexivity].
    destruct (in_day e'); [|injection E as <-; eexists; reflexivity].
    destruct (tuple_lt s' e'); [discriminate|injection E as <-; eexists; reflexivity].
Qed.

Lemma to_vector_rejects sched s e :
  In (s, e) (slots_of sched) ->
  in_day s = false \/ in_day e = false \/ tuple_lt s e = false ->
  exists msg, to_vector sched = Raise (AssertionError msg).
Proof.
  destruct sched as [s' e'|l]; simpl.
  - intros [[= -> ->]|[]] Hbad. apply define_slot_rejects; assumption.
  - intros Hin Hbad. destruct l as [|x l]; [contradiction|].
    apply define_slots_rejects with (s := s) (e := e); assumption.
Qed.

Lemma shift_start_negative W hours minutes :
  hours * 60 + minutes < 0 ->
  shift_start hours minutes W =
  (Raise (AssertionError "start should be postponed by a positive number of minutes"),
   W).
Proof.
  intros H. unfold shift_start, py_assert.
  destruct (Z.geb_spec (hours * 60 + minutes) 0); [lia|reflexivity].
Qed.

(** ** The setters of a day *)

Lemma day_setters_spec setter :
  In setter day_setters -> exists day, 0 <= day < 7 /\ setter = _set_day_schedule day.
Proof.
  unfold day_setters. simpl.
  intros [<-|[<-|[<-|[<-|[<-|[<-|[<-|[]]]]]]]];
    [exists 0|exists 1|exists 2|exists 3|exists 4|exists 5|exists 6];
    (split; [lia|reflexivity]).
Qed.

Lemma set_day_rejected W day sched e :
  to_vector sched = Raise e -> _set_day_schedule day sched W = (Raise e, W).
Proof.
  intros H. unfold _set_day_schedule, mbind, lift. rewrite H. reflexivity.
Qed.

Lemma set_day_bool W day sched l v :
  _schedule W = bool_array [7; 24; 60] l -> 0 <= day < 7 ->
  to_vector sched = Ok v ->
  _set_day_schedule day sched W =
  (Ok tt, with_schedule W (bool_array [7; 24; 60] (with_day l day v))).
Proof.
  intros Hg Hd Hv. unfold _set_day_schedule, mbind, lift, get, put, _validate.
  rewrite Hv, Hg, setitem_day_bool by assumption.
  unfold with_schedule. cbn [_schedule]. rewrite validate_bool. reflexivity.
Qed.



(** ** The invariant of the grid *)

Lemma forallb_firstn {A} (f : A -> bool) n (l : list A) :
  forallb f l = true -> forallb f (firstn n l) = true.
Proof.
  revert l; induction n as [|n IH]; intros [|x l]; simpl; auto.
  rewrite !andb_true_iff. intros [? ?]; auto.
Qed.

Lemma forallb_skipn {A} (f : A -> bool) n (l : list A) :
  forallb f l = true -> forallb f (skipn n l) = true.
Proof.
  revert l; induction n as [|n IH]; intros [|x l]; simpl; auto.
  rewrite !andb_true_iff. intros [? ?]; auto.
Qed.

Lemma forallb_repeat {A} (f : A -> bool) x n :
  f x = true -> forallb f (repeat x n) = true.
Proof. intros H; induction n; simpl; rewrite ?H; auto. Qed.

Lemma forallb_map {A B} (f : B -> bool) (g : A -> B) (l : list A) :
  (forall x, f (g x) = true) -> forallb f (map g l) = true.
Proof. intros H; induction l; simpl; rewrite ?H; auto. Qed.

Lemma forallb_map_in {A} (f : A -> bool) (g : A -> A) (l : list A) :
  (forall x, f x = true -> f (g x) = true) ->
  forallb f l = true -> forallb f (map g l) = true.
Proof.
  intros H; induction l as [|x l IH]; simpl; auto.
  rewrite !andb_true_iff. intros [? ?]; auto.
Qed.

Lemma forallb_zip_with {A} (f : A -> bool) (g : A -> A -> A) (l m : list A) :
  (forall x y, f x = true -> f y = true -> f (g x y) = true) ->
  forallb f l = true -> forallb f m = true -> forallb f (zip_with g l m) = true.
Proof.
  intros H; revert m; induction l as [|x l IH]; intros [|y m]; simpl; auto.
  rewrite !andb_true_iff. intros [? ?] [? ?]; auto.
Qed.

Lemma forallb_andb {A} (f g : A -> bool) (l : list A) :
  forallb (fun x => f x && g x) l = forallb f l && forallb g l.
Proof.
  induction l as [|x l IH]; simpl; auto.
  rewrite IH. destruct (f x), (g x), (forallb f l), (forallb g l); reflexivity.
Qed.

Lemma of_bool_in_unit d (b : bool) : in_unit (of_bool (A := elt d) b) = true.
Proof. destruct d, b; reflexivity. Qed.

Lemma and_op_in_unit d (f : elt d -> elt d -> elt d) x y :
  and_op = Some f -> in_unit x = true -> in_unit y = true -> in_unit (f x y) = true.
Proof.
  destruct d; intros H; cbv in H; inversion H; subst f; clear H;
    unfold in_unit; simpl.
  - reflexivity.
  - rewrite !andb_true_iff, !Z.leb_le. intros [? ?] [? ?].
    assert (x = 0 \/ x = 1) as [-> | ->] by lia;
      assert (y = 0 \/ y = 1) as [-> | ->] by lia; simpl; lia.
Qed.

Lemma is_boolean_bool (b : bool) : is_boolean b = true.
Proof. destruct b; reflexivity. Qed.

Lemma shape_eqb_eq a b : shape_eqb a b = true -> a = b.
Proof.
  revert b; induction a as [|x a IH]; intros [|y b]; simpl; try discriminate.
  - reflexivity.
  - rewrite andb_true_iff, Z.eqb_eq. intros [-> H]. f_equal; auto.
Qed.

Lemma validate_array_ok a :
  validate_array a = Ok tt ->
  shape a = [7; 24; 60] /\ forallb in_unit (data a) = true.
Proof.
  unfold validate_array, np_len, py_assert.
  destruct (shape a) as [|n sh] eqn:Hs; [discriminate|]. cbn [rbind].
  destruct (n >? 0); [|discriminate]. cbn [rbind].
  destruct (shape_eqb (n :: sh) [7; 24; 60]) eqn:E; [|discriminate]. cbn [rbind].
  destruct (forallb ge0 (data a)) eqn:E1; [|discriminate]. cbn [rbind].
  destruct (forallb le1 (data a)) eqn:E2; [|discriminate].
  intros _. split.
  - apply shape_eqb_eq; assumption.
  - unfold in_unit. rewrite forallb_andb, E1, E2. reflexivity.
Qed.

Lemma unit_grid_validate a : unit_grid a -> validate_array a = Ok tt.
Proof.
  intros ((Hs & _) & Hu). unfold in_unit in Hu.
  rewrite forallb_andb, andb_true_iff in Hu. destruct Hu as [E1 E2].
  unfold validate_array, np_len. rewrite Hs. simpl. rewrite E1, E2. reflexivity.
Qed.

Lemma validated_unit_grid a :
  wf_array a -> validate_array a = Ok tt -> unit_grid a.
Proof.
  intros (_ & Hlen) Hv. destruct (validate_array_ok a Hv) as [Hs Hu].
  split; [split|]; auto. rewrite Hlen, Hs. reflexivity.
Qed.

Lemma bool_array_unit_grid l :
  zlen l = 7 * 1440 -> unit_grid (bool_array [7; 24; 60] l).
Proof.
  intros Hl. split; [split; [reflexivity|exact Hl]|].
  unfold in_unit. simpl. apply forallb_const_true.
Qed.

(** The cells of a grid stay in the unit range when a block of 1440 such
    cells replaces a day. *)
Lemma set_block_unit d sh (l v : list (elt d)) k :
  zlen l = 7 * 1440 -> forallb in_unit l = true -> 0 <= k < 7 ->
  zlen v = 1440 -> forallb in_unit v = true ->
  zlen (data (set_block (mk_array d sh l) 1440 k v)) = 7 * 1440 /\
  forallb in_unit (data (set_block (mk_array d sh l) 1440 k v)) = true.
Proof.
  intros Hl Hu Hk Hv Hvu. unfold set_block, data, dtype_of. split.
  - rewrite !zlen_app, zlen_ztake, zlen_zdrop. lia.
  - rewrite !forallb_app, Hvu. unfold ztake, zdrop.
    rewrite forallb_firstn, forallb_skipn by assumption. reflexivity.
Qed.

Lemma setitem_day_unit a k v :
  unit_grid a -> 0 <= k < 7 -> zlen v = 1440 ->
  exists a', setitem_day a k v = Ok a' /\ unit_grid a' /\ dtype_of a' = dtype_of a.
Proof.
  destruct a as [d sh l]. intros ((Hs & Hl) & Hu) Hk Hv.
  cbn [shape data dtype_of] in *. subst sh.
  unfold setitem_day, axis_index. cbn [shape].
  rewrite norm_index_small by lia.
  change (rev [24; 60]) with [60; 24].
  change (size [24; 60]) with 1440. change (size []) with 1.
  eexists. split; [reflexivity|]. split; [|reflexivity].
  change (zrepeat (map of_bool v) (size [])) with [map (of_bool (A := elt d)) v].
  cbn [concat]. rewrite app_nil_r.
  destruct (set_block_unit d [7; 24; 60] l (map of_bool v) k) as [H1 H2]; auto.
  - rewrite zlen_map. assumption.
  - apply forallb_map. apply of_bool_in_unit.
  - split; [split; [reflexivity|exact H1]|exact H2].
Qed.

Lemma set_day_unit W day sched :
  unit_grid (_schedule W) -> 0 <= day < 7 ->
  unit_grid (_schedule (snd (_set_day_schedule day sched W))) /\
  dtype_of (_schedule (snd (_set_day_schedule day sched W))) = dtype_of (_schedule W).
Proof.
  intros Hu Hd. unfold _set_day_schedule, mbind, lift, get, put, _validate.
  destruct (to_vector sched) as [v|e] eqn:Hv; [|split; [exact Hu|reflexivity]].
  destruct (setitem_day_unit (_schedule W) day v Hu Hd (to_vector_length _ _ Hv))
    as (a' & Ha & Hu' & Hd').
  rewrite Ha. unfold with_schedule. cbn [snd _schedule]. split; assumption.
Qed.

Lemma bitwise_and_unit d (a b c : list (elt d)) :
  bitwise_and a b = Ok c ->
  forallb in_unit a = true -> forallb in_unit b = true -> forallb in_unit c = true.
Proof.
  unfold bitwise_and. destruct (and_op (A := elt d)) as [f|] eqn:Hf; [|discriminate].
  assert (Hin : forall x y, in_unit x = true -> in_unit y = true -> in_unit (f x y) = true)
    by (intros x y; apply and_op_in_unit; assumption).
  intros H Ha Hb. destruct (zlen a =? zlen b).
  - injection H as <-. apply forallb_zip_with; assumption.
  - destruct b as [|y [|y' b]].
    + destruct a as [|x [|x' a]]; try discriminate. injection H as <-. reflexivity.
    + cbn [forallb] in Hb. rewrite andb_true_r in Hb.
      destruct a as [|x [|x' a]]; injection H as <-.
      * reflexivity.
      * apply (forallb_map_in in_unit (fun z => f z y) [x]); auto.
      * apply (forallb_map_in in_unit (fun z => f z y) (x :: x' :: a)); auto.
    + destruct a as [|x [|x' a]]; try discriminate. injection H as <-.
      cbn [forallb] in Ha. rewrite andb_true_r in Ha.
      apply (forallb_map_in in_unit (f x) (y :: y' :: b)); auto.
Qed.

Lemma forallb_ztake {A} (f : A -> bool) n (l : list A) :
  forallb f l = true -> forallb f (ztake n l) = true.
Proof. apply forallb_firstn. Qed.

Lemma forallb_zdrop {A} (f : A -> bool) n (l : list A) :
  forallb f l = true -> forallb f (zdrop n l) = true.
Proof. apply forallb_skipn. Qed.

Lemma shift_day_rows total a k a' :
  day_rows a -> 0 <= k < 7 -> shift_day total a k = Ok a' ->
  day_rows a' /\ dtype_of a' = dtype_of a.
Proof.
  destruct a as [d sh l]. intros (Hs & Hl & Hu) Hk.
  cbn [shape data dtype_of] in *. subst sh.
  unfold shift_day, axis_index. cbn [shape].
  rewrite norm_index_small by lia.
  change (size [24 * 60]) with 1440.
  unfold block. cbn [data dtype_of].
  set (row := ztake 1440 (zdrop (k * 1440) l)).
  set (shifted := slice_to (- total) (map of_bool (zrepeat false total) ++ row)).
  assert (Hrow : forallb in_unit row = true)
    by (apply forallb_ztake, forallb_zdrop; assumption).
  assert (Hshifted : forallb in_unit shifted = true).
  { apply forallb_ztake. rewrite forallb_app, Hrow, andb_true_r.
    apply forallb_map. apply of_bool_in_unit. }
  destruct (bitwise_and row shifted) as [masked|e] eqn:Hm; [|discriminate].
  cbn [rbind]. pose proof (bitwise_and_unit d _ _ _ Hm Hrow Hshifted) as Hmasked.
  unfold setitem_row.
  match goal with
  | |- context [?n =? 1440] => destruct (Z.eqb_spec n 1440) as [Hlen|Hlen]
  end.
  - intros [= <-].
    destruct (set_block_unit d [7; 24 * 60] l masked k) as [H1 H2]; auto.
    split; [|reflexivity]. split; [reflexivity|]. split; assumption.
  - destruct masked as [|x [|x' masked]]; try discriminate.
    intros [= <-].
    destruct (set_block_unit d [7; 24 * 60] l (zrepeat x 1440) k) as [H1 H2]; auto.
    + apply forallb_repeat. cbn [forallb] in Hmasked.
      rewrite andb_true_r in Hmasked. exact Hmasked.
    + split; [|reflexivity]. split; [reflexivity|]. split; assumption.
Qed.

Lemma shift_days_rows total days a :
  day_rows a -> Forall (fun k => 0 <= k < 7) days ->
  day_rows (snd (shift_days total days a)) /\
  dtype_of (snd (shift_days total days a)) = dtype_of a.
Proof.
  intros Ha Hdays; revert a Ha.
  induction Hdays as [|k r Hk Hr IH]; intros a Ha; cbn [shift_days].
  - split; [exact Ha|reflexivity].
  - destruct (shift_day total a k) as [a'|e] eqn:E.
    + destruct (shift_day_rows total a k a' Ha Hk E) as [Ha' Hd'].
      destruct (IH a' Ha') as [H1 H2]. split; [exact H1|congruence].
    + split; [exact Ha|reflexivity].
Qed.

Lemma shift_start_result_unit W hours minutes r W' :
  unit_grid (_schedule W) -> shift_start hours minutes W = (r, W') ->
  unit_grid (_schedule W') /\ dtype_of (_schedule W') = dtype_of (_schedule W).
Proof.
  intros Hu. unfold shift_start.
  destruct (py_assert _ _); [|intros [= _ <-]; split; [exact Hu|reflexivity]].
  destruct W as [[d sh l] tz pz wd]. cbn [_schedule] in *.
  destruct Hu as ((Hs & Hl) & Hu). cbn [shape data dtype_of] in *. subst sh.
  unfold reshape at 1. cbn [shape dtype_of data].
  change (size [7; 24; 60] =? size [7; 24 * 60]) with true. cbv iota.
  assert (Hrows : day_rows (mk_array d [7; 24 * 60] l))
    by (split; [reflexivity|split; assumption]).
  destruct (shift_days_rows (hours * 60 + minutes) (py_range 0 7) _ Hrows
              week_days_range) as [(Hs2 & Hl2 & Hu2) Hd2].
  destruct (shift_days (hours * 60 + minutes) (py_range 0 7) (mk_array d [7; 24 * 60] l))
    as [r2 [d2 sh2 l2]].
  cbn [snd shape data dtype_of] in *. subst sh2 d2.
  unfold with_schedule. cbn [_schedule _timezone _pytz _is_working_day_fun].
  destruct r2 as [u|e].
  - unfold reshape. cbn [shape dtype_of data].
    change (size [7; 24 * 60] =? size [7; 24; 60]) with true. cbv iota.
    unfold _validate. cbn [_schedule]. intros [= _ <-]. cbn [_schedule dtype_of].
    split; [|reflexivity]. split; [split; [reflexivity|assumption]|assumption].
  - intros [= _ <-]. cbn [_schedule shape dtype_of data].
    split; [|reflexivity]. split; [split; [reflexivity|assumption]|assumption].
Qed.

Lemma shift_start_unit W hours minutes :
  unit_grid (_schedule W) ->
  unit_grid (_schedule (snd (shift_start hours minutes W))) /\
  dtype_of (_schedule (snd (shift_start hours minutes W))) = dtype_of (_schedule W).
Proof.
  intros Hu. destruct (shift_start hours minutes W) as [r W'] eqn:E.
  apply (shift_start_result_unit W hours minutes r W' Hu E).
Qed.

(** ** Every window a caller can hold has a valid grid *)

Lemma build_result m s W : build m s = Ok W -> W = snd (m s).
Proof. unfold build. destruct (m s) as [[u|e] s']; [intros [= <-]; reflexivity|discriminate]. Qed.

Lemma for_each_invariant {A} (P : WeeklySchedule -> Prop) (f : A -> M unit) l W :
  (forall x W0, In x l -> P W0 -> P (snd (f x W0))) ->
  P W -> P (snd (for_each f l W)).
Proof.
  revert W; induction l as [|x l IH]; intros W Hf HW; cbn [for_each].
  - exact HW.
  - unfold mbind. pose proof (Hf x W (or_introl eq_refl) HW) as Hx.
    destruct (f x W) as [[u|e] W1]; cbn [snd] in *.
    + apply IH; [|exact Hx]. intros y W0 Hy. apply Hf. right; exact Hy.
    + exact Hx.
Qed.

Lemma in_py_range x lo hi : In x (py_range lo hi) -> lo <= x < hi.
Proof.
  unfold py_range. rewrite in_map_iff. intros (i & <- & Hi).
  apply in_seq in Hi. lia.
Qed.

Lemma value_range d : 0 <= value d < 7.
Proof. destruct d; simpl; lia. Qed.

Lemma np_invert_result a a' :
  np_invert a = Ok a' ->
  dtype_of a' = dtype_of a /\ shape a' = shape a /\ zlen (data a') = zlen (data a).
Proof.
  unfold np_invert. destruct a as [d sh l]. cbn [dtype_of shape data].
  destruct (invert_op (A := elt d)) as [f|]; [|discriminate].
  intros [= <-]. cbn [dtype_of shape data]. rewrite zlen_map. auto.
Qed.

Section Reachable.
Variable pytz_timezone : string -> option tzinfo.
Variable dense : ndarray -> Prop.

Lemma for_timezone_schedule tz W :
  _schedule (snd (for_timezone pytz_timezone tz W)) = _schedule W.
Proof.
  unfold for_timezone. destruct tz as [name|]; [|reflexivity].
  destruct (pytz_timezone name); reflexivity.
Qed.

Lemma from_raw_array_result a tz W :
  from_raw pytz_timezone (RawArray a) tz = Ok W ->
  _schedule W = a /\ validate_array a = Ok tt.
Proof.
  unfold from_raw. destruct tz as [tz|]; [|discriminate].
  unfold build, mbind, _validate.
  pose proof (for_timezone_schedule (Some tz) (with_schedule init a)) as Hs.
  destruct (for_timezone pytz_timezone (Some tz) (with_schedule init a)) as [[u|e] s];
    [|discriminate].
  cbn [snd] in Hs. unfold with_schedule in Hs. cbn [_schedule] in Hs.
  rewrite Hs. destruct (validate_array a) as [[]|e] eqn:Hv; [|discriminate].
  intros [= <-]. auto.
Qed.

Lemma from_raw_dict_result items tz W :
  from_raw pytz_timezone (RawDict items) tz = Ok W ->
  exists l, _schedule W = bool_array [7; 24; 60] l /\ zlen l = 7 * 1440.
Proof.
  unfold from_raw. destruct tz as [tz|]; [|discriminate].
  destruct (py_assert _ _) as [u|e]; [|discriminate]. cbn [rbind].
  destruct (to_matrix items) as [a|e] eqn:Ha; [|discriminate]. cbn [rbind].
  intros H. change (from_raw pytz_timezone (RawArray a) (Some tz) = Ok W) in H.
  destruct (from_raw_array_result a (Some tz) W H) as [-> _].
  apply to_matrix_bool with (items := items). exact Ha.
Qed.

Lemma clone_schedule W W' :
  clone pytz_timezone W = Ok W' -> _schedule W' = _schedule W.
Proof.
  unfold clone.
  destruct (_timezone W) as [[|c tz]|]; cbn [rbind].
  - intros [= <-]. reflexivity.
  - destruct (_pytz W); [destruct (pytz_timezone _); [|discriminate]|];
      cbn [rbind]; intros [= <-]; reflexivity.
  - intros [= <-]. reflexivity.
Qed.

Lemma invert_unit W W' :
  unit_grid (_schedule W) -> invert pytz_timezone W = Ok W' ->
  unit_grid (_schedule W') /\ dtype_of (_schedule W') = dtype_of (_schedule W).
Proof.
  intros ((Hs & Hl) & _). unfold invert.
  destruct (np_invert (_schedule W)) as [a|e] eqn:Ha; [|discriminate]. cbn [rbind].
  destruct (np_invert_result _ _ Ha) as (Hd & Hsh & Hlen).
  destruct (from_raw pytz_timezone (RawArray a) (Some "UTC"%string)) as [s|e] eqn:Hfr;
    [|discriminate]. cbn [rbind].
  destruct (from_raw_array_result _ _ _ Hfr) as [Hsa Hv].
  intros Hb. apply build_result in Hb. subst W'.
  rewrite for_timezone_schedule, Hsa. split; [|exact Hd].
  destruct (validate_array_ok a Hv) as [Hs' Hu'].
  split; [split|]; auto. congruence.
Qed.

(** X18: what the validation does ensure.  Every window that the constructors
    return or that a method leaves behind, whether it returned or raised,
    has a grid of shape (7, 24, 60) with 10080 cells whose values all lie
    between 0 and 1; when every dense grid given to [from_raw] is boolean,
    the grid is boolean. *)
Theorem reachable_grid_valid (W : WeeklySchedule) :
  reachable pytz_timezone dense W ->
  unit_grid (_schedule W) /\
  ((forall a, dense a -> dtype_of a = np_bool) -> well_formed W).
Proof.
  intros HW.
  assert (Hbool : forall W0, unit_grid (_schedule W0) ->
            dtype_of (_schedule W0) = np_bool -> well_formed W0).
  { intros [[d sh l] tz pz wd] ((Hs & Hl) & _) Hd.
    cbn [_schedule shape data dtype_of] in *. subst d sh.
    exists l. split; [reflexivity|assumption]. }
  enough (H : unit_grid (_schedule W) /\
              ((forall a, dense a -> dtype_of a = np_bool) ->
               dtype_of (_schedule W) = np_bool)).
  { destruct H as [H1 H2]. split; [exact H1|]. intros Hd. apply Hbool; auto. }
  induction HW as
    [ | W Hn | W Ha | items tz W Hf | a tz W Hwf Hd Hf | ds de sched W Hf
    | W W' HW IH Hi | W W' HW IH Hc | W tz HW IH | W c HW IH
    | W setter sched HW IH Hin | W h m HW IH ].
  - split; [|reflexivity]. apply bool_array_unit_grid. apply zlen_week_zeros.
  - unfold never in Hn. apply build_result in Hn. subst W.
    rewrite for_timezone_schedule.
    split; [|reflexivity]. apply bool_array_unit_grid. apply zlen_week_zeros.
  - unfold always in Ha.
    destruct (from_raw pytz_timezone (RawArray (np_ones [7; 24; 60])) _) as [s|e] eqn:Hfr;
      [|discriminate]. cbn [rbind] in Ha.
    apply build_result in Ha. subst W. rewrite for_timezone_schedule.
    destruct (from_raw_array_result _ _ _ Hfr) as [-> _].
    split; [|reflexivity]. apply bool_array_unit_grid. apply zlen_week_zeros.
  - destruct (from_raw_dict_result _ _ _ Hf) as (l & -> & Hl).
    split; [|reflexivity]. apply bool_array_unit_grid. exact Hl.
  - destruct (from_raw_array_result _ _ _ Hf) as [-> Hv].
    split; [apply validated_unit_grid; assumption|]. intros Hall. apply Hall, Hd.
  - unfold from_to in Hf. apply build_result in Hf. subst W.
    apply (for_each_invariant
             (fun W0 => unit_grid (_schedule W0) /\
                        ((forall a, dense a -> dtype_of a = np_bool) ->
                         dtype_of (_schedule W0) = np_bool))).
    + intros day W0 Hday [Hu Hb]. apply in_py_range in Hday.
      pose proof (value_range ds). pose proof (value_range de).
      destruct (set_day_unit W0 day sched Hu) as [Hu' Hd']; [lia|].
      split; [exact Hu'|]. intros Hall. rewrite Hd'. auto.
    + split; [|reflexivity]. apply bool_array_unit_grid. apply zlen_week_zeros.
  - destruct IH as [Hu Hb]. destruct (invert_unit W W' Hu Hi) as [Hu' Hd'].
    split; [exact Hu'|]. intros Hall. rewrite Hd'. auto.
  - rewrite (clone_schedule _ _ Hc). exact IH.
  - rewrite for_timezone_schedule. exact IH.
  - exact IH.
  - destruct IH as [Hu Hb].
    destruct (day_setters_spec setter Hin) as (day & Hday & ->).
    destruct (set_day_unit W day sched Hu Hday) as [Hu' Hd'].
    split; [exact Hu'|]. intros Hall. rewrite Hd'. auto.
  - destruct IH as [Hu Hb].
    destruct (shift_start_unit W h m Hu) as [Hu' Hd'].
    split; [exact Hu'|]. intros Hall. rewrite Hd'. auto.
Qed.
End Reachable.

(** C9, at the failing input: [from_raw] accepts a dense grid of floats
    all equal to one half, since [_validate] only compares the values with
    0 and 1; the window it returns is reachable and has no boolean cell. *)
Theorem from_raw_accepts_half_grid :
  wf_array half_grid /\
  from_raw tz_table (RawArray half_grid) (Some "UTC"%string) = Ok half_window /\
  reachable tz_table (fun _ => True) half_window /\
  ~ boolean_grid (_schedule half_window).
Proof.
  assert (Hwf : wf_array half_grid).
  { split.
    - repeat constructor; simpl; lia.
    - vm_compute. reflexivity. }
  assert (Hfr : from_raw tz_table (RawArray half_grid) (Some "UTC"%string) = Ok half_window)
    by (vm_compute; reflexivity).
  split; [exact Hwf|]. split; [exact Hfr|]. split.
  - apply (reach_from_raw_array tz_table (fun _ => True) half_grid
             (Some "UTC"%string) half_window Hwf I Hfr).
  - intros [_ H]. vm_compute in H. discriminate.
Qed.

Lemma reachable_grid_valid_witness :
  unit_grid (_schedule half_window).
Proof.
  apply (reachable_grid_valid tz_table (fun _ => True) half_window).
  apply (reach_from_raw_array tz_table (fun _ => True) half_grid
           (Some "UTC"%string) half_window).
  - split.
    + repeat constructor; simpl; lia.
    + vm_compute. reflexivity.
  - exact I.
  - vm_compute. reflexivity.
Defined.

(** ** Intervals of minutes and their bounds *)

Lemma covers_below lo ivs i : chain lo ivs -> i <= lo -> covers ivs i = false.
Proof.
  revert lo; induction ivs as [|[a b] r IH]; intros lo Hc Hi; simpl.
  - reflexivity.
  - destruct Hc as (Ha & Hb & Hr).
    rewrite (IH b) by (auto; lia).
    destruct (Z.leb_spec a i); [lia|]. reflexivity.
Qed.

Lemma bounds_above lo ivs x : chain lo ivs -> In x (bounds ivs) -> lo < x.
Proof.
  revert lo; induction ivs as [|[a b] r IH]; intros lo Hc Hx; simpl in *.
  - contradiction.
  - destruct Hc as (Ha & Hb & Hr).
    destruct Hx as [<-|[<-|Hx]]; try lia.
    specialize (IH b Hr Hx). lia.
Qed.

(** A minute is a bound of the chain exactly when it is covered and the
    minute before is not, or the converse. *)
Lemma boundary_iff lo ivs i :
  chain lo ivs ->
  xorb (covers ivs (i - 1)) (covers ivs i) = true <-> In i (bounds ivs).
Proof.
  revert lo; induction ivs as [|[a b] r IH]; intros lo Hc; simpl.
  - split; [discriminate|contradiction].
  - destruct Hc as (Ha & Hb & Hr).
    destruct (Z_le_gt_dec i b) as [Hi|Hi].
    + rewrite (covers_below b r (i - 1)), (covers_below b r i), !orb_false_r
        by (auto; lia).
      split.
      * destruct (Z.leb_spec a (i - 1)); destruct (Z.ltb_spec (i - 1) b);
          destruct (Z.leb_spec a i); destruct (Z.ltb_spec i b);
          simpl; intros Hxor; try discriminate; lia.
      * intros [<-|[<-|Hx]].
        -- destruct (Z.leb_spec a (a - 1)); [lia|].
           destruct (Z.leb_spec a a); [|lia].
           destruct (Z.ltb_spec a b); [|lia]. reflexivity.
        -- destruct (Z.leb_spec a (b - 1)); [|lia].
           destruct (Z.ltb_spec (b - 1) b); [|lia].
           destruct (Z.ltb_spec b b); [lia|].
           rewrite andb_false_r. reflexivity.
        -- pose proof (bounds_above b r i Hr Hx). lia.
    + destruct (Z.ltb_spec (i - 1) b); [lia|].
      destruct (Z.ltb_spec i b); [lia|].
      rewrite !andb_false_r, !orb_false_l. rewrite (IH b Hr).
      split; [auto|]. intros [<-|[<-|Hx]]; [lia|lia|exact Hx].
Qed.

Lemma bounds_sorted lo ivs :
  chain lo ivs -> Sorted.StronglySorted Z.lt (bounds ivs).
Proof.
  revert lo; induction ivs as [|[a b] r IH]; intros lo Hc; simpl.
  - constructor.
  - destruct Hc as (Ha & Hb & Hr).
    constructor; [constructor; [apply (IH b Hr)|]|].
    + apply Forall_forall. intros x Hx. apply (bounds_above b r x Hr Hx).
    + constructor; [exact Hb|].
      apply Forall_forall. intros x Hx. pose proof (bounds_above b r x Hr Hx). lia.
Qed.

(** Two increasing lists with the same elements are equal. *)
Lemma sorted_same_elements (l m : list Z) :
  Sorted.StronglySorted Z.lt l -> Sorted.StronglySorted Z.lt m ->
  (forall x, In x l <-> In x m) -> l = m.
Proof.
  intros Hl; revert m; induction Hl as [|x l Hl IH Hx]; intros m Hm Hsame.
  - destruct m as [|y m]; [reflexivity|].
    destruct (proj2 (Hsame y) (or_introl eq_refl)).
  - destruct Hm as [|y m Hm Hy].
    + destruct (proj1 (Hsame x) (or_introl eq_refl)).
    + rewrite Forall_forall in Hx, Hy.
      assert (x = y).
      { destruct (proj1 (Hsame x) (or_introl eq_refl)) as [E|Hin]; [auto|].
        destruct (proj2 (Hsame y) (or_introl eq_refl)) as [E|Hin']; [auto|].
        specialize (Hx _ Hin'). specialize (Hy _ Hin). lia. }
      subst y. f_equal. apply IH; [exact Hm|].
      intros z. split; intros Hz.
      * destruct (proj1 (Hsame z) (or_intror Hz)) as [E|Hin]; [|exact Hin].
        specialize (Hx _ Hz). lia.
      * destruct (proj2 (Hsame z) (or_intror Hz)) as [E|Hin]; [|exact Hin].
        specialize (Hy _ Hz). lia.
Qed.

(** ** The edges that [format_schedule] finds *)

Lemma in_argwhere_from k l i :
  In i (argwhere_from k l) <-> k <= i < k + zlen l /\ zth (i - k) l false = true.
Proof.
  revert k; induction l as [|b l IH]; intros k; cbn [argwhere_from].
  - change (zlen (@nil bool)) with 0. split; [contradiction|lia].
  - rewrite zlen_cons. pose proof (zlen_nonneg l).
    assert (Hrest : In i (argwhere_from (k + 1) l) <->
                    k + 1 <= i < k + 1 + zlen l /\ zth (i - k) (b :: l) false = true).
    { rewrite IH. split; intros [H1 H2]; (split; [lia|]).
      - rewrite zth_cons_pos by lia. replace (i - k - 1) with (i - (k + 1)) by lia.
        exact H2.
      - rewrite zth_cons_pos in H2 by lia.
        replace (i - k - 1) with (i - (k + 1)) in H2 by lia. exact H2. }
    destruct b.
    + cbn [In]. rewrite Hrest. split.
      * intros [<-|[H1 H2]]; [|split; [lia|exact H2]].
        split; [lia|]. replace (k - k) with 0 by lia. reflexivity.
      * intros [H1 H2]. destruct (Z.eq_dec i k) as [->|Hne]; [left; reflexivity|].
        right. split; [lia|exact H2].
    + rewrite Hrest. split.
      * intros [H1 H2]. split; [lia|exact H2].
      * intros [H1 H2]. destruct (Z.eq_dec i k) as [->|Hne].
        -- replace (k - k) with 0 in H2 by lia. discriminate.
        -- split; [lia|exact H2].
Qed.

Lemma argwhere_sorted k l : StronglySorted Z.lt (argwhere_from k l).
Proof.
  revert k; induction l as [|b l IH]; intros k; cbn [argwhere_from].
  - constructor.
  - destruct b; [|apply IH].
    constructor; [apply IH|].
    apply Forall_forall. intros x Hx. apply in_argwhere_from in Hx. lia.
Qed.

Lemma sorted_app (l m : list Z) :
  StronglySorted Z.lt l -> StronglySorted Z.lt m ->
  (forall x y, In x l -> In y m -> x < y) ->
  StronglySorted Z.lt (l ++ m).
Proof.
  intros Hl Hm Hlt. induction Hl as [|x l Hl IH Hx]; simpl.
  - exact Hm.
  - constructor.
    + apply IH. intros a b Ha Hb. apply Hlt; [right; exact Ha|exact Hb].
    + apply Forall_app. split; [exact Hx|].
      apply Forall_forall. intros y Hy. apply Hlt; [left; reflexivity|exact Hy].
Qed.

Lemma zlen_removelast {A} (l : list A) :
  l <> [] -> zlen (removelast l) = zlen l - 1.
Proof.
  intros Hne. rewrite removelast_firstn_len. unfold zlen.
  rewrite length_firstn. destruct l; [congruence|]. simpl length. lia.
Qed.

Lemma zth_removelast {A} (l : list A) j d :
  0 <= j < zlen l - 1 -> zth j (removelast l) d = zth j l d.
Proof.
  intros Hj. rewrite removelast_firstn_len. unfold zth, zlen in *.
  destruct (Z.ltb_spec j 0); [lia|].
  rewrite nth_firstn.
  destruct (Nat.ltb_spec (Z.to_nat j) (Init.Nat.pred (length l))); [reflexivity|lia].
Qed.

(** The differences between the rolled day and the day: none at position
    0, and at position [j] that of minute [j - 1] and minute [j]. *)
Lemma zth_rolled_differences (v : list bool) x j :
  v <> [] -> 0 <= j < zlen v ->
  zth j (zip_with neq (set_first x (roll1 v)) v) false =
  if j =? 0 then xorb x (zth 0 v false)
  else xorb (zth (j - 1) v false) (zth j v false).
Proof.
  intros Hne Hj. destruct v as [|y t] eqn:E; [congruence|]. rewrite <- E in *.
  assert (Hroll : set_first x (roll1 v) = x :: removelast v)
    by (subst v; reflexivity).
  rewrite Hroll.
  rewrite (zth_zip_with neq j (x :: removelast v) v false false false)
    by (rewrite ?zlen_cons, ?zlen_removelast by (subst v; discriminate); lia).
  change (@neq bool Elem_bool) with xorb.
  destruct (Z.eqb_spec j 0) as [->|Hj0].
  - reflexivity.
  - rewrite zth_cons_pos by lia. rewrite zth_removelast by lia. reflexivity.
Qed.

Lemma zlen_rolled_differences (v : list bool) x :
  v <> [] -> zlen (zip_with neq (set_first x (roll1 v)) v) = zlen v.
Proof.
  intros Hne. destruct v as [|y t] eqn:E; [congruence|]. rewrite <- E in *.
  assert (Hroll : set_first x (roll1 v) = x :: removelast v)
    by (subst v; reflexivity).
  rewrite Hroll, zlen_zip_with, zlen_cons, zlen_removelast by (subst v; discriminate).
  lia.
Qed.

Lemma in_slot_edges (v : list bool) i :
  In i (slot_edges v) <->
  1 <= i < zlen v /\ xorb (zth (i - 1) v false) (zth i v false) = true.
Proof.
  unfold slot_edges. destruct v as [|y t] eqn:E.
  - change (zlen (@nil bool)) with 0. split; [contradiction|lia].
  - rewrite <- E. assert (Hne : v <> []) by (subst v; discriminate).
    rewrite in_argwhere_from, zlen_rolled_differences by assumption.
    replace (i - 0) with i by lia.
    split.
    + intros [Hi H]. rewrite zth_rolled_differences in H by (auto; lia).
      destruct (Z.eqb_spec i 0) as [->|Hi0].
      * subst v. rewrite zth_cons_0, xorb_nilpotent in H. discriminate.
      * split; [lia|exact H].
    + intros [Hi H]. split; [lia|].
      rewrite zth_rolled_differences by (auto; lia).
      destruct (Z.eqb_spec i 0); [lia|exact H].
Qed.

Lemma slot_edges_sorted (v : list bool) : StronglySorted Z.lt (slot_edges v).
Proof.
  unfold slot_edges. destruct v; [constructor|apply argwhere_sorted].
Qed.

Lemma in_slot_indexes (v : list bool) i :
  zlen v = 1440 ->
  In i (slot_indexes_of v) <->
  0 <= i <= 1440 /\ xorb (zth (i - 1) v false) (zth i v false) = true.
Proof.
  intros Hv. unfold slot_indexes_of. rewrite !in_app_iff, in_slot_edges, Hv.
  change (24 * 60) with 1440.
  assert (H0 : In i (if zth 0 v false then [0] else []) <->
               i = 0 /\ zth 0 v false = true).
  { destruct (zth 0 v false); simpl; intuition (try discriminate; auto). }
  assert (H1 : In i (if zth 1439 v false then [1440] else []) <->
               i = 1440 /\ zth 1439 v false = true).
  { destruct (zth 1439 v false); simpl; intuition (try discriminate; auto). }
  rewrite H0, H1. split.
  - intros [[-> H]|[[Hi H]|[-> H]]].
    + split; [lia|]. rewrite zth_neg by lia. exact H.
    + split; [lia|exact H].
    + split; [lia|]. change (1440 - 1) with 1439.
      rewrite H, (zth_overflow 1440) by lia. reflexivity.
  - intros [Hi H].
    destruct (Z.eq_dec i 0) as [->|Hi0].
    + left. split; [reflexivity|]. rewrite zth_neg in H by lia. exact H.
    + destruct (Z.eq_dec i 1440) as [->|Hi1].
      * right; right. split; [reflexivity|].
        change (1440 - 1) with 1439 in H.
        rewrite (zth_overflow 1440) in H by lia.
        rewrite xorb_false_r in H. exact H.
      * right; left. split; [lia|exact H].
Qed.

Lemma slot_indexes_sorted (v : list bool) :
  zlen v = 1440 -> StronglySorted Z.lt (slot_indexes_of v).
Proof.
  intros Hv. unfold slot_indexes_of. change (24 * 60) with 1440.
  apply sorted_app; [|apply sorted_app|].
  - destruct (zth 0 v false); repeat constructor.
  - apply slot_edges_sorted.
  - destruct (zth 1439 v false); repeat constructor.
  - intros x y Hx Hy. apply in_slot_edges in Hx.
    destruct (zth 1439 v false); simpl in Hy; [|contradiction].
    destruct Hy as [<-|[]]. lia.
  - intros x y Hx Hy.
    assert (x = 0) as -> by (destruct (zth 0 v false); simpl in Hx; intuition).
    apply in_app_iff in Hy. destruct Hy as [Hy|Hy].
    + apply in_slot_edges in Hy. lia.
    + destruct (zth 1439 v false); simpl in Hy; [|contradiction].
      destruct Hy as [<-|[]]. lia.
Qed.

(** A day whose minutes are those that a chain of intervals within the
    day covers has the bounds of the chain for slot indexes. *)
Lemma slot_indexes_of_chain (v : list bool) (ivs : list (Z * Z)) :
  zlen v = 1440 -> chain (-1) ivs ->
  (forall x, In x (bounds ivs) -> x <= 1440) ->
  (forall i, zth i v false = covers ivs i) ->
  slot_indexes_of v = bounds ivs.
Proof.
  intros Hv Hc Hmax Hcells.
  apply sorted_same_elements.
  - apply slot_indexes_sorted; assumption.
  - apply (bounds_sorted (-1)); assumption.
  - intros i. rewrite in_slot_indexes by assumption.
    rewrite !Hcells, (boundary_iff (-1)) by assumption.
    split; [tauto|]. intros Hi. split; [|exact Hi].
    pose proof (bounds_above (-1) ivs i Hc Hi). specialize (Hmax i Hi). lia.
Qed.

(** ** The minutes that an accepted day schedule switches on *)

Lemma index_in_day t :
  in_day t = true -> 0 <= snd t < 60 -> 0 <= index t <= 1440.
Proof.
  destruct t as [h m]. unfold in_day, tuple_le, index. cbn [fst snd].
  rewrite !andb_true_iff, !orb_true_iff, !andb_true_iff.
  rewrite !Z.ltb_lt, !Z.eqb_eq, !Z.leb_le. lia.
Qed.

Lemma index_tuple_lt s e :
  tuple_lt s e = true -> 0 <= snd s < 60 -> 0 <= snd e < 60 -> index s < index e.
Proof.
  destruct s as [h m], e as [h' m']. unfold tuple_lt, index. cbn [fst snd].
  rewrite orb_true_iff, andb_true_iff, !Z.ltb_lt, Z.eqb_eq. lia.
Qed.

Lemma slice_bound_within n i : 0 <= i <= n -> slice_bound n i = i.
Proof.
  intros Hi. unfold slice_bound. destruct (Z.ltb_spec i 0); lia.
Qed.

Lemma zth_set_slice_true (slots : list bool) lo hi i :
  0 <= lo <= zlen slots -> 0 <= hi <= zlen slots ->
  zth i (set_slice lo hi true slots) false =
  ((lo <=? i) && (i <? hi)) || zth i slots false.
Proof.
  intros Hlo Hhi. unfold set_slice. rewrite !slice_bound_within by assumption.
  destruct (Z_lt_ge_dec i 0) as [Hneg|Hpos].
  - rewrite !zth_neg by assumption.
    destruct (Z.leb_spec lo i); [lia|]. reflexivity.
  - destruct (Z_lt_ge_dec i (zlen slots)) as [Hin|Hout].
    + rewrite zth_fill_from by lia. replace (0 + i) with i by lia.
      destruct ((lo <=? i) && (i <? hi)); reflexivity.
    + rewrite !zth_overflow by (rewrite ?zlen_fill_from; lia).
      destruct (Z.ltb_spec i hi); [lia|]. rewrite andb_false_r. reflexivity.
Qed.

Lemma define_slot_cells slots s e v :
  zlen slots = 1440 -> 0 <= snd s < 60 -> 0 <= snd e < 60 ->
  define_slot slots s e = Ok v ->
  within_day (s, e) /\
  forall i, zth i v false =
            ((index s <=? i) && (i <? index e)) || zth i slots false.
Proof.
  intros Hlen Hs He. unfold define_slot, py_assert.
  destruct (in_day s) eqn:Hds; [|discriminate].
  destruct (in_day e) eqn:Hde; [|discriminate].
  destruct (tuple_lt s e) eqn:Hlt; [|discriminate].
  cbn [rbind]. intros [= <-].
  pose proof (index_in_day s Hds Hs). pose proof (index_in_day e Hde He).
  pose proof (index_tuple_lt s e Hlt Hs He).
  split; [unfold within_day; cbn [fst snd]; lia|].
  intros i. apply zth_set_slice_true; rewrite Hlen; lia.
Qed.

Lemma define_slots_cells l slots v :
  zlen slots = 1440 -> clock_times l -> define_slots slots l = Ok v ->
  Forall within_day l /\
  forall i, zth i v false = covers (map minutes_of l) i || zth i slots false.
Proof.
  revert slots; induction l as [|[s e] l IH]; intros slots Hlen Hclock; cbn [define_slots].
  - intros [= <-]. split; [constructor|]. intros i. reflexivity.
  - inversion Hclock as [|? ? [Hs He] Hclock']; subst. cbn [fst snd] in *.
    destruct (define_slot slots s e) as [slots'|] eqn:E; [|discriminate].
    cbn [rbind]. intros H.
    destruct (define_slot_cells slots s e slots' Hlen Hs He E) as [Hrange Hcells].
    assert (Hlen' : zlen slots' = 1440)
      by (rewrite (define_slot_length _ _ _ _ E); exact Hlen).
    destruct (IH slots' Hlen' Hclock' H) as [Hall Hcells'].
    split; [constructor; [exact Hrange|exact Hall]|].
    intros i. rewrite Hcells', Hcells. cbn [map covers existsb minutes_of fst snd].
    unfold covers.
    destruct ((index s <=? i) && (i <? index e));
      destruct (existsb _ (map minutes_of l)); reflexivity.
Qed.

Lemma zth_day_zeros i : zth i (zrepeat false (24 * 60)) false = false.
Proof.
  destruct (Z_lt_ge_dec i 0); [apply zth_neg; assumption|].
  destruct (Z_lt_ge_dec i 1440).
  - apply zth_zrepeat. change (24 * 60) with 1440. lia.
  - apply zth_overflow. rewrite zlen_day_zeros. lia.
Qed.

Lemma to_vector_cells sched v :
  clock_times (slots_of sched) -> to_vector sched = Ok v ->
  Forall within_day
    (slots_of sched) /\
  forall i, zth i v false = covers (map minutes_of (slots_of sched)) i.
Proof.
  intros Hclock Hv.
  assert (H : define_slots (zrepeat false (24 * 60)) (slots_of sched) = Ok v).
  { destruct sched as [s e|[|x l]]; cbn [slots_of to_vector] in *.
    - cbn [define_slots]. rewrite Hv. reflexivity.
    - discriminate.
    - exact Hv. }
  destruct (define_slots_cells _ _ _ zlen_day_zeros Hclock H) as [Hall Hcells].
  split; [exact Hall|]. intros i. rewrite Hcells, zth_day_zeros, orb_false_r.
  reflexivity.
Qed.

Lemma chain_of_separated lo (l : list slot) :
  Forall within_day l ->
  separated l ->
  (forall se, hd_error l = Some se -> lo < index (fst se)) ->
  chain lo (map minutes_of l).
Proof.
  intros Hall; revert lo; induction Hall as [|[s e] l Hse Hall IH]; intros lo Hsep Hlo.
  - exact I.
  - unfold within_day in Hse. cbn [map minutes_of chain fst snd] in *.
    split; [apply (Hlo (s, e)); reflexivity|]. split; [lia|].
    apply IH.
    + destruct l as [|[s2 e2] l']; [exact I|]. apply Hsep.
    + intros [s2 e2] Hhd. destruct l as [|[s3 e3] l']; [discriminate|].
      cbn [hd_error] in Hhd. injection Hhd as -> ->. cbn [fst]. apply Hsep.
Qed.

Lemma bounds_within (l : list slot) x :
  Forall within_day l ->
  In x (bounds (map minutes_of l)) -> 0 <= x <= 1440.
Proof.
  intros Hall. induction Hall as [|[s e] l Hse Hall IH]; cbn; [contradiction|].
  unfold within_day in Hse. cbn [fst snd] in Hse.
  intros [<-|[<-|Hx]]; [lia|lia|auto].
Qed.

Lemma divmod_clock t : 0 <= snd t < 60 -> (index t / 60, index t mod 60) = t.
Proof.
  destruct t as [h m]. unfold index. cbn [fst snd]. intros Hm.
  rewrite Z.add_comm, Z.div_add, Z.mod_add by lia.
  rewrite Z.div_small, Z.mod_small by lia. reflexivity.
Qed.

(** The loop that groups the slot indexes gives back the intervals. *)
Lemma group_slots_bounds (l : list slot) idx acc :
  clock_times l -> idx mod 2 = 0 ->
  group_slots idx None None (bounds (map minutes_of l)) acc = acc ++ l.
Proof.
  intros Hclock; revert idx acc.
  induction Hclock as [|[s e] l [Hs He] Hclock IH]; intros idx acc Hidx.
  - cbn. rewrite app_nil_r. reflexivity.
  - cbn [map bounds flat_map minutes_of fst snd app group_slots] in *.
    rewrite Hidx. cbn [Z.eqb].
    assert (Hodd : ((idx + 1) mod 2 =? 0) = false).
    { apply Z.eqb_neq. revert Hidx. Z.div_mod_to_equations. lia. }
    rewrite Hodd. rewrite !divmod_clock by assumption.
    replace (idx + 1 + 1) with (idx + 2) by lia.
    change (flat_map (fun ab : Z * Z => [fst ab; snd ab]) (map minutes_of l))
      with (bounds (map minutes_of l)).
    rewrite IH.
    + rewrite <- app_assoc. reflexivity.
    + revert Hidx. Z.div_mod_to_equations. lia.
Qed.

(** Decoding the vector of an accepted day schedule in normal form gives
    its canonical form. *)
Lemma decode_day_to_vector sched v :
  normal_day sched -> to_vector sched = Ok v -> decode_day v = canonical_day sched.
Proof.
  intros [Hclock Hsep] Hv. unfold canonical_day, decode_day. rewrite Hv.
  destruct (forallb (fun b : bool => b) v); [reflexivity|].
  destruct (negb (existsb (fun b : bool => b) v)); [reflexivity|].
  destruct (to_vector_cells sched v Hclock Hv) as [Hall Hcells].
  assert (Hidx : slot_indexes_of v = bounds (map minutes_of (slots_of sched))).
  { apply slot_indexes_of_chain.
    - eapply to_vector_length; eassumption.
    - apply chain_of_separated; auto.
      intros se Hhd. destruct (slots_of sched) as [|se' l]; [discriminate|].
      injection Hhd as ->. inversion Hall as [|? ? Hse _]; subst.
      unfold within_day in Hse. lia.
    - intros x Hx. apply (bounds_within _ x Hall Hx).
    - exact Hcells. }
  rewrite Hidx, group_slots_bounds by (auto; reflexivity). cbn [app].
  destruct sched as [s e|l]; cbn [slots_of].
  - reflexivity.
  - destruct l as [|[s e] [|se' l']]; reflexivity.
Qed.

Lemma decode_day_zeros : decode_day (zrepeat false 1440) = None.
Proof. vm_compute. reflexivity. Qed.

(** ** [format_schedule] day by day *)

Lemma getitem_bool l d :
  0 <= d < 7 ->
  getitem (bool_array [7; 24; 60] l) d = Ok (bool_array [24; 60] (day_of l d)).
Proof.
  intros Hd. unfold getitem, bool_array, shape.
  rewrite norm_index_small by lia. reflexivity.
Qed.

Lemma truth2_bool v i j i' j' :
  zlen v = 1440 -> norm_index 24 i = Some i' -> norm_index 60 j = Some j' ->
  0 <= i' < 24 -> 0 <= j' < 60 ->
  truth2 (bool_array [24; 60] v) i j = Ok (zth (i' * 60 + j') v false).
Proof.
  intros Hv Hi Hj Hi' Hj'. unfold truth2, bool_array, shape. rewrite Hi, Hj.
  unfold block, data, dtype_of. change (size []) with 1.
  replace ((i' * 60 + j') * 1) with (i' * 60 + j') by lia.
  rewrite (ztake_1_zdrop _ _ false) by lia. reflexivity.
Qed.

Lemma format_day_bool v :
  zlen v = 1440 -> format_day (bool_array [24; 60] v) = Ok (decode_day v).
Proof.
  intros Hv. unfold format_day, decode_day, np_all, np_any.
  change (forallb truthy (data (bool_array [24; 60] v)))
    with (forallb (fun b : bool => b) v).
  change (existsb truthy (data (bool_array [24; 60] v)))
    with (existsb (fun b : bool => b) v).
  destruct (forallb (fun b : bool => b) v); [reflexivity|].
  destruct (negb (existsb (fun b : bool => b) v)); [reflexivity|].
  unfold reshape.
  change (size (shape (bool_array [24; 60] v)) =? size [24 * 60]) with true.
  cbv iota. cbn [rbind data].
  rewrite (truth2_bool v 0 0 0 0) by (auto; try reflexivity; lia).
  cbn [rbind].
  rewrite (truth2_bool v (-1) (-1) 23 59) by (auto; try reflexivity; lia).
  cbn [rbind]. change (23 * 60 + 59) with 1439. change (0 * 60 + 0) with 0.
  unfold slot_indexes_of.
  destruct (zth 0 v false); destruct (zth 1439 v false);
    cbn [app]; rewrite ?app_nil_r; reflexivity.
Qed.

Lemma format_days_bool l days acc :
  zlen l = 7 * 1440 -> Forall (fun d => 0 <= d < 7) days ->
  format_days (bool_array [7; 24; 60] l) days acc =
  Ok (acc ++ flat_map (decode_entry l) days).
Proof.
  intros Hl Hdays; revert acc.
  induction Hdays as [|d r Hd Hr IH]; intros acc; cbn [format_days flat_map].
  - rewrite app_nil_r. reflexivity.
  - rewrite getitem_bool by assumption. cbn [rbind].
    rewrite format_day_bool by (apply zlen_day_of; assumption). cbn [rbind].
    rewrite IH. unfold decode_entry at 2.
    destruct (decode_day (day_of l d)).
    + rewrite <- app_assoc. reflexivity.
    + reflexivity.
Qed.

Lemma existsb_firstn {A} (f : A -> bool) n (l : list A) :
  existsb f l = false -> existsb f (firstn n l) = false.
Proof.
  revert l; induction n as [|n IH]; intros [|x l]; simpl; auto.
  rewrite !orb_false_iff. intros [? ?]; auto.
Qed.

Lemma existsb_skipn {A} (f : A -> bool) n (l : list A) :
  existsb f l = false -> existsb f (skipn n l) = false.
Proof.
  revert l; induction n as [|n IH]; intros [|x l]; simpl; auto.
  rewrite !orb_false_iff. intros [? ?]; auto.
Qed.

Lemma forallb_false_of_none (v : list bool) :
  existsb (fun b : bool => b) v = false -> 0 < zlen v ->
  forallb (fun b : bool => b) v = false.
Proof.
  destruct v as [|b v]; [change (zlen (@nil bool)) with 0; lia|].
  simpl. destruct b; [discriminate|reflexivity].
Qed.

Lemma flat_map_ext_in {A B} (f g : A -> list B) (l : list A) :
  (forall x, In x l -> f x = g x) -> flat_map f l = flat_map g l.
Proof.
  induction l as [|x l IH]; intros H; simpl.
  - reflexivity.
  - rewrite (H x (or_introl eq_refl)), IH; [reflexivity|].
    intros y Hy. apply H. right; exact Hy.
Qed.

Lemma flat_map_singleton {A B} (f : A -> B) (l : list A) :
  flat_map (fun x => [f x]) l = map f l.
Proof. induction l; simpl; congruence. Qed.

(** The special cases for a grid that is all true or all false agree with
    the general case. *)
Lemma format_schedule_bool W l :
  _schedule W = bool_array [7; 24; 60] l -> zlen l = 7 * 1440 ->
  format_schedule W = Ok (flat_map (decode_entry l) (py_range 0 7)).
Proof.
  intros Hg Hl. unfold format_schedule. rewrite Hg. unfold np_all, np_any.
  change (forallb truthy (data (bool_array [7; 24; 60] l)))
    with (forallb (fun b : bool => b) l).
  change (existsb truthy (data (bool_array [7; 24; 60] l)))
    with (existsb (fun b : bool => b) l).
  destruct (forallb (fun b : bool => b) l) eqn:Hall.
  - f_equal. rewrite <- flat_map_singleton. apply flat_map_ext_in.
    intros d Hd. unfold decode_entry, decode_day, day_of.
    rewrite forallb_ztake by (apply forallb_zdrop; exact Hall). reflexivity.
  - destruct (existsb (fun b : bool => b) l) eqn:Hany; cbn [negb].
    + rewrite format_days_bool by (auto using week_days_range). reflexivity.
    + f_equal. symmetry.
      rewrite (flat_map_ext_in (decode_entry l) (fun _ => [])).
      * induction (py_range 0 7); simpl; auto.
      * intros d Hd. apply in_py_range in Hd.
        unfold decode_entry, decode_day.
        assert (Hnone : existsb (fun b : bool => b) (day_of l d) = false)
          by (apply existsb_firstn, existsb_skipn; exact Hany).
        rewrite forallb_false_of_none, Hnone
          by (auto; rewrite zlen_day_of by (auto; lia); lia).
        reflexivity.
Qed.

(** ** The days of the matrix of a dict *)

Lemma lookup_not_in day (items : raw_dict) :
  ~ In day (map fst items) -> lookup day items = None.
Proof.
  induction items as [|[k sched] r IH]; cbn [lookup map fst In]; intros H.
  - reflexivity.
  - destruct (Z.eqb_spec k day); [tauto|]. apply IH. tauto.
Qed.

Lemma lookup_in day (items : raw_dict) sched :
  lookup day items = Some sched -> In (day, sched) items.
Proof.
  induction items as [|[k s] r IH]; cbn [lookup]; [discriminate|].
  destruct (Z.eqb_spec k day) as [->|Hne].
  - intros [= ->]. left; reflexivity.
  - intros H. right. auto.
Qed.

Lemma to_matrix_loop_rows items l0 a :
  zlen l0 = 7 * 1440 -> NoDup (map fst items) ->
  to_matrix_loop (bool_array [7; 24; 60] l0) items = Ok a ->
  exists l,
    a = bool_array [7; 24; 60] l /\ zlen l = 7 * 1440 /\
    forall d, 0 <= d < 7 ->
      day_of l d = match lookup d items with
                   | Some sched => vector_of sched
                   | None => day_of l0 d
                   end.
Proof.
  revert l0; induction items as [|[k sched] r IH]; intros l0 Hl0 Hnd;
    cbn [to_matrix_loop].
  - intros [= <-]. exists l0. auto.
  - cbn [map fst] in Hnd. inversion Hnd as [|? ? Hnotin Hnd']; subst.
    unfold py_assert. destruct (in_range7 k) eqn:Hk; [|discriminate].
    apply in_range7_spec in Hk. cbn [rbind].
    destruct (to_vector sched) as [v|] eqn:Hv; [|discriminate]. cbn [rbind].
    rewrite setitem_day_bool by assumption. cbn [rbind].
    pose proof (to_vector_length _ _ Hv) as Hlen.
    intros H. destruct (IH (with_day l0 k v) (zlen_with_day _ _ _ Hl0 Hk Hlen) Hnd' H)
      as (l & -> & Hl & Hrows).
    exists l. split; [reflexivity|]. split; [exact Hl|].
    intros d Hd. rewrite Hrows by assumption. cbn [lookup].
    destruct (Z.eqb_spec k d) as [->|Hne].
    + rewrite lookup_not_in by assumption.
      rewrite day_of_with_day, Z.eqb_refl by assumption.
      unfold vector_of. rewrite Hv. reflexivity.
    + destruct (lookup d r); [reflexivity|].
      rewrite day_of_with_day by assumption.
      destruct (Z.eqb_spec d k); [congruence|reflexivity].
Qed.

Lemma to_matrix_loop_accepts items a0 a k sched :
  to_matrix_loop a0 items = Ok a -> In (k, sched) items ->
  0 <= k < 7 /\ exists v, to_vector sched = Ok v.
Proof.
  revert a0; induction items as [|[k' sched'] r IH]; intros a0 H Hin;
    [contradiction|].
  cbn [to_matrix_loop] in H. unfold py_assert in H.
  destruct (in_range7 k') eqn:Hk; [|discriminate]. cbn [rbind] in H.
  destruct (to_vector sched') as [v|e] eqn:Hv; [|discriminate]. cbn [rbind] in H.
  destruct (setitem_day a0 k' v) as [a1|e]; [|discriminate]. cbn [rbind] in H.
  destruct Hin as [[= -> ->]|Hin].
  - split; [apply in_range7_spec; exact Hk|]. exists v. exact Hv.
  - apply (IH a1 H Hin).
Qed.

Lemma day_of_week_zeros d :
  0 <= d < 7 -> day_of (zrepeat false (size [7; 24; 60])) d = zrepeat false 1440.
Proof.
  intros Hd. apply repeat_false_ext.
  - apply zlen_day_of; [apply zlen_week_zeros|assumption].
  - intros i Hi. rewrite zth_day_of by lia. apply zth_zrepeat.
    change (size [7; 24; 60]) with 10080. lia.
Qed.

Section RoundTrip.
Variable pytz_timezone : string -> option tzinfo.

Lemma from_raw_dict_matrix items tz W :
  from_raw pytz_timezone (RawDict items) tz = Ok W ->
  to_matrix items = Ok (_schedule W).
Proof.
  unfold from_raw. destruct tz as [tz|]; [|discriminate].
  destruct (py_assert _ _) as [u|e]; [|discriminate]. cbn [rbind].
  destruct (to_matrix items) as [a|e] eqn:Ha; [|discriminate]. cbn [rbind].
  intros H. change (from_raw pytz_timezone (RawArray a) (Some tz) = Ok W) in H.
  destruct (from_raw_array_result pytz_timezone a (Some tz) W H) as [-> _].
  reflexivity.
Qed.

End RoundTrip.

(** What [from_raw] accepts passed every check of the code: the dict is
    not empty, its keys are days from 0 to 6, and in every interval the
    times lie between [(0, 0)] and [(24, 0)] and the start is before the
    end, in the lexicographic order of pairs. *)
Lemma from_raw_dict_checked db items tz W :
  from_raw db (RawDict items) tz = Ok W ->
  items <> [] /\
  forall k sched, In (k, sched) items ->
    0 <= k < 7 /\
    forall s e, In (s, e) (slots_of sched) ->
      in_day s = true /\ in_day e = true /\ tuple_lt s e = true.
Proof.
  intros HW. split.
  - intros ->. destruct tz; discriminate.
  - intros k sched Hin. pose proof (from_raw_dict_matrix db items tz W HW) as Hm.
    destruct (to_matrix_loop_accepts items _ _ k sched Hm Hin) as (Hk & v & Hv).
    split; [exact Hk|]. intros s e Hse.
    destruct (in_day s) eqn:Hs; destruct (in_day e) eqn:He;
      destruct (tuple_lt s e) eqn:Hlt; auto;
      destruct (to_vector_rejects sched s e Hse) as (msg & Hmsg); auto; congruence.
Qed.



(** * Further properties of the code *)

(** ** What [from_raw] accepts *)

Lemma define_slot_accepts slots s e :
  accepted_slot (s, e) = true -> exists v, define_slot slots s e = Ok v.
Proof.
  unfold accepted_slot, define_slot, py_assert. cbn [fst snd].
  rewrite !andb_true_iff. intros [[-> ->] ->]. eexists. reflexivity.
Qed.

Lemma define_slots_accepts l slots :
  forallb accepted_slot l = true -> exists v, define_slots slots l = Ok v.
Proof.
  revert slots; induction l as [|[s e] l IH]; intros slots H; cbn [define_slots].
  - eexists. reflexivity.
  - cbn [forallb] in H. apply andb_true_iff in H. destruct H as [Hse Hl].
    destruct (define_slot_accepts slots s e Hse) as (v & ->). cbn [rbind].
    apply IH. exact Hl.
Qed.

Lemma to_vector_accepts sched :
  accepted_day sched = true -> exists v, to_vector sched = Ok v.
Proof.
  destruct sched as [s e|[|x l]]; cbn [accepted_day slots_of to_vector].
  - cbn [forallb]. rewrite andb_true_r. apply define_slot_accepts.
  - discriminate.
  - apply define_slots_accepts.
Qed.

Lemma to_vector_accepted sched v : to_vector sched = Ok v -> accepted_day sched = true.
Proof.
  intros Hv.
  assert (Hall : forall s e, In (s, e) (slots_of sched) -> accepted_slot (s, e) = true).
  { intros s e Hin. unfold accepted_slot. cbn [fst snd].
    destruct (in_day s) eqn:Hs; destruct (in_day e) eqn:He;
      destruct (tuple_lt s e) eqn:Hlt; auto;
      destruct (to_vector_rejects sched s e Hin) as (msg & Hmsg); auto; congruence. }
  destruct sched as [s e|[|x l]]; cbn [accepted_day slots_of] in *.
  - cbn [forallb]. rewrite (Hall s e (or_introl eq_refl)). reflexivity.
  - discriminate.
  - apply forallb_forall. intros [s e] Hin. apply Hall. exact Hin.
Qed.

Lemma to_matrix_loop_accepts_all items l :
  zlen l = 7 * 1440 ->
  forallb (fun item => in_range7 (fst item) && accepted_day (snd item)) items = true ->
  exists a, to_matrix_loop (bool_array [7; 24; 60] l) items = Ok a.
Proof.
  revert l; induction items as [|[k sched] r IH]; intros l Hl H; cbn [to_matrix_loop].
  - eexists. reflexivity.
  - cbn [forallb fst snd] in H. rewrite !andb_true_iff in H.
    destruct H as [[Hk Hs] Hr]. unfold py_assert. rewrite Hk. cbn [rbind].
    destruct (to_vector_accepts sched Hs) as (v & Hv). rewrite Hv. cbn [rbind].
    apply in_range7_spec in Hk. rewrite setitem_day_bool by assumption. cbn [rbind].
    apply IH; [|exact Hr]. apply zlen_with_day; auto.
    eapply to_vector_length; eassumption.
Qed.

Section Acceptance.
Variable pytz_timezone : string -> option tzinfo.

Lemma from_raw_resolves raw tz W :
  from_raw pytz_timezone raw (Some tz) = Ok W ->
  exists z, pytz_timezone tz = Some z /\ _timezone W = Some tz /\ _pytz W = Some z /\
            _is_working_day_fun W = None.
Proof.
  assert (Hbuild : forall a,
            build (_ <- for_timezone pytz_timezone (Some tz) ;; _validate)%method
              (with_schedule init a) = Ok W ->
            exists z, pytz_timezone tz = Some z /\ _timezone W = Some tz /\
                      _pytz W = Some z /\ _is_working_day_fun W = None).
  { intros a. unfold build, mbind, for_timezone, _validate, with_schedule.
    cbn [_schedule _timezone _pytz _is_working_day_fun init].
    destruct (pytz_timezone tz) as [z|]; [|discriminate].
    cbn [_schedule]. destruct (validate_array a) as [[]|e]; [|discriminate].
    intros [= <-]. exists z. auto. }
  unfold from_raw. destruct raw as [items|a|]; [| |discriminate].
  - destruct (py_assert _ _) as [u|e]; [|discriminate]. cbn [rbind].
    destruct (to_matrix items) as [a|e]; [|discriminate]. cbn [rbind]. apply Hbuild.
  - apply Hbuild.
Qed.

(** X1: [from_raw] returns a window for a dict and a time zone name
    exactly when the dict is not empty, every key is a day from 0 to 6,
    no day schedule is the empty tuple, every interval has its two times
    between [(0, 0)] and [(24, 0)] and its start before its end, as pairs
    compared lexicographically, and the time zone name is known. *)
Theorem from_raw_dict_accepts_iff (items : raw_dict) (tz : string) :
  (exists W, from_raw pytz_timezone (RawDict items) (Some tz) = Ok W) <->
  accepted_dict items = true /\ pytz_timezone tz <> None.
Proof.
  split.
  - intros (W & HW).
    destruct (from_raw_dict_checked pytz_timezone items (Some tz) W HW) as [Hne Hall].
    destruct (from_raw_resolves _ _ _ HW) as (z & Hz & _).
    split; [|congruence].
    unfold accepted_dict. apply andb_true_iff. split.
    + destruct items; [congruence|reflexivity].
    + apply forallb_forall. intros [k sched] Hin. cbn [fst snd].
      pose proof (from_raw_dict_matrix pytz_timezone items (Some tz) W HW) as Hm.
      destruct (to_matrix_loop_accepts items _ _ k sched Hm Hin) as (Hk & v & Hv).
      apply andb_true_iff. split.
      * apply in_range7_spec. exact Hk.
      * apply (to_vector_accepted sched v Hv).
  - intros [Hacc Htz]. unfold accepted_dict in Hacc.
    apply andb_true_iff in Hacc. destruct Hacc as [Hne Hall].
    destruct (to_matrix_loop_accepts_all items _ (zlen_week_zeros false) Hall) as (a & Ha).
    destruct (pytz_timezone tz) as [z|] eqn:Hz; [|congruence].
    eexists. apply from_raw_dict with (z := z); [|exact Ha|exact Hz].
    intros ->. discriminate.
Qed.
End Acceptance.

(** ** Setters and [from_to] *)

Lemma zlen_set_days v days l :
  zlen l = 7 * 1440 -> zlen v = 1440 -> Forall (fun k => 0 <= k < 7) days ->
  zlen (set_days v days l) = 7 * 1440.
Proof.
  intros Hl Hv Hdays; revert l Hl.
  induction Hdays as [|k r Hk Hr IH]; intros l Hl; cbn [set_days fold_left].
  - exact Hl.
  - apply IH. apply zlen_with_day; assumption.
Qed.

Lemma day_of_set_days v days l d :
  zlen l = 7 * 1440 -> zlen v = 1440 -> Forall (fun k => 0 <= k < 7) days ->
  0 <= d < 7 ->
  day_of (set_days v days l) d = if existsb (Z.eqb d) days then v else day_of l d.
Proof.
  intros Hl Hv Hdays Hd; revert l Hl.
  induction Hdays as [|k r Hk Hr IH]; intros l Hl; cbn [set_days fold_left existsb].
  - reflexivity.
  - change (fold_left (fun acc k0 => with_day acc k0 v) r (with_day l k v))
      with (set_days v r (with_day l k v)).
    rewrite IH by (apply zlen_with_day; assumption).
    rewrite day_of_with_day by assumption.
    destruct (Z.eqb_spec d k); destruct (existsb (Z.eqb d) r); reflexivity.
Qed.

Lemma with_schedule_same W a : _schedule W = a -> with_schedule W a = W.
Proof. intros <-. destruct W; reflexivity. Qed.

Lemma for_each_set_day sched v days W l :
  to_vector sched = Ok v -> Forall (fun k => 0 <= k < 7) days ->
  _schedule W = bool_array [7; 24; 60] l -> zlen l = 7 * 1440 ->
  for_each (fun day => _set_day_schedule day sched) days W =
  (Ok tt, with_schedule W (bool_array [7; 24; 60] (set_days v days l))).
Proof.
  intros Hv Hdays; revert W l.
  induction Hdays as [|k r Hk Hr IH]; intros W l Hg Hl; cbn [for_each set_days fold_left].
  - unfold mret. rewrite with_schedule_same by assumption. reflexivity.
  - unfold mbind. rewrite (set_day_bool W k sched l v Hg Hk Hv).
    rewrite (IH _ (with_day l k v)).
    + reflexivity.
    + reflexivity.
    + apply zlen_with_day; auto. eapply to_vector_length; eassumption.
Qed.

Lemma py_range_empty lo hi : hi <= lo -> py_range lo hi = [].
Proof.
  intros H. unfold py_range. replace (Z.to_nat (hi - lo)) with 0%nat by lia.
  reflexivity.
Qed.

Lemma py_range_range lo hi : Forall (fun k => lo <= k < hi) (py_range lo hi).
Proof. apply Forall_forall. intros x Hx. apply in_py_range. exact Hx. Qed.

Lemma existsb_py_range lo hi d :
  existsb (Z.eqb d) (py_range lo hi) = (lo <=? d) && (d <? hi).
Proof.
  destruct (existsb (Z.eqb d) (py_range lo hi)) eqn:E.
  - apply existsb_exists in E. destruct E as (x & Hx & Hdx).
    apply Z.eqb_eq in Hdx. subst x. apply in_py_range in Hx.
    symmetry. apply andb_true_iff. rewrite Z.leb_le, Z.ltb_lt. exact Hx.
  - destruct (Z.leb_spec lo d); destruct (Z.ltb_spec d hi); try reflexivity.
    assert (Hin : In d (py_range lo hi)).
    { unfold py_range. apply in_map_iff. exists (Z.to_nat (d - lo)). split; [lia|].
      apply in_seq. lia. }
    assert (Ht : existsb (Z.eqb d) (py_range lo hi) = true)
      by (apply existsb_exists; exists d; split; [exact Hin|apply Z.eqb_refl]).
    congruence.
Qed.



(** X3: [from_to] builds a window without time zone and without
    working-day predicate.  When the first day comes after the last, it is
    the empty window and the day schedule is not even looked at; otherwise
    a day schedule that [to_vector] rejects makes [from_to] raise the same
    exception, and an accepted one is the vector of the days from the
    first to the last, both included, the other days being all false. *)
Theorem from_to_days (day_start day_end : Day) (sched : day_sched) :
  (value day_end < value day_start -> from_to day_start day_end sched = Ok init) /\
  (value day_start <= value day_end ->
   forall e, to_vector sched = Raise e -> from_to day_start day_end sched = Raise e) /\
  (forall v, to_vector sched = Ok v ->
   exists W,
     from_to day_start day_end sched = Ok W /\ well_formed W /\
     _timezone W = None /\ _pytz W = None /\ _is_working_day_fun W = None /\
     forall d, 0 <= d < 7 ->
       day_vector W d =
       if (value day_start <=? d) && (d <=? value day_end) then v
       else zrepeat false 1440).
Proof.
  unfold from_to. split; [|split].
  - intros H. rewrite py_range_empty by lia. reflexivity.
  - intros H e He.
    assert (Hr : exists r, py_range (value day_start) (value day_end + 1)
                           = value day_start :: r).
    { unfold py_range.
      destruct (Z.to_nat (value day_end + 1 - value day_start)) as [|n] eqn:E; [lia|].
      cbn [seq map]. eexists. f_equal. lia. }
    destruct Hr as (r & ->). cbn [for_each]. unfold build, mbind.
    rewrite (set_day_rejected init _ sched e He). reflexivity.
  - intros v Hv. pose proof (to_vector_length _ _ Hv) as Hlen.
    pose proof (value_range day_start). pose proof (value_range day_end).
    assert (Hdays : Forall (fun k => 0 <= k < 7)
                      (py_range (value day_start) (value day_end + 1))).
    { apply Forall_forall. intros x Hx. apply in_py_range in Hx. lia. }
    eexists. split.
    + unfold build.
      rewrite (for_each_set_day sched v _ init (zrepeat false (size [7; 24; 60])) Hv Hdays
                 eq_refl (zlen_week_zeros false)).
      reflexivity.
    + unfold with_schedule, day_vector.
      cbn [_schedule _timezone _pytz _is_working_day_fun init].
      split; [|split; [|split; [|split]]]; try reflexivity.
      * eexists. split; [reflexivity|].
        apply zlen_set_days; auto.
      * intros d Hd. rewrite bits_bool_array.
        rewrite day_of_set_days by (auto; apply zlen_week_zeros).
        rewrite existsb_py_range, day_of_week_zeros by assumption.
        replace (d <? value day_end + 1) with (d <=? value day_end)
          by (destruct (Z.leb_spec d (value day_end));
              destruct (Z.ltb_spec d (value day_end + 1)); auto; lia).
        reflexivity.
Qed.

Lemma from_to_days_witness :
  from_to Friday Monday (Multi []) = Ok init.
Proof.
  apply (from_to_days Friday Monday (Multi [])). simpl. lia.
Defined.

(** ** Days that are defined and keys of the formatted schedule *)

Lemma decode_day_none_iff v :
  zlen v = 1440 ->
  (decode_day v = None <-> existsb (fun b : bool => b) v = false).
Proof.
  intros Hv. unfold decode_day. split.
  - destruct (forallb (fun b : bool => b) v); [discriminate|].
    destruct (existsb (fun b : bool => b) v); [discriminate|reflexivity].
  - intros H. rewrite forallb_false_of_none, H by (auto; lia). reflexivity.
Qed.

Lemma format_keys l days :
  zlen l = 7 * 1440 -> Forall (fun d => 0 <= d < 7) days ->
  map fst (flat_map (decode_entry l) days) =
  filter (fun d => existsb (fun b : bool => b) (day_of l d)) days.
Proof.
  intros Hl Hdays. induction Hdays as [|d r Hd Hr IH]; cbn [flat_map filter].
  - reflexivity.
  - rewrite map_app, IH. unfold decode_entry.
    pose proof (decode_day_none_iff (day_of l d) (zlen_day_of l d Hl Hd)) as Hnone.
    destruct (decode_day (day_of l d)) as [s|];
      destruct (existsb (fun b : bool => b) (day_of l d)); try reflexivity.
    + destruct Hnone as [_ H]. discriminate (H eq_refl).
    + destruct Hnone as [H _]. discriminate (H eq_refl).
Qed.

Lemma is_defined_for_day_bool W l d :
  _schedule W = bool_array [7; 24; 60] l -> 0 <= d < 7 ->
  is_defined_for_day W (DayInt d) = Ok (existsb (fun b : bool => b) (day_of l d)).
Proof.
  intros Hg Hd. unfold is_defined_for_day. rewrite Hg, getitem_bool by assumption.
  reflexivity.
Qed.

(** X4: on every window with a boolean grid [format_schedule] returns
    without raising, and the keys of the dict it returns are, in increasing
    order, the days from 0 to 6 for which [is_defined_for_day] answers
    [True]: a day has an entry exactly when one of its minutes is on. *)
Theorem format_schedule_keys (W : WeeklySchedule) :
  well_formed W ->
  exists formatted,
    format_schedule W = Ok formatted /\
    map fst formatted =
    filter (fun d => match is_defined_for_day W (DayInt d) with
                     | Ok defined => defined
                     | Raise _ => false
                     end)
           (py_range 0 7).
Proof.
  intros (l & Hg & Hl). eexists. split; [apply (format_schedule_bool W l Hg Hl)|].
  rewrite format_keys by (auto using week_days_range).
  apply filter_ext_in. intros d Hd. apply in_py_range in Hd.
  rewrite (is_defined_for_day_bool W l d Hg Hd). reflexivity.
Qed.

Lemma format_schedule_keys_witness :
  exists formatted,
    format_schedule window_6_18 = Ok formatted /\ map fst formatted = [0].
Proof.
  destruct (format_schedule_keys window_6_18 well_formed_window_6_18)
    as (formatted & H1 & H2).
  exists formatted. split; [exact H1|]. rewrite H2. vm_compute. reflexivity.
Defined.

(** X5: [is_defined_for_day] takes a member of [Day] or an integer.  An
    integer from -7 to 6 is an index into the seven days, a negative one
    counting back from Sunday, and the answer is whether a minute of that
    day is on; any other integer raises [IndexError]. *)
Theorem is_defined_for_day_index (W : WeeklySchedule) (i : Z) :
  well_formed W ->
  (forall d, is_defined_for_day W (DayEnum d) = is_defined_for_day W (DayInt (value d))) /\
  is_defined_for_day W (DayInt i) =
  if (-7 <=? i) && (i <? 7)
  then Ok (existsb (fun b : bool => b) (day_vector W (i mod 7)))
  else Raise IndexError.
Proof.
  intros (l & Hg & Hl). split; [reflexivity|].
  unfold is_defined_for_day, getitem, day_vector. rewrite Hg, bits_bool_array.
  cbn [shape bool_array]. unfold norm_index. change (- (7)) with (-7).
  destruct ((-7 <=? i) && (i <? 7)); reflexivity.
Qed.

Lemma is_defined_for_day_index_witness :
  is_defined_for_day window_6_18 (DayInt (-7)) = Ok true /\
  is_defined_for_day window_6_18 (DayInt 7) = Raise IndexError.
Proof.
  split.
  - destruct (is_defined_for_day_index window_6_18 (-7) well_formed_window_6_18)
      as [_ H].
    rewrite H. vm_compute. reflexivity.
  - destruct (is_defined_for_day_index window_6_18 7 well_formed_window_6_18)
      as [_ H].
    rewrite H. reflexivity.
Defined.

(** ** [always], [never] and the working-day predicate *)

Lemma cell_constant W x :
  _schedule W = bool_array [7; 24; 60] (zrepeat x (size [7; 24; 60])) ->
  forall d, valid_datetime d -> cell W (weekday d) (hour d * 60 + minute d) = x.
Proof.
  intros Hg d (_ & Hh & Hm & _). unfold cell. rewrite Hg, bits_bool_array.
  pose proof (weekday_range d).
  destruct x.
  - rewrite (zth_zrepeat _ true); [reflexivity|].
    change (size [7; 24; 60]) with 10080. lia.
  - destruct (zth _ (zrepeat false (size [7; 24; 60])) false) eqn:E; [|reflexivity].
    rewrite (zth_zrepeat _ false) in E; [discriminate|].
    change (size [7; 24; 60]) with 10080. lia.
Qed.

Lemma well_formed_constant W x :
  _schedule W = bool_array [7; 24; 60] (zrepeat x (size [7; 24; 60])) -> well_formed W.
Proof. intros Hg. eexists. split; [exact Hg|apply zlen_week_zeros]. Qed.

Section AlwaysNever.
Variable pytz_timezone : string -> option tzinfo.

(** X6: [always()] returns a window in UTC that is on at every valid
    datetime and whose formatted schedule gives the whole day
    [((0, 0), (24, 0))] to each of the seven days. *)
Theorem always_is_on (z : tzinfo) :
  pytz_timezone "UTC"%string = Some z ->
  exists W,
    always pytz_timezone = Ok W /\ well_formed W /\
    _timezone W = Some "UTC"%string /\ _is_working_day_fun W = None /\
    (forall d, valid_datetime d -> is_on_at W (PyDatetime d) = Ok (VBool true)) /\
    format_schedule W = Ok (map (fun day => (day, whole_day)) (py_range 0 7)).
Proof.
  intros Hz.
  assert (Hal : always pytz_timezone =
                Ok (mk_sched (np_ones [7; 24; 60]) (Some "UTC"%string) (Some z) None)).
  { unfold always. rewrite (from_raw_array _ (np_ones [7; 24; 60]) _ z Hz (validate_bool _)).
    cbn [rbind]. unfold build, for_timezone. rewrite Hz. reflexivity. }
  eexists. split; [exact Hal|].
  assert (HW : well_formed (mk_sched (np_ones [7; 24; 60]) (Some "UTC"%string)
                              (Some z) None))
    by (apply (well_formed_constant _ true); reflexivity).
  split; [exact HW|]. split; [reflexivity|]. split; [reflexivity|]. split.
  - intros d Hd. pose proof Hd as (_ & Hh & Hm & _).
    rewrite is_on_at_lookup by (auto; reflexivity).
    rewrite (cell_constant _ true) by (auto; reflexivity). reflexivity.
  - unfold format_schedule. cbn [_schedule].
    replace (np_all (np_ones [7; 24; 60])) with true by (vm_compute; reflexivity).
    reflexivity.
Qed.

(** X7: [never()] returns a window in UTC that is off at every valid
    datetime and whose formatted schedule is the empty dict. *)
Theorem never_is_off (z : tzinfo) :
  pytz_timezone "UTC"%string = Some z ->
  exists W,
    never pytz_timezone = Ok W /\ well_formed W /\
    _timezone W = Some "UTC"%string /\ _is_working_day_fun W = None /\
    (forall d, valid_datetime d -> is_on_at W (PyDatetime d) = Ok (VBool false)) /\
    format_schedule W = Ok [].
Proof.
  intros Hz.
  assert (Hnv : never pytz_timezone =
                Ok (mk_sched (np_zeros [7; 24; 60]) (Some "UTC"%string) (Some z) None)).
  { unfold never, build, for_timezone. rewrite Hz. reflexivity. }
  eexists. split; [exact Hnv|].
  assert (HW : well_formed (mk_sched (np_zeros [7; 24; 60]) (Some "UTC"%string)
                              (Some z) None))
    by (apply (well_formed_constant _ false); reflexivity).
  split; [exact HW|]. split; [reflexivity|]. split; [reflexivity|]. split.
  - intros d Hd. pose proof Hd as (_ & Hh & Hm & _).
    rewrite is_on_at_lookup by (auto; reflexivity).
    rewrite (cell_constant _ false) by (auto; reflexivity). reflexivity.
  - unfold format_schedule. cbn [_schedule].
    replace (np_all (np_zeros [7; 24; 60])) with false by (vm_compute; reflexivity).
    replace (np_any (np_zeros [7; 24; 60])) with false by (vm_compute; reflexivity).
    reflexivity.
Qed.
End AlwaysNever.

Lemma always_is_on_witness :
  exists W, always tz_table = Ok W /\
            is_on_at W (PyDatetime monday_0630_plus1) = Ok (VBool true).
Proof.
  destruct (always_is_on tz_table utc eq_refl) as (W & H1 & _ & _ & _ & H5 & _).
  exists W. split; [exact H1|]. apply H5. unfold valid_datetime. simpl. lia.
Defined.

Lemma never_is_off_witness :
  exists W, never tz_table = Ok W /\
            is_on_at W (PyDatetime monday_0630_plus1) = Ok (VBool false).
Proof.
  destruct (never_is_off tz_table utc eq_refl) as (W & H1 & _ & _ & _ & H5 & _).
  exists W. split; [exact H1|]. apply H5. unfold valid_datetime. simpl. lia.
Defined.

(** X8: once [with_working_days_calendar] has registered a callable or a
    calendar, whatever predicate the window had before, [is_on_at] answers
    for a valid datetime the conjunction of the predicate at that datetime
    and of the cell of the grid; the grid and the time zone are as they
    were. *)
Theorem working_days_gate (W : WeeklySchedule) (calendar : calendar_arg) (d : datetime) :
  well_formed W -> valid_datetime d ->
  exists W',
    with_working_days_calendar calendar W = (Ok tt, W') /\
    _schedule W' = _schedule W /\ _timezone W' = _timezone W /\
    is_on_at W' (PyDatetime d) =
    Ok (VBool (calendar_fun calendar d &&
               cell W (weekday d) (hour d * 60 + minute d))).
Proof.
  intros (l & Hg & Hl) (_ & Hh & Hm & _). eexists. split; [reflexivity|].
  split; [reflexivity|]. split; [reflexivity|].
  unfold is_on_at, _is_on_weekly_schedule, cell.
  cbn [_is_working_day_fun _schedule]. fold (calendar_fun calendar).
  rewrite Hg, bits_bool_array.
  destruct (calendar_fun calendar d); cbn [negb andb]; [|reflexivity].
  apply getitem3_cell; auto using weekday_range.
Qed.

Lemma working_days_gate_witness :
  exists W',
    with_working_days_calendar (Callable (fun _ => false)) window_6_18 = (Ok tt, W') /\
    is_on_at W' (PyDatetime monday_0630_plus1) = Ok (VBool false).
Proof.
  destruct (working_days_gate window_6_18 (Callable (fun _ => false)) monday_0630_plus1)
    as (W' & H1 & _ & _ & H4).
  - exact well_formed_window_6_18.
  - unfold valid_datetime. simpl. lia.
  - exists W'. split; [exact H1|]. rewrite H4. reflexivity.
Defined.

(** ** [clone] and [for_timezone] *)

Section Cloning.
Variable pytz_timezone : string -> option tzinfo.

(** X9: [clone] returns a window with the same grid, time zone name,
    zone and working-day predicate as the window it copies, whenever the
    time zone fields of that window agree, which is so after every call of
    [for_timezone] that returned with a name that is not empty. *)
Theorem clone_copies (W : WeeklySchedule) :
  tz_coherent pytz_timezone W ->
  clone pytz_timezone W = Ok W /\
  forall name z, name <> EmptyString -> pytz_timezone name = Some z ->
    tz_coherent pytz_timezone (snd (for_timezone pytz_timezone (Some name) W)) /\
    clone pytz_timezone (snd (for_timezone pytz_timezone (Some name) W)) =
    Ok (snd (for_timezone pytz_timezone (Some name) W)).
Proof.
  assert (Hclone : forall W0, tz_coherent pytz_timezone W0 ->
                              clone pytz_timezone W0 = Ok W0).
  { intros [a [[|c name]|] [z|] f]; unfold tz_coherent, clone, with_schedule;
      cbn [_schedule _timezone _pytz _is_working_day_fun init].
    - intros [H _]. congruence.
    - intros H. congruence.
    - intros [_ ->]. reflexivity.
    - intros _. reflexivity.
    - intros [].
    - intros _. reflexivity. }
  intros HW. split; [apply Hclone; exact HW|].
  intros name z Hname Hz.
  assert (Hc : tz_coherent pytz_timezone
                 (snd (for_timezone pytz_timezone (Some name) W))).
  { unfold for_timezone. rewrite Hz. unfold tz_coherent. cbn [snd _timezone _pytz].
    auto. }
  split; [exact Hc|apply Hclone; exact Hc].
Qed.

(** X10: [for_timezone] with a name that the data base does not know
    raises [UnknownTimeZoneError] after it has stored the name: the window
    keeps its grid and its former zone, and, when it had a zone and the
    name is not empty, [clone] raises on it from then on. *)
Theorem for_timezone_unknown_name (W : WeeklySchedule) (name : string) (z : tzinfo) :
  pytz_timezone name = None -> name <> EmptyString -> _pytz W = Some z ->
  exists W',
    for_timezone pytz_timezone (Some name) W = (Raise UnknownTimeZoneError, W') /\
    _schedule W' = _schedule W /\ _timezone W' = Some name /\ _pytz W' = Some z /\
    clone pytz_timezone W' = Raise UnknownTimeZoneError.
Proof.
  intros Hname Hne Hz. eexists. split.
  - unfold for_timezone. rewrite Hname. reflexivity.
  - cbn [_schedule _timezone _pytz]. repeat split; auto.
    unfold clone. cbn [_timezone _pytz]. rewrite Hz, Hname.
    destruct name as [|c name]; [congruence|reflexivity].
Qed.
End Cloning.

Lemma clone_copies_witness :
  clone tz_table window_6_18 = Ok window_6_18.
Proof.
  apply (clone_copies tz_table window_6_18).
  unfold tz_coherent. vm_compute. split; [discriminate|reflexivity].
Defined.

Lemma for_timezone_unknown_name_witness :
  exists W',
    for_timezone tz_table (Some "Mars/Olympus"%string) window_6_18 =
      (Raise UnknownTimeZoneError, W') /\
    clone tz_table W' = Raise UnknownTimeZoneError.
Proof.
  destruct (for_timezone_unknown_name tz_table window_6_18 "Mars/Olympus"%string utc)
    as (W' & H1 & _ & _ & _ & H5).
  - reflexivity.
  - discriminate.
  - reflexivity.
  - exists W'. split; assumption.
Defined.

(** ** Dense grids *)

Lemma validate_array_iff a :
  validate_array a = Ok tt <->
  shape a = [7; 24; 60] /\ forallb in_unit (data a) = true.
Proof.
  split; [apply validate_array_ok|].
  intros [Hs Hu]. unfold in_unit in Hu.
  rewrite forallb_andb, andb_true_iff in Hu. destruct Hu as [E1 E2].
  unfold validate_array, np_len. rewrite Hs. simpl. rewrite E1, E2. reflexivity.
Qed.

Section DenseGrids.
Variable pytz_timezone : string -> option tzinfo.

(** X11: [from_raw] returns a window for an array and a time zone name
    exactly when the shape of the array is (7, 24, 60), each of its values
    lies between 0 and 1 and the name is known; the window then holds the
    array as it is, whatever the type of its values, the name and its zone,
    and no working-day predicate. *)
Theorem from_raw_array_accepts_iff (a : ndarray) (tz : string) (W : WeeklySchedule) :
  from_raw pytz_timezone (RawArray a) (Some tz) = Ok W <->
  shape a = [7; 24; 60] /\ forallb in_unit (data a) = true /\
  exists z, pytz_timezone tz = Some z /\ W = mk_sched a (Some tz) (Some z) None.
Proof.
  split.
  - intros HW.
    destruct (from_raw_array_result pytz_timezone a (Some tz) W HW) as [Ha Hv].
    destruct (from_raw_resolves pytz_timezone _ _ _ HW) as (z & Hz & Ht & Hp & Hf).
    apply validate_array_iff in Hv. destruct Hv as [Hs Hu].
    split; [exact Hs|]. split; [exact Hu|]. exists z. split; [exact Hz|].
    destruct W as [a' t p f]. cbn [_schedule _timezone _pytz _is_working_day_fun] in *.
    congruence.
  - intros (Hs & Hu & z & Hz & ->).
    apply from_raw_array; [exact Hz|]. apply validate_array_iff. auto.
Qed.

Lemma forallb_ge0_lnot (l : list Z) :
  l <> [] -> forallb in_unit l = true -> forallb ge0 (map Z.lnot l) = false.
Proof.
  destruct l as [|x l]; [congruence|]. intros _ H. cbn [forallb map] in *.
  apply andb_true_iff in H. destruct H as [Hx _].
  unfold in_unit in Hx. apply andb_true_iff in Hx. destruct Hx as [Hx _].
  cbn in Hx. apply Z.leb_le in Hx.
  replace (ge0 (Z.lnot x)) with false; [reflexivity|].
  symmetry. cbn. apply Z.leb_gt. unfold Z.lnot. lia.
Qed.

End DenseGrids.


(** ** The minutes of a day schedule *)

Lemma existsb_map_comp {A B} (f : B -> bool) (g : A -> B) (l : list A) :
  existsb f (map g l) = existsb (fun x => f (g x)) l.
Proof. induction l as [|x l IH]; cbn [map existsb]; [reflexivity|]. rewrite IH. reflexivity. Qed.

(** X13: for a day schedule that passes the checks and whose minute
    fields lie between 0 and 59, [to_vector] returns 1440 booleans, and
    minute [m] of the day is on exactly when it lies in one of the
    intervals, the start included and the end excluded. *)
Theorem to_vector_minutes (sched : day_sched) :
  accepted_day sched = true -> clock_times (slots_of sched) ->
  exists v,
    to_vector sched = Ok v /\ zlen v = 1440 /\
    forall m, zth m v false =
              existsb (fun se : slot => (index (fst se) <=? m) && (m <? index (snd se)))
                      (slots_of sched).
Proof.
  intros Hacc Hclock. destruct (to_vector_accepts sched Hacc) as (v & Hv).
  exists v. split; [exact Hv|]. split; [apply (to_vector_length sched v Hv)|].
  intros m. destruct (to_vector_cells sched v Hclock Hv) as [_ Hcells].
  rewrite Hcells. unfold covers. rewrite existsb_map_comp. reflexivity.
Qed.

Lemma to_vector_minutes_witness :
  exists v, to_vector (Single (6, 0) (18, 0)) = Ok v /\ zth 360 v false = true /\
            zth 1080 v false = false.
Proof.
  destruct (to_vector_minutes (Single (6, 0) (18, 0))) as (v & Hv & _ & Hm).
  - reflexivity.
  - constructor; [simpl; lia|constructor].
  - exists v. split; [exact Hv|]. rewrite !Hm. split; reflexivity.
Defined.

(** ** Building again from the formatted schedule *)

Lemma zth_nil {A} i (d : A) : zth i [] d = d.
Proof.
  destruct (Z_lt_ge_dec i 0); [apply zth_neg; assumption|].
  apply zth_overflow. rewrite zlen_nil. lia.
Qed.

Lemma zth_cons_from (b : bool) l i j :
  (i <=? j) && zth (j - i) (b :: l) false =
  ((i =? j) && b) || ((i + 1 <=? j) && zth (j - (i + 1)) l false).
Proof.
  destruct (Z.leb_spec i j); destruct (Z.eqb_spec i j); destruct (Z.leb_spec (i + 1) j);
    try lia; cbn [andb orb].
  - subst j. rewrite Z.sub_diag, zth_cons_0. destruct b; reflexivity.
  - rewrite zth_cons_pos by lia. f_equal. lia.
Qed.

Lemma chain_weaken lo lo' ivs : chain lo ivs -> lo' <= lo -> chain lo' ivs.
Proof.
  destruct ivs as [|[a b] r]; cbn [chain]; [auto|].
  intros (H1 & H2 & H3) H. repeat split; auto; lia.
Qed.

(** The runs of minutes that are on in [l], read from position [i]: when
    no run is open, and when a run that started at [a] is open. *)
Lemma runs_exist (l : list bool) :
  forall i,
    (exists ivs,
       chain (i - 1) ivs /\
       (forall x, In x (bounds ivs) -> x <= i + zlen l) /\
       forall j, covers ivs j = (i <=? j) && zth (j - i) l false) /\
    (forall a, a < i ->
       exists ivs,
         (forall lo, lo < a -> chain lo ivs) /\
         (forall x, In x (bounds ivs) -> x <= i + zlen l) /\
         forall j, covers ivs j =
                   ((a <=? j) && (j <? i)) || ((i <=? j) && zth (j - i) l false)).
Proof.
  induction l as [|b l IH]; intros i.
  - split.
    + exists []. split; [exact I|]. split; [intros x []|].
      intros j. rewrite zth_nil, andb_false_r. reflexivity.
    + intros a Ha. exists [(a, i)]. split; [|split].
      * intros lo Hlo. cbn [chain]. auto.
      * intros x Hx. rewrite zlen_nil. cbn in Hx. lia.
      * intros j. rewrite zth_nil, andb_false_r. cbn [covers existsb fst snd].
        reflexivity.
  - destruct (IH (i + 1)) as [(ivs0 & Hch0 & Hb0 & Hc0) IH1]. split.
    + destruct b.
      * destruct (IH1 i) as (ivs & Hch & Hb & Hc); [lia|].
        exists ivs. split; [apply Hch; lia|]. split.
        -- intros x Hx. rewrite zlen_cons. specialize (Hb x Hx). lia.
        -- intros j. rewrite Hc, zth_cons_from.
           destruct (Z.leb_spec i j); destruct (Z.ltb_spec j (i + 1));
             destruct (Z.eqb_spec i j); destruct (Z.leb_spec (i + 1) j);
             try lia; reflexivity.
      * exists ivs0. split; [apply chain_weaken with (i + 1 - 1); [exact Hch0|lia]|].
        split.
        -- intros x Hx. rewrite zlen_cons. specialize (Hb0 x Hx). lia.
        -- intros j. rewrite Hc0, zth_cons_from, andb_false_r. reflexivity.
    + intros a Ha. destruct b.
      * destruct (IH1 a) as (ivs & Hch & Hb & Hc); [lia|].
        exists ivs. split; [exact Hch|]. split.
        -- intros x Hx. rewrite zlen_cons. specialize (Hb x Hx). lia.
        -- intros j. rewrite Hc, zth_cons_from.
           destruct (Z.leb_spec a j); destruct (Z.ltb_spec j (i + 1));
             destruct (Z.ltb_spec j i);
             destruct (Z.eqb_spec i j); destruct (Z.leb_spec (i + 1) j);
             try lia; reflexivity.
      * exists ((a, i) :: ivs0). split; [|split].
        -- intros lo Hlo. cbn [chain]. split; [exact Hlo|]. split; [exact Ha|].
           apply chain_weaken with (i + 1 - 1); [exact Hch0|lia].
        -- intros x Hx. rewrite zlen_cons. cbn [bounds flat_map fst snd app] in Hx.
           destruct Hx as [<-|[<-|Hx]].
           ++ pose proof (zlen_nonneg l). lia.
           ++ pose proof (zlen_nonneg l). lia.
           ++ specialize (Hb0 x Hx). lia.
        -- intros j. cbn [covers existsb fst snd]. fold (covers ivs0 j).
           rewrite Hc0, zth_cons_from, andb_false_r. reflexivity.
Qed.

Lemma chain_bounded lo hi ivs :
  chain lo ivs -> (forall x, In x (bounds ivs) -> x <= hi) ->
  Forall (fun ab => lo < fst ab /\ fst ab < snd ab /\ snd ab <= hi) ivs.
Proof.
  revert lo; induction ivs as [|[a b] r IH]; intros lo Hch Hb; [constructor|].
  cbn [chain] in Hch. destruct Hch as (H1 & H2 & H3).
  constructor.
  - cbn [fst snd]. repeat split; auto. apply Hb. cbn. auto.
  - apply Forall_impl with (P := fun ab => b < fst ab /\ fst ab < snd ab /\ snd ab <= hi).
    + intros [a' b']. cbn [fst snd]. lia.
    + apply IH; [exact H3|]. intros x Hx. apply Hb.
      cbn [bounds flat_map fst snd app]. right. right. exact Hx.
Qed.

Lemma index_divmod a : index (a / 60, a mod 60) = a.
Proof. unfold index. cbn [fst snd]. pose proof (Z.div_mod a 60). lia. Qed.

Lemma accepted_slot_of_minutes a b :
  0 <= a -> a < b -> b <= 1440 ->
  accepted_slot ((a / 60, a mod 60), (b / 60, b mod 60)) = true.
Proof.
  intros Ha Hab Hb.
  pose proof (Z.div_mod a 60). pose proof (Z.mod_pos_bound a 60).
  pose proof (Z.div_mod b 60). pose proof (Z.mod_pos_bound b 60).
  set (ha := a / 60) in *. set (ma := a mod 60) in *.
  set (hb := b / 60) in *. set (mb := b mod 60) in *.
  unfold accepted_slot, in_day, tuple_le, tuple_lt. cbn [fst snd].
  rewrite !andb_true_iff, !orb_true_iff, !andb_true_iff.
  rewrite !Z.ltb_lt, !Z.leb_le, !Z.eqb_eq. lia.
Qed.

Lemma separated_of_chain lo (l : list slot) :
  chain lo (map minutes_of l) -> separated l.
Proof.
  revert lo; induction l as [|[s1 e1] l IH]; intros lo; [intros _; exact I|].
  destruct l as [|[s2 e2] r]; [intros _; exact I|].
  cbn [map chain minutes_of fst snd]. intros (_ & _ & H2 & H3 & H4).
  cbn [separated]. split; [exact H2|].
  apply (IH (index e1)). cbn [map chain minutes_of fst snd]. auto.
Qed.

Lemma zth_forallb (v : list bool) i :
  forallb (fun b : bool => b) v = true -> 0 <= i < zlen v -> zth i v false = true.
Proof.
  revert i; induction v as [|b v IH]; intros i H Hi.
  - change (zlen (@nil bool)) with 0 in Hi. lia.
  - cbn [forallb] in H. apply andb_true_iff in H. destruct H as [-> H].
    rewrite zlen_cons in Hi. destruct (Z.eq_dec i 0) as [->|Hne].
    + apply zth_cons_0.
    + rewrite zth_cons_pos by lia. apply IH; [exact H|lia].
Qed.

Lemma zth_existsb_false (v : list bool) i :
  existsb (fun b : bool => b) v = false -> zth i v false = false.
Proof.
  revert i; induction v as [|b v IH]; intros i H.
  - apply zth_nil.
  - cbn [existsb] in H. apply orb_false_iff in H. destruct H as [-> H].
    destruct (Z_lt_ge_dec i 0); [apply zth_neg; assumption|].
    destruct (Z.eq_dec i 0) as [->|Hne].
    + apply zth_cons_0.
    + rewrite zth_cons_pos by lia. apply IH. exact H.
Qed.

Lemma existsb_zth (v : list bool) :
  existsb (fun b : bool => b) v = true ->
  exists i, 0 <= i < zlen v /\ zth i v false = true.
Proof.
  induction v as [|b v IH]; [discriminate|].
  cbn [existsb]. rewrite zlen_cons. destruct b; cbn [orb].
  - intros _. exists 0. split; [pose proof (zlen_nonneg v); lia|apply zth_cons_0].
  - intros H. destruct (IH H) as (i & Hi & Hz). exists (i + 1). split; [lia|].
    rewrite zth_cons_pos by lia. replace (i + 1 - 1) with i by lia. exact Hz.
Qed.

(** The day schedule that [format_schedule] gives for the 1440 minutes
    [v] of a day is one that [to_vector] turns into [v] again. *)
Lemma decode_day_encodes (v : list bool) :
  zlen v = 1440 ->
  match decode_day v with
  | Some sched => to_vector sched = Ok v /\ normal_day sched
  | None => v = zrepeat false 1440
  end.
Proof.
  intros Hv. unfold decode_day.
  destruct (forallb (fun b : bool => b) v) eqn:Hall.
  - split.
    + replace v with (zrepeat true 1440); [vm_compute; reflexivity|].
      symmetry. apply list_ext with (d := false).
      * rewrite zlen_zrepeat. lia.
      * intros i Hi. rewrite zth_forallb by assumption.
        symmetry. apply zth_zrepeat. lia.
    + split; [|exact I]. constructor; [simpl; lia|constructor].
  - destruct (existsb (fun b : bool => b) v) eqn:Hex; cbn [negb].
    + destruct (runs_exist v 0) as [(ivs & Hch & Hb & Hc) _].
      change (0 - 1) with (-1) in Hch.
      assert (Hcov : forall i, zth i v false = covers ivs i).
      { intros i. rewrite Hc. destruct (Z.leb_spec 0 i); cbn [andb].
        - rewrite Z.sub_0_r. reflexivity.
        - apply zth_neg. assumption. }
      assert (Hidx : slot_indexes_of v = bounds ivs).
      { apply slot_indexes_of_chain; auto. intros x Hx. specialize (Hb x Hx). lia. }
      remember (map (fun ab : Z * Z =>
                       ((fst ab / 60, fst ab mod 60), (snd ab / 60, snd ab mod 60)))
                    ivs) as l eqn:El.
      assert (Hmin : map minutes_of l = ivs).
      { subst l. rewrite map_map. rewrite <- (map_id ivs) at 2.
        apply map_ext. intros [a b]. unfold minutes_of. cbn [fst snd].
        rewrite !index_divmod. reflexivity. }
      assert (Hclock : clock_times l).
      { subst l. unfold clock_times. apply Forall_map. apply Forall_forall.
        intros [a b] _. cbn [fst snd]. split; apply Z.mod_pos_bound; lia. }
      assert (Hacc : forallb accepted_slot l = true).
      { subst l. apply forallb_forall. intros x Hin. apply in_map_iff in Hin.
        destruct Hin as ([a b] & <- & Hin).
        assert (Hbd : forall x, In x (bounds ivs) -> x <= 1440)
          by (intros x Hx; specialize (Hb x Hx); lia).
        pose proof (chain_bounded (-1) 1440 ivs Hch Hbd) as Hall'.
        rewrite Forall_forall in Hall'. specialize (Hall' (a, b) Hin).
        cbn [fst snd] in *. apply accepted_slot_of_minutes; lia. }
      assert (Hne : l <> []).
      { intros Hnil. destruct (existsb_zth v Hex) as (i & _ & Hi).
        rewrite Hcov, <- Hmin, Hnil in Hi. discriminate. }
      assert (Hgs : group_slots 0 None None (bounds ivs) [] = l).
      { rewrite <- Hmin. exact (group_slots_bounds l 0 [] Hclock eq_refl). }
      cbv zeta. rewrite Hidx, Hgs.
      set (sched := match l with
                    | [(s, e)] => Single s e
                    | _ => Multi l
                    end).
      assert (Hslots : slots_of sched = l)
        by (subst sched; destruct l as [|[s e] [|x r]]; reflexivity).
      assert (Hsched : accepted_day sched = true).
      { subst sched. destruct l as [|[s e] [|x r]]; [congruence| |];
          cbn [accepted_day slots_of]; exact Hacc. }
      destruct (to_vector_accepts sched Hsched) as (v' & Hv').
      destruct (to_vector_cells sched v') as [_ Hcells];
        [rewrite Hslots; exact Hclock|exact Hv'|].
      assert (Heq : v' = v).
      { apply list_ext with (d := false).
        - rewrite Hv. apply (to_vector_length sched v' Hv').
        - intros i _. rewrite Hcells, Hslots, Hmin, Hcov. reflexivity. }
      change (to_vector sched = Ok v /\ normal_day sched).
      split; [congruence|]. split; rewrite Hslots; [exact Hclock|].
      apply separated_of_chain with (-1). rewrite Hmin. exact Hch.
    + apply list_ext with (d := false).
      * rewrite zlen_zrepeat. lia.
      * intros i Hi. rewrite zth_existsb_false by assumption.
        symmetry. apply zth_zrepeat. lia.
Qed.

Lemma grid_ext (l l' : list bool) :
  zlen l = 7 * 1440 -> zlen l' = 7 * 1440 ->
  (forall d, 0 <= d < 7 -> day_of l d = day_of l' d) -> l = l'.
Proof.
  intros Hl Hl' Hdays. apply list_ext with (d := false); [congruence|].
  intros i Hi. rewrite Hl in Hi.
  pose proof (Z.div_mod i 1440). pose proof (Z.mod_pos_bound i 1440).
  assert (Hd : 0 <= i / 1440 < 7).
  { split; [apply Z.div_pos; lia|apply Z.div_lt_upper_bound; lia]. }
  replace i with (i / 1440 * 1440 + i mod 1440) by lia.
  rewrite <- !zth_day_of by lia. rewrite Hdays by lia. reflexivity.
Qed.

Lemma py_range_in lo hi d : lo <= d < hi -> In d (py_range lo hi).
Proof.
  intros Hd. unfold py_range. apply in_map_iff. exists (Z.to_nat (d - lo)).
  split; [lia|]. apply in_seq. lia.
Qed.

Lemma lookup_decode l days d :
  lookup d (flat_map (decode_entry l) days) =
  if existsb (Z.eqb d) days then decode_day (day_of l d) else None.
Proof.
  induction days as [|d0 r IH]; [reflexivity|].
  cbn [flat_map existsb]. unfold decode_entry at 1.
  destruct (decode_day (day_of l d0)) as [s|] eqn:E; cbn [app lookup].
  - destruct (Z.eqb_spec d0 d) as [->|Hne].
    + rewrite Z.eqb_refl. cbn [orb]. rewrite E. reflexivity.
    + replace (d =? d0) with false by (symmetry; apply Z.eqb_neq; congruence).
      cbn [orb]. exact IH.
  - rewrite IH. destruct (Z.eqb_spec d d0) as [->|Hne]; cbn [orb]; [|reflexivity].
    rewrite E. destruct (existsb (Z.eqb d0) r); reflexivity.
Qed.

Lemma decode_entry_items l k sched days :
  zlen l = 7 * 1440 -> Forall (fun d => 0 <= d < 7) days ->
  In (k, sched) (flat_map (decode_entry l) days) ->
  0 <= k < 7 /\ to_vector sched = Ok (day_of l k) /\ normal_day sched.
Proof.
  intros Hl Hdays Hin. apply in_flat_map in Hin. destruct Hin as (d & Hd & Hin).
  rewrite Forall_forall in Hdays. specialize (Hdays d Hd).
  unfold decode_entry in Hin.
  pose proof (decode_day_encodes (day_of l d) (zlen_day_of l d Hl Hdays)) as He.
  destruct (decode_day (day_of l d)) as [s|]; [|destruct Hin].
  destruct Hin as [[= <- <-]|[]]. destruct He. auto.
Qed.

Section Rebuilding.
Variable pytz_timezone : string -> option tzinfo.

(** X14: on every window with a boolean grid [format_schedule] returns
    a dict whose day schedules are in normal form, and [from_raw] builds
    from that dict a window with the same grid, unless no minute of the
    week is on: the dict is then empty and [from_raw] raises the
    [AssertionError] for an empty schedule. *)
Theorem format_schedule_rebuilds (W : WeeklySchedule) (tz : string) (z : tzinfo) :
  well_formed W -> pytz_timezone tz = Some z ->
  exists formatted,
    format_schedule W = Ok formatted /\
    (forall day sched, In (day, sched) formatted -> normal_day sched) /\
    from_raw pytz_timezone (RawDict formatted) (Some tz) =
    if np_any (_schedule W)
    then Ok (mk_sched (_schedule W) (Some tz) (Some z) None)
    else Raise (AssertionError "raw schedule can't be empty").
Proof.
  intros (l & Hg & Hl) Hz. exists (flat_map (decode_entry l) (py_range 0 7)).
  split; [apply (format_schedule_bool W l Hg Hl)|]. split.
  - intros day sched Hin.
    apply (decode_entry_items l day sched _ Hl week_days_range Hin).
  - rewrite Hg.
    change (np_any (bool_array [7; 24; 60] l)) with (existsb (fun b : bool => b) l).
    destruct (existsb (fun b : bool => b) l) eqn:Hex.
    + set (formatted := flat_map (decode_entry l) (py_range 0 7)).
      assert (Hall : forallb (fun item => in_range7 (fst item) && accepted_day (snd item))
                       formatted = true).
      { apply forallb_forall. intros [k sched] Hin. cbn [fst snd].
        destruct (decode_entry_items l k sched _ Hl week_days_range Hin)
          as (Hk & Hv & _).
        apply andb_true_iff. split; [apply in_range7_spec; exact Hk|].
        apply (to_vector_accepted sched _ Hv). }
      destruct (to_matrix_loop_accepts_all formatted _ (zlen_week_zeros false) Hall)
        as (a & Ha).
      assert (Hnd : NoDup (map fst formatted)).
      { unfold formatted. rewrite format_keys by (auto using week_days_range).
        apply NoDup_filter, week_days_nodup. }
      destruct (to_matrix_loop_rows formatted _ a (zlen_week_zeros false) Hnd Ha)
        as (l' & -> & Hl' & Hrows).
      assert (Heq : l' = l).
      { apply grid_ext; auto. intros d Hd. rewrite Hrows by assumption.
        unfold formatted. rewrite lookup_decode, existsb_py_range.
        replace ((0 <=? d) && (d <? 7)) with true
          by (symmetry; apply andb_true_iff; rewrite Z.leb_le, Z.ltb_lt; lia).
        pose proof (decode_day_encodes (day_of l d) (zlen_day_of l d Hl Hd)) as He.
        destruct (decode_day (day_of l d)) as [s|].
        - destruct He as [Hs _]. unfold vector_of. rewrite Hs. reflexivity.
        - rewrite day_of_week_zeros by assumption. symmetry. exact He. }
      subst l'. apply from_raw_dict; [|exact Ha|exact Hz].
      destruct (existsb_zth l Hex) as (i & Hi & Hon). rewrite Hl in Hi.
      pose proof (Z.div_mod i 1440). pose proof (Z.mod_pos_bound i 1440).
      assert (Hd : 0 <= i / 1440 < 7).
      { split; [apply Z.div_pos; lia|apply Z.div_lt_upper_bound; lia]. }
      assert (Hday : zth (i mod 1440) (day_of l (i / 1440)) false = true).
      { rewrite zth_day_of by lia. rewrite <- Hon. f_equal. lia. }
      pose proof (decode_day_encodes (day_of l (i / 1440))
                    (zlen_day_of l _ Hl Hd)) as He.
      destruct (decode_day (day_of l (i / 1440))) as [s|] eqn:E.
      * intros Hnil.
        assert (Hin : In (i / 1440, s) formatted).
        { unfold formatted. apply in_flat_map. exists (i / 1440).
          split; [apply py_range_in; lia|]. unfold decode_entry. rewrite E.
          left. reflexivity. }
        rewrite Hnil in Hin. destruct Hin.
      * rewrite He in Hday. rewrite zth_zrepeat in Hday by lia. discriminate.
    + replace (flat_map (decode_entry l) (py_range 0 7)) with (@nil (Z * day_sched));
        [apply from_raw_empty|].
      symmetry. rewrite (flat_map_ext_in (decode_entry l) (fun _ => [])); [reflexivity|].
      intros d Hd. apply in_py_range in Hd. unfold decode_entry.
      assert (Hnone : decode_day (day_of l d) = None).
      { apply decode_day_none_iff; [apply zlen_day_of; assumption|].
        unfold day_of, ztake, zdrop. apply existsb_firstn, existsb_skipn, Hex. }
      rewrite Hnone. reflexivity.
Qed.
End Rebuilding.

Lemma format_schedule_rebuilds_witness :
  exists formatted,
    format_schedule window_6_18 = Ok formatted /\
    from_raw tz_table (RawDict formatted) (Some "UTC"%string) = Ok window_6_18.
Proof.
  destruct (format_schedule_rebuilds tz_table window_6_18 "UTC"%string utc)
    as (formatted & H1 & _ & H3).
  - exact well_formed_window_6_18.
  - reflexivity.
  - exists formatted. split; [exact H1|]. rewrite H3.
    replace (np_any (_schedule window_6_18)) with true by (vm_compute; reflexivity).
    reflexivity.
Defined.

(** ** The order of the entries of a dict *)

Lemma in_lookup day (items : raw_dict) sched :
  NoDup (map fst items) -> In (day, sched) items -> lookup day items = Some sched.
Proof.
  induction items as [|[k s] r IH]; cbn [map fst lookup]; [intros _ []|].
  intros Hnd [[= -> ->]|Hin].
  - rewrite Z.eqb_refl. reflexivity.
  - inversion Hnd as [|? ? Hk Hr]; subst.
    destruct (Z.eqb_spec k day) as [->|Hne]; [|auto].
    exfalso. apply Hk. apply in_map_iff. exists (day, sched). auto.
Qed.

Lemma lookup_permutation (S1 S2 : raw_dict) day :
  Permutation S1 S2 -> NoDup (map fst S1) -> lookup day S1 = lookup day S2.
Proof.
  intros Hp Hnd.
  assert (Hnd2 : NoDup (map fst S2)).
  { apply Permutation_NoDup with (map fst S1); [apply Permutation_map|]; assumption. }
  destruct (lookup day S1) as [s|] eqn:E1.
  - symmetry. apply in_lookup; [exact Hnd2|].
    apply Permutation_in with S1; [exact Hp|]. apply lookup_in. exact E1.
  - destruct (lookup day S2) as [s|] eqn:E2; [|reflexivity].
    apply lookup_in in E2. apply Permutation_in with (l' := S1) in E2;
      [|apply Permutation_sym; exact Hp].
    rewrite (in_lookup day S1 s Hnd E2) in E1. discriminate.
Qed.

Section EntryOrder.
Variable pytz_timezone : string -> option tzinfo.

(** X15: the window that [from_raw] builds from a dict does not depend
    on the order in which the entries of the dict were inserted: when it
    returns a window for a dict, it returns the same window for every
    dict with the same entries in another order. *)
Theorem from_raw_entry_order (S1 S2 : raw_dict) (tz : option string)
  (W : WeeklySchedule) :
  Permutation S1 S2 -> NoDup (map fst S1) ->
  from_raw pytz_timezone (RawDict S1) tz = Ok W ->
  from_raw pytz_timezone (RawDict S2) tz = Ok W.
Proof.
  intros Hp Hnd HW. destruct tz as [tz|]; [|discriminate].
  destruct (from_raw_resolves pytz_timezone _ _ _ HW) as (z & Hz & Ht & Hpz & Hf).
  pose proof (from_raw_dict_matrix pytz_timezone S1 (Some tz) W HW) as Hm1.
  destruct (to_matrix_loop_rows S1 _ _ (zlen_week_zeros false) Hnd Hm1)
    as (l1 & Hg1 & Hl1 & Hrows1).
  assert (Hnd2 : NoDup (map fst S2)).
  { apply Permutation_NoDup with (map fst S1); [apply Permutation_map|]; assumption. }
  assert (Hall : forallb (fun item => in_range7 (fst item) && accepted_day (snd item))
                   S2 = true).
  { apply forallb_forall. intros [k sched] Hin. cbn [fst snd].
    apply Permutation_in with (l' := S1) in Hin; [|apply Permutation_sym; exact Hp].
    destruct (to_matrix_loop_accepts S1 _ _ k sched Hm1 Hin) as (Hk & v & Hv).
    apply andb_true_iff. split; [apply in_range7_spec; exact Hk|].
    apply (to_vector_accepted sched v Hv). }
  destruct (to_matrix_loop_accepts_all S2 _ (zlen_week_zeros false) Hall) as (a2 & Ha2).
  destruct (to_matrix_loop_rows S2 _ _ (zlen_week_zeros false) Hnd2 Ha2)
    as (l2 & Hg2 & Hl2 & Hrows2).
  assert (Heq : l2 = l1).
  { apply grid_ext; auto. intros d Hd.
    rewrite Hrows1, Hrows2 by assumption.
    rewrite (lookup_permutation S1 S2 d Hp Hnd). reflexivity. }
  assert (Hne : S2 <> []).
  { intros ->. apply Permutation_sym, Permutation_nil in Hp. subst S1. discriminate. }
  rewrite (from_raw_dict pytz_timezone S2 tz z a2 Hne Ha2 Hz).
  destruct W as [a t p f]. cbn [_schedule _timezone _pytz _is_working_day_fun] in *.
  congruence.
Qed.
End EntryOrder.

Lemma from_raw_entry_order_witness :
  from_raw tz_table
    (RawDict [(1, Single (8, 0) (9, 0)); (0, Single (6, 0) (18, 0))])
    (Some "UTC"%string) =
  from_raw tz_table
    (RawDict [(0, Single (6, 0) (18, 0)); (1, Single (8, 0) (9, 0))])
    (Some "UTC"%string).
Proof.
  destruct (from_raw tz_table
              (RawDict [(0, Single (6, 0) (18, 0)); (1, Single (8, 0) (9, 0))])
              (Some "UTC"%string)) as [W|e] eqn:E.
  - apply (from_raw_entry_order tz_table
             [(0, Single (6, 0) (18, 0)); (1, Single (8, 0) (9, 0))]
             [(1, Single (8, 0) (9, 0)); (0, Single (6, 0) (18, 0))]
             (Some "UTC"%string) W).
    + apply perm_swap.
    + repeat constructor; simpl; intuition lia.
    + exact E.
  - vm_compute in E. discriminate.
Defined.

(** ** [invert] on [always] and [never] *)

Lemma map_zrepeat {A B} (f : A -> B) x n : map f (zrepeat x n) = zrepeat (f x) n.
Proof. unfold zrepeat. apply map_repeat. Qed.

Section AlwaysNeverInverted.
Variable pytz_timezone : string -> option tzinfo.

(** X16: [invert] exchanges the windows of [always()] and [never()]:
    the inverse of each is a window equal to the other in its grid, its
    time zone and its unset working-day predicate. *)
Theorem invert_always_never (z : tzinfo) :
  pytz_timezone "UTC"%string = Some z ->
  exists A N,
    always pytz_timezone = Ok A /\ never pytz_timezone = Ok N /\
    invert pytz_timezone A = Ok N /\ invert pytz_timezone N = Ok A.
Proof.
  intros Hz.
  exists (mk_sched (np_ones [7; 24; 60]) (Some "UTC"%string) (Some z) None).
  exists (mk_sched (np_zeros [7; 24; 60]) (Some "UTC"%string) (Some z) None).
  split; [|split; [|split]].
  - unfold always.
    rewrite (from_raw_array _ (np_ones [7; 24; 60]) _ z Hz (validate_bool _)).
    cbn [rbind]. unfold build, for_timezone. rewrite Hz. reflexivity.
  - unfold never, build, for_timezone. rewrite Hz. reflexivity.
  - rewrite (invert_bool pytz_timezone
               (mk_sched (np_ones [7; 24; 60]) (Some "UTC"%string) (Some z) None)
               (zrepeat true (size [7; 24; 60]))
               "UTC"%string z z Hz eq_refl eq_refl Hz).
    rewrite map_zrepeat. reflexivity.
  - rewrite (invert_bool pytz_timezone
               (mk_sched (np_zeros [7; 24; 60]) (Some "UTC"%string) (Some z) None)
               (zrepeat false (size [7; 24; 60]))
               "UTC"%string z z Hz eq_refl eq_refl Hz).
    rewrite map_zrepeat. reflexivity.
Qed.
End AlwaysNeverInverted.

Lemma invert_always_never_witness :
  exists A N,
    always tz_table = Ok A /\ never tz_table = Ok N /\
    invert tz_table A = Ok N /\ invert tz_table N = Ok A.
Proof. apply (invert_always_never tz_table utc). reflexivity. Defined.
